(** * mtprotoproxy.py: stream codecs, handshakes and key derivation

    A shallow embedding of the proxy's byte-level code.  Python [bytes] are
    lists of [byte]; Python integers are [Z]; a call that may raise returns an
    [outcome]; objects with mutable fields ([self.seq_no], the read position
    of a socket) are threaded through a small state-and-exception monad. *)

From Stdlib.Strings Require Import String Byte.
From Stdlib Require Import ZArith List Lia Bool.
Import ListNotations.
Local Open Scope Z_scope.

Definition bytes := list byte.

(** ** Python built-ins the proxy relies on *)

Module Py.

Definition byte_to_int (b : byte) : Z := Z.of_N (Byte.to_N b).

Definition int_to_byte (z : Z) : byte :=
  match Byte.of_N (Z.to_N (z mod 256)) with
  | Some b => b
  | None => x00
  end.

(** [int.from_bytes(bs, "little")] *)
Fixpoint from_bytes_little (bs : bytes) : Z :=
  match bs with
  | [] => 0
  | b :: rest => byte_to_int b + 256 * from_bytes_little rest
  end.

(** [int.from_bytes(bs, "big")] *)
Definition from_bytes_big (bs : bytes) : Z := from_bytes_little (rev bs).

(** [int.from_bytes(bs, "little", signed=True)]: two's complement. *)
Definition from_bytes_little_signed (bs : bytes) : Z :=
  let v := from_bytes_little bs in
  let w := 8 * Z.of_nat (length bs) in
  if (0 <? w) && (2 ^ (w - 1) <=? v) then v - 2 ^ w else v.

(** The [k] low-order base-256 digits of [n], least significant first. *)
Fixpoint little_digits (k : nat) (n : Z) : bytes :=
  match k with
  | O => []
  | S k' => int_to_byte n :: little_digits k' (n / 256)
  end.

(** Slices [s[a:b]] and [s[::-1]] for non-negative indices. *)
Definition slice {A : Type} (a b : nat) (s : list A) : list A :=
  firstn (b - a) (skipn a s).

Definition byte_xor (a b : byte) : byte :=
  int_to_byte (Z.lxor (byte_to_int a) (byte_to_int b)).

(** [abs] *)
Definition abs (z : Z) : Z := Z.abs z.

End Py.

(** ** Exceptions and the state monad of a stream object

    [LoopBound] is no exception of Python: it marks a loop of the model that
    used up the turns it was given. *)

Inductive exn : Type :=
| IncompleteReadError
| OverflowError
| NameError
| TypeError
| LoopBound.

Inductive outcome (A : Type) : Type :=
| Ok (a : A)
| Raise (e : exn).

Arguments Ok {A} a.
Arguments Raise {A} e.

(** What a [write] method hands back: [None] from the transport, or the
    integer [0] of a refused write. *)
Inductive pyret : Type :=
| PyNone
| PyInt (z : Z).

Definition M (St A : Type) : Type := St -> outcome (A * St).

Definition ret {St A : Type} (a : A) : M St A := fun s => Ok (a, s).

Definition bind {St A B : Type} (m : M St A) (k : A -> M St B) : M St B :=
  fun s =>
    match m s with
    | Ok (a, s') => k a s'
    | Raise e => Raise e
    end.

Definition raise {St A : Type} (e : exn) : M St A := fun _ => Raise e.

Declare Scope py_scope.
Delimit Scope py_scope with py.
Notation "x <- m ;; k" := (bind m (fun x => k))
  (at level 61, m at next level, right associativity) : py_scope.
Notation "m ;;; k" := (bind m (fun _ => k))
  (at level 61, right associativity) : py_scope.
Local Open Scope py_scope.

(** [int.to_bytes(n, k, "little")] raises [OverflowError] out of range. *)
Definition to_bytes_little (n : Z) (k : nat) : outcome bytes :=
  if (0 <=? n) && (n <? 2 ^ (8 * Z.of_nat k))
  then Ok (Py.little_digits k n)
  else Raise OverflowError.

(** [int.to_bytes(n, k, "little", signed=True)] *)
Definition to_bytes_little_signed (n : Z) (k : nat) : outcome bytes :=
  let w := 8 * Z.of_nat k in
  if (- 2 ^ (w - 1) <=? n) && (n <? 2 ^ (w - 1))
  then Ok (Py.little_digits k (n mod 2 ^ w))
  else Raise OverflowError.

(** Lift a pure conversion that may raise into a stream monad. *)
Definition lift {St A : Type} (o : outcome A) : M St A :=
  fun s =>
    match o with
    | Ok a => Ok (a, s)
    | Raise e => Raise e
    end.

(** ** asyncio streams

    The reading side of a connection holds the segments still to be
    delivered, in arrival order; [read n] hands out at most one segment (and
    at most [n] bytes of it), [readexactly n] takes [n] bytes across segment
    boundaries and raises [IncompleteReadError] when the peer sent fewer.
    The writing side records the bytes handed to the transport. *)

Record StreamReader : Type := mkStreamReader {
  segments : list bytes;
  eof_fed : bool
}.

Record StreamWriter : Type := mkStreamWriter {
  sent : bytes
}.

Fixpoint drop_segments (n : nat) (segs : list bytes) : list bytes :=
  match segs with
  | [] => []
  | c :: rest =>
      if (n <? length c)%nat then skipn n c :: rest
      else drop_segments (n - length c) rest
  end.

Definition pending (s : StreamReader) : bytes := concat (segments s).

Definition StreamReader_read (n : nat) : M StreamReader bytes :=
  fun s =>
    match segments s with
    | [] => Ok ([], s)
    | c :: rest =>
        if (length c <=? n)%nat
        then Ok (c, mkStreamReader rest (eof_fed s))
        else Ok (firstn n c, mkStreamReader (skipn n c :: rest) (eof_fed s))
    end.

Definition StreamReader_readexactly (n : nat) : M StreamReader bytes :=
  fun s =>
    if (n <=? length (pending s))%nat
    then Ok (firstn n (pending s),
             mkStreamReader (drop_segments n (segments s)) (eof_fed s))
    else Raise IncompleteReadError.

Definition StreamReader_feed_eof : M StreamReader unit :=
  fun s => Ok (tt, mkStreamReader (segments s) true).

Definition StreamWriter_write (data : bytes) : M StreamWriter pyret :=
  fun w => Ok (PyNone, mkStreamWriter (sent w ++ data)).

(** ** binascii.crc32

    The reflected CRC-32 of zlib: polynomial [0xEDB88320], initial value and
    final xor [0xFFFFFFFF], one shift per input bit. *)

Module CRC32.

Definition POLY : Z := 0xEDB88320.

Definition step (c : Z) : Z :=
  if Z.testbit c 0 then Z.lxor (Z.shiftr c 1) POLY else Z.shiftr c 1.

Definition update (c : Z) (b : byte) : Z :=
  Nat.iter 8 step (Z.lxor c (Py.byte_to_int b)).

Definition crc32 (data : bytes) : Z :=
  Z.lxor (fold_left update data 0xFFFFFFFF) 0xFFFFFFFF.

End CRC32.

(** ** hashlib

    The digests are computed as published (FIPS 180-4, RFC 1321) on 32-bit
    words held in [Z]. *)

Module Words.

Definition add32 (a b : Z) : Z := (a + b) mod 2 ^ 32.

Definition rotr32 (n x : Z) : Z :=
  Z.lor (Z.shiftr x n) (Z.shiftl x (32 - n) mod 2 ^ 32).

Definition rotl32 (n x : Z) : Z :=
  Z.lor (Z.shiftl x n mod 2 ^ 32) (Z.shiftr x (32 - n)).

Definition not32 (x : Z) : Z := Z.lxor x 0xFFFFFFFF.

(** The [k] low-order base-256 digits of [n], most significant first. *)
Definition big_digits (k : nat) (n : Z) : bytes := rev (Py.little_digits k n).

Definition word_be (bs : bytes) : Z := Py.from_bytes_big bs.
Definition word_le (bs : bytes) : Z := Py.from_bytes_little bs.

(** Cut [l] into [n] pieces of [size] elements. *)
Fixpoint chunks {A : Type} (size n : nat) (l : list A) : list (list A) :=
  match n with
  | O => []
  | S n' => firstn size l :: chunks size n' (skipn size l)
  end.

(** Merkle-Damgard padding to 64-byte blocks: the byte [0x80], zeros, and
    the bit length of the message in eight bytes ([len_digits] fixes their
    order). *)
Definition pad64 (len_digits : nat -> Z -> bytes) (msg : bytes) : bytes :=
  let n := Z.of_nat (length msg) in
  let zeros := Z.to_nat ((55 - n) mod 64) in
  msg ++ [x80] ++ repeat x00 zeros ++ len_digits 8%nat ((8 * n) mod 2 ^ 64).

Definition blocks64 (padded : bytes) : list bytes :=
  chunks 64 (length padded / 64) padded.

Definition words_of (conv : bytes -> Z) (block : bytes) : list Z :=
  map conv (chunks 4 16 block).

End Words.

Module SHA256.
Import Words.

Definition is_prime (n : Z) : bool :=
  (1 <? n) && forallb (fun d => negb (n mod Z.of_nat d =? 0))
                      (seq 2 (Z.to_nat n - 2)).

(** The first sixty-four primes. *)
Definition primes : list Z :=
  filter is_prime (map Z.of_nat (seq 2 310)).

(** Integer cube root, one bit at a time from bit [bits - 1] down. *)
Fixpoint cbrt_bits (bits : nat) (acc n : Z) : Z :=
  match bits with
  | O => acc
  | S b =>
      let cand := acc + 2 ^ Z.of_nat b in
      if cand * cand * cand <=? n then cbrt_bits b cand n else cbrt_bits b acc n
  end.

(** First 32 bits of the fractional parts of the cube roots of the primes. *)
Definition K : list Z :=
  Eval vm_compute in map (fun p => cbrt_bits 40 0 (p * 2 ^ 96) mod 2 ^ 32) primes.

(** First 32 bits of the fractional parts of the square roots of the first
    eight primes. *)
Definition H0 : list Z :=
  Eval vm_compute in map (fun p => Z.sqrt (p * 2 ^ 64) mod 2 ^ 32) (firstn 8 primes).

Definition Ch (x y z : Z) : Z := Z.lxor (Z.land x y) (Z.land (not32 x) z).
Definition Maj (x y z : Z) : Z :=
  Z.lxor (Z.lxor (Z.land x y) (Z.land x z)) (Z.land y z).
Definition Sigma0 (x : Z) : Z :=
  Z.lxor (Z.lxor (rotr32 2 x) (rotr32 13 x)) (rotr32 22 x).
Definition Sigma1 (x : Z) : Z :=
  Z.lxor (Z.lxor (rotr32 6 x) (rotr32 11 x)) (rotr32 25 x).
Definition sigma0 (x : Z) : Z :=
  Z.lxor (Z.lxor (rotr32 7 x) (rotr32 18 x)) (Z.shiftr x 3).
Definition sigma1 (x : Z) : Z :=
  Z.lxor (Z.lxor (rotr32 17 x) (rotr32 19 x)) (Z.shiftr x 10).

(** The message schedule, most recent word first: [rw] holds
    [W(t-1), W(t-2), ...]. *)
Fixpoint schedule (n : nat) (rw : list Z) : list Z :=
  match n with
  | O => rw
  | S n' =>
      let w := add32 (add32 (sigma1 (nth 1 rw 0)) (nth 6 rw 0))
                     (add32 (sigma0 (nth 14 rw 0)) (nth 15 rw 0)) in
      schedule n' (w :: rw)
  end.

Definition state : Type := (Z * Z * Z * Z * Z * Z * Z * Z)%type.

Definition round (s : state) (kw : Z * Z) : state :=
  let '(a, b, c, d, e, f, g, h) := s in
  let t1 := add32 (add32 (add32 h (Sigma1 e)) (add32 (Ch e f g) (fst kw))) (snd kw) in
  let t2 := add32 (Sigma0 a) (Maj a b c) in
  (add32 t1 t2, a, b, c, add32 d t1, e, f, g).

Definition compress (s : state) (block : bytes) : state :=
  let w := rev (schedule 48 (rev (words_of word_be block))) in
  let '(a, b, c, d, e, f, g, h) := fold_left round (combine K w) s in
  let '(a0, b0, c0, d0, e0, f0, g0, h0) := s in
  (add32 a0 a, add32 b0 b, add32 c0 c, add32 d0 d,
   add32 e0 e, add32 f0 f, add32 g0 g, add32 h0 h).

Definition init : state :=
  (nth 0 H0 0, nth 1 H0 0, nth 2 H0 0, nth 3 H0 0,
   nth 4 H0 0, nth 5 H0 0, nth 6 H0 0, nth 7 H0 0).

(** [hashlib.sha256(msg).digest()] *)
Definition digest (msg : bytes) : bytes :=
  let '(a, b, c, d, e, f, g, h) :=
    fold_left compress (blocks64 (pad64 big_digits msg)) init in
  big_digits 4 a ++ big_digits 4 b ++ big_digits 4 c ++ big_digits 4 d
  ++ big_digits 4 e ++ big_digits 4 f ++ big_digits 4 g ++ big_digits 4 h.

End SHA256.

Module MD5.
Import Words.

(** [floor (2^32 * |sin (i + 1)|)] for [i] from 0 to 63. *)
Definition T : list Z :=
  [0xd76aa478; 0xe8c7b756; 0x242070db; 0xc1bdceee;
   0xf57c0faf; 0x4787c62a; 0xa8304613; 0xfd469501;
   0x698098d8; 0x8b44f7af; 0xffff5bb1; 0x895cd7be;
   0x6b901122; 0xfd987193; 0xa679438e; 0x49b40821;
   0xf61e2562; 0xc040b340; 0x265e5a51; 0xe9b6c7aa;
   0xd62f105d; 0x02441453; 0xd8a1e681; 0xe7d3fbc8;
   0x21e1cde6; 0xc33707d6; 0xf4d50d87; 0x455a14ed;
   0xa9e3e905; 0xfcefa3f8; 0x676f02d9; 0x8d2a4c8a;
   0xfffa3942; 0x8771f681; 0x6d9d6122; 0xfde5380c;
   0xa4beea44; 0x4bdecfa9; 0xf6bb4b60; 0xbebfbc70;
   0x289b7ec6; 0xeaa127fa; 0xd4ef3085; 0x04881d05;
   0xd9d4d039; 0xe6db99e5; 0x1fa27cf8; 0xc4ac5665;
   0xf4292244; 0x432aff97; 0xab9423a7; 0xfc93a039;
   0x655b59c3; 0x8f0ccc92; 0xffeff47d; 0x85845dd1;
   0x6fa87e4f; 0xfe2ce6e0; 0xa3014314; 0x4e0811a1;
   0xf7537e82; 0xbd3af235; 0x2ad7d2bb; 0xeb86d391].

Definition shifts : list Z :=
  concat (map (fun row => row ++ row ++ row ++ row)
              [[7; 12; 17; 22]; [5; 9; 14; 20]; [4; 11; 16; 23]; [6; 10; 15; 21]]).

Definition state : Type := (Z * Z * Z * Z)%type.

Definition round (m : list Z) (s : state) (i : nat) : state :=
  let '(a, b, c, d) := s in
  let '(f, g) :=
    if (i <? 16)%nat then (Z.lor (Z.land b c) (Z.land (not32 b) d), i)
    else if (i <? 32)%nat then
      (Z.lor (Z.land d b) (Z.land (not32 d) c), ((5 * i + 1) mod 16)%nat)
    else if (i <? 48)%nat then
      (Z.lxor (Z.lxor b c) d, ((3 * i + 5) mod 16)%nat)
    else (Z.lxor c (Z.lor b (not32 d)), ((7 * i) mod 16)%nat) in
  let f := add32 (add32 f a) (add32 (nth i T 0) (nth g m 0)) in
  (d, add32 b (rotl32 (nth i shifts 0) f), b, c).

Definition compress (s : state) (block : bytes) : state :=
  let m := words_of word_le block in
  let '(a, b, c, d) := fold_left (round m) (seq 0 64) s in
  let '(a0, b0, c0, d0) := s in
  (add32 a0 a, add32 b0 b, add32 c0 c, add32 d0 d).

Definition init : state := (0x67452301, 0xefcdab89, 0x98badcfe, 0x10325476).

(** [hashlib.md5(msg).digest()] *)
Definition digest (msg : bytes) : bytes :=
  let '(a, b, c, d) :=
    fold_left compress (blocks64 (pad64 Py.little_digits msg)) init in
  Py.little_digits 4 a ++ Py.little_digits 4 b
  ++ Py.little_digits 4 c ++ Py.little_digits 4 d.

End MD5.

Module SHA1.
Import Words.

(** The message schedule, most recent word first. *)
Fixpoint schedule (n : nat) (rw : list Z) : list Z :=
  match n with
  | O => rw
  | S n' =>
      let w := rotl32 1 (Z.lxor (Z.lxor (nth 2 rw 0) (nth 7 rw 0))
                                (Z.lxor (nth 13 rw 0) (nth 15 rw 0))) in
      schedule n' (w :: rw)
  end.

Definition state : Type := (Z * Z * Z * Z * Z)%type.

Definition round (s : state) (tw : nat * Z) : state :=
  let '(a, b, c, d, e) := s in
  let t := fst tw in
  let '(f, k) :=
    if (t <? 20)%nat then (Z.lxor (Z.land b c) (Z.land (not32 b) d), 0x5a827999)
    else if (t <? 40)%nat then (Z.lxor (Z.lxor b c) d, 0x6ed9eba1)
    else if (t <? 60)%nat then
      (Z.lxor (Z.lxor (Z.land b c) (Z.land b d)) (Z.land c d), 0x8f1bbcdc)
    else (Z.lxor (Z.lxor b c) d, 0xca62c1d6) in
  let temp := add32 (add32 (rotl32 5 a) f) (add32 (add32 e k) (snd tw)) in
  (temp, a, rotl32 30 b, c, d).

Definition compress (s : state) (block : bytes) : state :=
  let w := rev (schedule 64 (rev (words_of word_be block))) in
  let '(a, b, c, d, e) := fold_left round (combine (seq 0 80) w) s in
  let '(a0, b0, c0, d0, e0) := s in
  (add32 a0 a, add32 b0 b, add32 c0 c, add32 d0 d, add32 e0 e).

Definition init : state :=
  (0x67452301, 0xefcdab89, 0x98badcfe, 0x10325476, 0xc3d2e1f0).

(** [hashlib.sha1(msg).digest()] *)
Definition digest (msg : bytes) : bytes :=
  let '(a, b, c, d, e) :=
    fold_left compress (blocks64 (pad64 big_digits msg)) init in
  big_digits 4 a ++ big_digits 4 b ++ big_digits 4 c
  ++ big_digits 4 d ++ big_digits 4 e.

End SHA1.

(** ** The AES block cipher (FIPS 197)

    [Crypto.Cipher.AES] and [pyaes] both implement it; the S-box is computed
    from its definition (inverse in GF(2^8), then the affine map). *)

Module AES.
Import Words.

Definition xtime (a : Z) : Z :=
  let s := 2 * a in
  if 256 <=? s then Z.lxor (s - 256) 0x1b else s.

Fixpoint gmul_bits (n : nat) (a b acc : Z) : Z :=
  match n with
  | O => acc
  | S n' =>
      gmul_bits n' (xtime a) (Z.shiftr b 1) (if Z.odd b then Z.lxor acc a else acc)
  end.

(** Product in GF(2^8) modulo [x^8 + x^4 + x^3 + x + 1]. *)
Definition gmul (a b : Z) : Z := gmul_bits 8 a b 0.

(** [a^254], the inverse of a non-zero [a]. *)
Definition ginv (a : Z) : Z := Nat.iter 253 (gmul a) a.

Definition rotl8 (k x : Z) : Z :=
  Z.lor (Z.shiftl x k) (Z.shiftr x (8 - k)) mod 256.

Definition sbox_of (a : Z) : Z :=
  let b := ginv a in
  Z.lxor (Z.lxor (Z.lxor b (rotl8 1 b)) (Z.lxor (rotl8 2 b) (rotl8 3 b)))
         (Z.lxor (rotl8 4 b) 0x63).

Definition SBOX : list Z :=
  Eval vm_compute in map (fun i => sbox_of (Z.of_nat i)) (seq 0 256).

Definition sub_byte (a : Z) : Z := nth (Z.to_nat a) SBOX 0.

Definition xor_list (a b : list Z) : list Z :=
  map (fun xy => Z.lxor (fst xy) (snd xy)) (combine a b).

Definition rot_word (w : list Z) : list Z := skipn 1 w ++ firstn 1 w.

(** Key expansion; [rw] holds the words computed so far, the latest first,
    and [i] is the index of the next word. *)
Fixpoint expand (n nk i : nat) (rcon : Z) (rw : list (list Z)) : list (list Z) :=
  match n with
  | O => rw
  | S n' =>
      let temp := nth 0 rw [] in
      let back := nth (nk - 1) rw [] in
      if (i mod nk =? 0)%nat then
        let temp := xor_list (map sub_byte (rot_word temp)) [rcon; 0; 0; 0] in
        expand n' nk (S i) (xtime rcon) (xor_list back temp :: rw)
      else if (6 <? nk)%nat && (i mod nk =? 4)%nat then
        expand n' nk (S i) rcon (xor_list back (map sub_byte temp) :: rw)
      else
        expand n' nk (S i) rcon (xor_list back temp :: rw)
  end.

(** The round keys of [key] (16, 24 or 32 bytes), sixteen bytes each. *)
Definition round_keys (key : list Z) : list (list Z) :=
  let nk := (length key / 4)%nat in
  let total := (4 * (nk + 7))%nat in
  let w := rev (expand (total - nk) nk nk 1 (rev (chunks 4 nk key))) in
  map (fun ws => concat ws) (chunks 4 (nk + 7) w).

Definition sub_bytes (s : list Z) : list Z := map sub_byte s.

(** Byte [r + 4c] of the state is row [r] of column [c]. *)
Definition shift_rows (s : list Z) : list Z :=
  map (fun i => nth (i mod 4 + 4 * ((i / 4 + i mod 4) mod 4))%nat s 0) (seq 0 16).

Definition mix_column (col : list Z) : list Z :=
  let a0 := nth 0 col 0 in let a1 := nth 1 col 0 in
  let a2 := nth 2 col 0 in let a3 := nth 3 col 0 in
  [Z.lxor (Z.lxor (gmul 2 a0) (gmul 3 a1)) (Z.lxor a2 a3);
   Z.lxor (Z.lxor a0 (gmul 2 a1)) (Z.lxor (gmul 3 a2) a3);
   Z.lxor (Z.lxor a0 a1) (Z.lxor (gmul 2 a2) (gmul 3 a3));
   Z.lxor (Z.lxor (gmul 3 a0) a1) (Z.lxor a2 (gmul 2 a3))].

Definition mix_columns (s : list Z) : list Z :=
  concat (map mix_column (chunks 4 4 s)).

Definition full_round (s rk : list Z) : list Z :=
  xor_list (mix_columns (shift_rows (sub_bytes s))) rk.

Definition cipher (rks : list (list Z)) (block : list Z) : list Z :=
  let nr := (length rks - 1)%nat in
  let s := xor_list block (nth 0 rks []) in
  let s := fold_left full_round (firstn (nr - 1) (skipn 1 rks)) s in
  xor_list (shift_rows (sub_bytes s)) (nth nr rks []).

(** One block under [key]: what [AES.new(key, AES.MODE_ECB).encrypt(block)]
    returns. *)
Definition encrypt_block (key block : bytes) : bytes :=
  map Py.int_to_byte
      (cipher (round_keys (map Py.byte_to_int key)) (map Py.byte_to_int block)).

End AES.

(** ** Constants of the module *)

Definition SKIP_LEN : nat := 8.
Definition PREKEY_LEN : nat := 32.
Definition KEY_LEN : nat := 32.
Definition IV_LEN : nat := 16.
Definition HANDSHAKE_LEN : nat := 64.
Definition MAGIC_VAL_POS : nat := 56.

Definition MAGIC_VAL_TO_CHECK : bytes := [xef; xef; xef; xef].

Definition CBC_PADDING : Z := 16.
Definition PADDING_FILLER : bytes := [x04; x00; x00; x00].

Definition MIN_MSG_LEN : Z := 12.
Definition MAX_MSG_LEN : Z := 2 ^ 24.

Definition bytes_eqb (a b : bytes) : bool :=
  if list_eq_dec Byte.byte_eq_dec a b then true else false.

(** ** class MTProtoFrameStreamReader *)

Module MTProtoFrameStreamReader.

Record t : Type := mk {
  stream : StreamReader;
  seq_no : Z
}.

Definition on_stream {A : Type} (m : M StreamReader A) : M t A :=
  fun r =>
    match m (stream r) with
    | Ok (a, s') => Ok (a, mk s' (seq_no r))
    | Raise e => Raise e
    end.

Definition incr_seq_no : M t unit :=
  fun r => Ok (tt, mk (stream r) (seq_no r + 1)).

Definition get_seq_no : M t Z := fun r => Ok (seq_no r, r).

(** The [while msg_len == 4] loop.  Every turn takes four bytes off the
    stream, so the number of pending bytes bounds the number of turns: with
    that much fuel the [O] branch is reached only on a stream that is already
    empty, where [readexactly(4)] raises this very exception. *)
Fixpoint skip_paddings (fuel : nat) (msg_len_bytes : bytes) : M t bytes :=
  if Py.from_bytes_little msg_len_bytes =? 4 then
    match fuel with
    | O => raise IncompleteReadError
    | S fuel' =>
        msg_len_bytes <- on_stream (StreamReader_readexactly 4) ;;
        skip_paddings fuel' msg_len_bytes
    end
  else ret msg_len_bytes.

Definition read (buf_size : nat) : M t bytes :=
  msg_len_bytes <- on_stream (StreamReader_readexactly 4) ;;
  msg_len_bytes <- (fun r => skip_paddings (length (pending (stream r)))
                                           msg_len_bytes r) ;;
  let msg_len := Py.from_bytes_little msg_len_bytes in
  let len_is_impossible :=
    negb (msg_len mod Z.of_nat (length PADDING_FILLER) =? 0) in
  if negb ((MIN_MSG_LEN <=? msg_len) && (msg_len <=? MAX_MSG_LEN))
     || len_is_impossible
  then
    on_stream StreamReader_feed_eof ;;;
    ret []
  else
    msg_seq_bytes <- on_stream (StreamReader_readexactly 4) ;;
    let msg_seq := Py.from_bytes_little_signed msg_seq_bytes in
    expected <- get_seq_no ;;
    if negb (msg_seq =? expected) then
      on_stream StreamReader_feed_eof ;;;
      ret []
    else
      incr_seq_no ;;;
      data <- on_stream (StreamReader_readexactly (Z.to_nat (msg_len - 4 - 4 - 4))) ;;
      checksum_bytes <- on_stream (StreamReader_readexactly 4) ;;
      let checksum := Py.from_bytes_little checksum_bytes in
      let computed_checksum :=
        CRC32.crc32 (msg_len_bytes ++ msg_seq_bytes ++ data) in
      if negb (computed_checksum =? checksum) then
        on_stream StreamReader_feed_eof ;;;
        ret []
      else ret data.

End MTProtoFrameStreamReader.

(** ** class MTProtoCompactFrameStreamReader *)

Module MTProtoCompactFrameStreamReader.

Record t : Type := mk {
  stream : StreamReader
}.

Definition on_stream {A : Type} (m : M StreamReader A) : M t A :=
  fun r =>
    match m (stream r) with
    | Ok (a, s') => Ok (a, mk s')
    | Raise e => Raise e
    end.

Definition read (buf_size : nat) : M t bytes :=
  msg_len_bytes <- on_stream (StreamReader_readexactly 1) ;;
  let msg_len := Py.from_bytes_little msg_len_bytes in
  let msg_len := if 0x80 <=? msg_len then msg_len - 0x80 else msg_len in
  msg_len <- (if msg_len =? 0x7f then
                msg_len_bytes <- on_stream (StreamReader_readexactly 3) ;;
                ret (Py.from_bytes_little msg_len_bytes)
              else ret msg_len) ;;
  let msg_len := msg_len * 4 in
  data <- on_stream (StreamReader_readexactly (Z.to_nat msg_len)) ;;
  ret data.

End MTProtoCompactFrameStreamReader.

(** ** class MTProtoCompactFrameStreamWriter *)

Module MTProtoCompactFrameStreamWriter.

Record t : Type := mk {
  stream : StreamWriter;
  seq_no : Z
}.

Definition on_stream {A : Type} (m : M StreamWriter A) : M t A :=
  fun w =>
    match m (stream w) with
    | Ok (a, s') => Ok (a, mk s' (seq_no w))
    | Raise e => Raise e
    end.

Definition SMALL_PKT_BORDER : Z := 0x7f.
Definition LARGE_PKT_BORGER : Z := 256 ^ 3.

(** In the first branch the message to print is built from [len(msg)], and
    no [msg] is bound in this method or in the module: evaluating the
    argument of [print] raises [NameError] before anything is printed or
    returned. *)
Definition write (data : bytes) : M t pyret :=
  if negb (Z.of_nat (length data) mod 4 =? 0) then
    raise NameError
  else
    let len_div_four := Z.of_nat (length data) / 4 in
    if len_div_four <? SMALL_PKT_BORDER then
      on_stream (StreamWriter_write ([Py.int_to_byte len_div_four] ++ data))
    else if len_div_four <? LARGE_PKT_BORGER then
      len3 <- lift (to_bytes_little len_div_four 3) ;;
      on_stream (StreamWriter_write ([x7f] ++ len3 ++ data))
    else
      ret (PyInt 0).

End MTProtoCompactFrameStreamWriter.

(** ** class MTProtoFrameStreamWriter *)

Module MTProtoFrameStreamWriter.

Record t : Type := mk {
  stream : StreamWriter;
  seq_no : Z
}.

Definition on_stream {A : Type} (m : M StreamWriter A) : M t A :=
  fun w =>
    match m (stream w) with
    | Ok (a, s') => Ok (a, mk s' (seq_no w))
    | Raise e => Raise e
    end.

Definition get_seq_no : M t Z := fun w => Ok (seq_no w, w).

Definition incr_seq_no : M t unit :=
  fun w => Ok (tt, mk (stream w) (seq_no w + 1)).

(** [PADDING_FILLER * n] *)
Definition repeat_bytes (n : Z) (filler : bytes) : bytes :=
  concat (repeat filler (Z.to_nat n)).

Definition write (msg : bytes) : M t pyret :=
  len_bytes <- lift (to_bytes_little (Z.of_nat (length msg) + 4 + 4 + 4) 4) ;;
  seq <- get_seq_no ;;
  seq_bytes <- lift (to_bytes_little_signed seq 4) ;;
  incr_seq_no ;;;
  let msg_without_checksum := len_bytes ++ seq_bytes ++ msg in
  checksum <- lift (to_bytes_little (CRC32.crc32 msg_without_checksum) 4) ;;
  let full_msg := msg_without_checksum ++ checksum in
  let padding :=
    repeat_bytes (((- Z.of_nat (length full_msg)) mod CBC_PADDING)
                    / Z.of_nat (length PADDING_FILLER))
                 PADDING_FILLER in
  on_stream (StreamWriter_write (full_msg ++ padding)).

End MTProtoFrameStreamWriter.

(** ** create_aes_ctr

    A cipher object in counter mode: key, initial counter value and the
    number of keystream bytes used so far.  Block [i] of the keystream is the
    encryption of the counter [iv + i] written as sixteen big-endian bytes;
    encryption and decryption both xor the data with the next keystream
    bytes.  The two libraries part ways once the counter passes [2^128 - 1]:
    [pyaes] starts again at zero, [Crypto.Util.Counter] (made without
    [allow_wraparound]) raises [OverflowError]. *)

Inductive aes_library : Type :=
| PyCrypto
| PyAES.

Record AesCtr : Type := mkAesCtr {
  ctr_library : aes_library;
  ctr_key : bytes;
  ctr_iv : Z;
  ctr_pos : nat
}.

Definition create_aes_ctr (lib : aes_library) (key : bytes) (iv : Z) : AesCtr :=
  mkAesCtr lib key iv 0.

Definition keystream_byte (c : AesCtr) (p : nat) : byte :=
  let counter := (ctr_iv c + Z.of_nat (p / 16)) mod 2 ^ 128 in
  nth (p mod 16) (AES.encrypt_block (ctr_key c) (Words.big_digits 16 counter)) x00.

Definition keystream (c : AesCtr) (n : nat) : bytes :=
  map (keystream_byte c) (seq (ctr_pos c) n).

Definition xor_bytes (a b : bytes) : bytes :=
  map (fun xy => Py.byte_xor (fst xy) (snd xy)) (combine a b).

Definition counter_wraps (c : AesCtr) (n : nat) : bool :=
  match ctr_library c with
  | PyCrypto =>
      (0 <? n)%nat
      && (2 ^ 128 <=? ctr_iv c + Z.of_nat ((ctr_pos c + n - 1) / 16))
  | PyAES => false
  end.

Definition ctr_crypt (data : bytes) : M AesCtr bytes :=
  fun c =>
    let n := length data in
    if counter_wraps c n then Raise OverflowError
    else Ok (xor_bytes data (keystream c n),
             mkAesCtr (ctr_library c) (ctr_key c) (ctr_iv c) (ctr_pos c + n)).

(** The [encryptor] or [decryptor] field of a crypto wrapper: an AES object
    in counter mode, or the [FakeEncryptor] / [FakeDecryptor] of
    [handle_client]. *)
Inductive cipher : Type :=
| AesCtrCipher (c : AesCtr)
| FakeCipher.

Definition cipher_apply (data : bytes) : M cipher bytes :=
  fun ci =>
    match ci with
    | AesCtrCipher c =>
        match ctr_crypt data c with
        | Ok (out, c') => Ok (out, AesCtrCipher c')
        | Raise e => Raise e
        end
    | FakeCipher => Ok (data, FakeCipher)
    end.

Definition encrypt : bytes -> M cipher bytes := cipher_apply.
Definition decrypt : bytes -> M cipher bytes := cipher_apply.

Definition is_empty {A : Type} (l : list A) : bool :=
  match l with
  | [] => true
  | _ :: _ => false
  end.

(** ** class CryptoWrappedStreamReader *)

Module CryptoWrappedStreamReader.

Record t : Type := mk {
  stream : StreamReader;
  decryptor : cipher;
  block_size : Z;
  buf : bytes
}.

Definition on_stream {A : Type} (m : M StreamReader A) : M t A :=
  fun r =>
    match m (stream r) with
    | Ok (a, s') => Ok (a, mk s' (decryptor r) (block_size r) (buf r))
    | Raise e => Raise e
    end.

Definition on_decryptor {A : Type} (m : M cipher A) : M t A :=
  fun r =>
    match m (decryptor r) with
    | Ok (a, d') => Ok (a, mk (stream r) d' (block_size r) (buf r))
    | Raise e => Raise e
    end.

Definition get_buf : M t bytes := fun r => Ok (buf r, r).

Definition set_buf (b : bytes) : M t unit :=
  fun r => Ok (tt, mk (stream r) (decryptor r) (block_size r) b).

Definition get_block_size : M t Z := fun r => Ok (block_size r, r).

(** With bytes in [self.buf], [ret] is the buffer object itself and
    [self.buf.clear()] empties it before it is returned.  Otherwise: in
    [readed += self.stream.readexactly(...)] the call is not awaited, so it
    yields a coroutine object, no byte is read, and adding it to [bytes]
    raises [TypeError]. *)
Definition read (n : nat) : M t bytes :=
  b <- get_buf ;;
  if negb (is_empty b) then
    set_buf [] ;;;
    ret []
  else
    readed <- on_stream (StreamReader_read n) ;;
    block_size <- get_block_size ;;
    let needed_till_full_block := (- Z.of_nat (length readed)) mod block_size in
    if 0 <? needed_till_full_block then
      raise TypeError
    else
      on_decryptor (decrypt readed).

Definition readexactly (n : nat) : M t bytes :=
  b <- get_buf ;;
  (if (length b <? n)%nat then
     let to_read := Z.of_nat n - Z.of_nat (length b) in
     block_size <- get_block_size ;;
     let needed_till_full_block := (- to_read) mod block_size in
     let to_read_block_aligned := to_read + needed_till_full_block in
     data <- on_stream (StreamReader_readexactly (Z.to_nat to_read_block_aligned)) ;;
     plain <- on_decryptor (decrypt data) ;;
     set_buf (b ++ plain)
   else ret tt) ;;;
  b <- get_buf ;;
  set_buf (skipn n b) ;;;
  ret (firstn n b).

End CryptoWrappedStreamReader.

(** ** class CryptoWrappedStreamWriter *)

Module CryptoWrappedStreamWriter.

Record t : Type := mk {
  stream : StreamWriter;
  encryptor : cipher;
  block_size : Z
}.

Definition on_stream {A : Type} (m : M StreamWriter A) : M t A :=
  fun w =>
    match m (stream w) with
    | Ok (a, s') => Ok (a, mk s' (encryptor w) (block_size w))
    | Raise e => Raise e
    end.

Definition on_encryptor {A : Type} (m : M cipher A) : M t A :=
  fun w =>
    match m (encryptor w) with
    | Ok (a, e') => Ok (a, mk (stream w) e' (block_size w))
    | Raise e => Raise e
    end.

Definition get_block_size : M t Z := fun w => Ok (block_size w, w).

Definition write (data : bytes) : M t pyret :=
  block_size <- get_block_size ;;
  if negb (Z.of_nat (length data) mod block_size =? 0) then
    ret (PyInt 0)
  else
    q <- on_encryptor (encrypt data) ;;
    on_stream (StreamWriter_write q).

End CryptoWrappedStreamWriter.

(** ** handle_handshake

    [USERS] lists the configured users in the order of the configuration,
    each with the bytes [bytes.fromhex] makes of its secret. *)

Definition users : Type := list (string * bytes).

Definition client_data : Type :=
  (CryptoWrappedStreamReader.t * CryptoWrappedStreamWriter.t * string * Z * bytes)%type.

(** The body of [for user in USERS], from the handshake already read;
    [None] stands for [continue] and, on the empty list, for the final
    [return False]. *)
Fixpoint handshake_users (lib : aes_library) (USERS : users) (handshake : bytes)
    (reader : StreamReader) (writer : StreamWriter) : outcome (option client_data) :=
  match USERS with
  | [] => Ok None
  | (user, secret) :: rest =>
      let dec_prekey_and_iv :=
        Py.slice SKIP_LEN (SKIP_LEN + PREKEY_LEN + IV_LEN) handshake in
      let dec_prekey := firstn PREKEY_LEN dec_prekey_and_iv in
      let dec_iv := skipn PREKEY_LEN dec_prekey_and_iv in
      let dec_key := SHA256.digest (dec_prekey ++ secret) in
      let decryptor := create_aes_ctr lib dec_key (Py.from_bytes_big dec_iv) in
      let enc_prekey_and_iv :=
        rev (Py.slice SKIP_LEN (SKIP_LEN + PREKEY_LEN + IV_LEN) handshake) in
      let enc_prekey := firstn PREKEY_LEN enc_prekey_and_iv in
      let enc_iv := skipn PREKEY_LEN enc_prekey_and_iv in
      let enc_key := SHA256.digest (enc_prekey ++ secret) in
      let encryptor := create_aes_ctr lib enc_key (Py.from_bytes_big enc_iv) in
      match ctr_crypt handshake decryptor with
      | Raise e => Raise e
      | Ok (decrypted, decryptor) =>
          let check_val := Py.slice MAGIC_VAL_POS (MAGIC_VAL_POS + 4) decrypted in
          if negb (bytes_eqb check_val MAGIC_VAL_TO_CHECK) then
            handshake_users lib rest handshake reader writer
          else
            let dc_idx :=
              Py.abs (Py.from_bytes_little_signed (Py.slice 60 62 decrypted)) - 1 in
            if dc_idx =? 0 then
              handshake_users lib rest handshake reader writer
            else
              Ok (Some (CryptoWrappedStreamReader.mk reader (AesCtrCipher decryptor) 1 [],
                        CryptoWrappedStreamWriter.mk writer (AesCtrCipher encryptor) 1,
                        user, dc_idx, enc_key ++ enc_iv))
      end
  end.

Definition handle_handshake (lib : aes_library) (USERS : users)
    (reader : StreamReader) (writer : StreamWriter) : outcome (option client_data) :=
  match StreamReader_readexactly HANDSHAKE_LEN reader with
  | Raise e => Raise e
  | Ok (handshake, reader) => handshake_users lib USERS handshake reader writer
  end.

(** ** do_direct_handshake *)

Definition TG_DATACENTER_PORT : Z := 443.

Definition TG_DATACENTERS_V4 : list string :=
  ["149.154.175.50"; "149.154.167.51"; "149.154.175.100";
   "149.154.167.91"; "149.154.171.5"]%string.

Definition TG_DATACENTERS_V6 : list string :=
  ["2001:b28:f23d:f001::a"; "2001:67c:04e8:f002::a"; "2001:b28:f23d:f003::a";
   "2001:67c:04e8:f004::a"; "2001:b28:f23f:f005::a"]%string.

Definition RESERVED_NONCE_FIRST_CHARS : list bytes := [[xef]].
Definition RESERVED_NONCE_BEGININGS : list bytes :=
  [[x48; x45; x41; x44]; [x50; x4f; x53; x54];
   [x47; x45; x54; x20]; [xee; xee; xee; xee]].
Definition RESERVED_NONCE_CONTINUES : list bytes := [[x00; x00; x00; x00]].

Definition bytes_in (b : bytes) (l : list bytes) : bool := existsb (bytes_eqb b) l.

(** The [while True] loop over fresh random arrays: [draws] are the arrays
    the generator yields, turn after turn. *)
Fixpoint draw_nonce (draws : list bytes) : outcome bytes :=
  match draws with
  | [] => Raise LoopBound
  | rnd :: later =>
      if bytes_in (firstn 1 rnd) RESERVED_NONCE_FIRST_CHARS then draw_nonce later
      else if bytes_in (firstn 4 rnd) RESERVED_NONCE_BEGININGS then draw_nonce later
      else if bytes_in (Py.slice 4 8 rnd) RESERVED_NONCE_CONTINUES then draw_nonce later
      else Ok rnd
  end.

(** Slice assignment [s[a:b] = v]. *)
Definition set_slice {A : Type} (a b : nat) (v s : list A) : list A :=
  firstn a s ++ v ++ skipn b s.

(** Truth value of an optional [bytes] argument. *)
Definition truthy (o : option bytes) : bool :=
  match o with
  | Some (_ :: _) => true
  | _ => false
  end.

(** [open_connection] answers with the two streams of the new connection,
    or with [None] when the connection is refused or fails. *)
Definition connector : Type := string -> Z -> option (StreamReader * StreamWriter).

Definition do_direct_handshake (lib : aes_library) (PREFER_IPV6 : bool)
    (open_connection : connector) (draws : list bytes)
    (dc_idx : Z) (dec_key_and_iv : option bytes)
  : outcome (option (CryptoWrappedStreamReader.t * CryptoWrappedStreamWriter.t)) :=
  let table := if PREFER_IPV6 then TG_DATACENTERS_V6 else TG_DATACENTERS_V4 in
  if negb ((0 <=? dc_idx) && (dc_idx <? Z.of_nat (length table))) then Ok None
  else
    let dc := nth (Z.to_nat dc_idx) table ""%string in
    match open_connection dc TG_DATACENTER_PORT with
    | None => Ok None
    | Some (reader_tgt, writer_tgt) =>
        match draw_nonce draws with
        | Raise e => Raise e
        | Ok rnd =>
            let rnd := set_slice MAGIC_VAL_POS (MAGIC_VAL_POS + 4) MAGIC_VAL_TO_CHECK rnd in
            let rnd :=
              if truthy dec_key_and_iv then
                set_slice SKIP_LEN (SKIP_LEN + KEY_LEN + IV_LEN)
                          (rev (match dec_key_and_iv with Some k => k | None => [] end))
                          rnd
              else rnd in
            let dec_key_and_iv := rev (Py.slice SKIP_LEN (SKIP_LEN + KEY_LEN + IV_LEN) rnd) in
            let dec_key := firstn KEY_LEN dec_key_and_iv in
            let dec_iv := skipn KEY_LEN dec_key_and_iv in
            let decryptor := create_aes_ctr lib dec_key (Py.from_bytes_big dec_iv) in
            let enc_key_and_iv := Py.slice SKIP_LEN (SKIP_LEN + KEY_LEN + IV_LEN) rnd in
            let enc_key := firstn KEY_LEN enc_key_and_iv in
            let enc_iv := skipn KEY_LEN enc_key_and_iv in
            let encryptor := create_aes_ctr lib enc_key (Py.from_bytes_big enc_iv) in
            match ctr_crypt rnd encryptor with
            | Raise e => Raise e
            | Ok (encrypted, encryptor) =>
                let rnd_enc := firstn MAGIC_VAL_POS rnd ++ skipn MAGIC_VAL_POS encrypted in
                match StreamWriter_write rnd_enc writer_tgt with
                | Raise e => Raise e
                | Ok (_, writer_tgt) =>
                    Ok (Some (CryptoWrappedStreamReader.mk reader_tgt (AesCtrCipher decryptor) 1 [],
                              CryptoWrappedStreamWriter.mk writer_tgt (AesCtrCipher encryptor) 1))
                end
            end
        end
    end.

(** ** get_middleproxy_aes_key_and_iv *)

Definition get_middleproxy_aes_key_and_iv
    (nonce_srv nonce_clt clt_ts srv_ip clt_port purpose clt_ip srv_port
       middleproxy_secret : bytes)
    (clt_ipv6 srv_ipv6 : option bytes) : bytes * bytes :=
  let s := nonce_srv ++ nonce_clt ++ clt_ts ++ srv_ip ++ clt_port ++ purpose
           ++ clt_ip ++ srv_port in
  let s := s ++ middleproxy_secret ++ nonce_srv in
  let s :=
    if truthy clt_ipv6 && truthy srv_ipv6 then
      s ++ match clt_ipv6 with Some a => a | None => [] end
        ++ match srv_ipv6 with Some a => a | None => [] end
    else s in
  let s := s ++ nonce_clt in
  let md5_sum := MD5.digest (skipn 1 s) in
  let sha1_sum := SHA1.digest s in
  let key := firstn 12 md5_sum ++ sha1_sum in
  let iv := MD5.digest (skipn 2 s) in
  (key, iv).

(** ** handle_client: the fast mode and the forwarding loop *)

(** [reader_tg.decryptor = FakeDecryptor()] and
    [writer_clt.encryptor = FakeEncryptor()], done when the middle proxy is
    not used and [FAST_MODE] is set. *)
Definition install_fake_ciphers (USE_MIDDLE_PROXY FAST_MODE : bool)
    (reader_tg : CryptoWrappedStreamReader.t) (writer_clt : CryptoWrappedStreamWriter.t)
  : CryptoWrappedStreamReader.t * CryptoWrappedStreamWriter.t :=
  if negb USE_MIDDLE_PROXY && FAST_MODE then
    (CryptoWrappedStreamReader.mk (CryptoWrappedStreamReader.stream reader_tg) FakeCipher
       (CryptoWrappedStreamReader.block_size reader_tg) (CryptoWrappedStreamReader.buf reader_tg),
     CryptoWrappedStreamWriter.mk (CryptoWrappedStreamWriter.stream writer_clt) FakeCipher
       (CryptoWrappedStreamWriter.block_size writer_clt))
  else (reader_tg, writer_clt).

(** The exceptions the [except] clause of the loop takes. *)
Definition caught (e : exn) : bool :=
  match e with
  | IncompleteReadError => true
  | _ => false
  end.

(** [connect_reader_to_writer], between a crypto reader and a crypto
    writer; the third component counts the octets reported to the
    statistics. *)
Fixpoint forward (fuel buf_size : nat)
    (rd : CryptoWrappedStreamReader.t) (wr : CryptoWrappedStreamWriter.t) (octets : Z)
  : outcome (CryptoWrappedStreamReader.t * CryptoWrappedStreamWriter.t * Z) :=
  match fuel with
  | O => Raise LoopBound
  | S fuel' =>
      match CryptoWrappedStreamReader.read buf_size rd with
      | Raise e => if caught e then Ok (rd, wr, octets) else Raise e
      | Ok (data, rd) =>
          if is_empty data then Ok (rd, wr, octets)
          else
            match CryptoWrappedStreamWriter.write data wr with
            | Raise e => if caught e then Ok (rd, wr, octets) else Raise e
            | Ok (_, wr) => forward fuel' buf_size rd wr (octets + Z.of_nat (length data))
            end
      end
  end.

(** Pending bytes plus pending segments of a stream. *)
Definition stream_measure (s : StreamReader) : nat :=
  (length (pending s) + length (segments s))%nat.

(** Every turn of the loop takes a segment, or part of one, off the stream
    it reads: the bound below is never reached. *)
Definition connect_reader_to_writer (READ_BUF_SIZE : nat)
    (rd : CryptoWrappedStreamReader.t) (wr : CryptoWrappedStreamWriter.t)
  : outcome (CryptoWrappedStreamReader.t * CryptoWrappedStreamWriter.t * Z) :=
  forward (S (stream_measure (CryptoWrappedStreamReader.stream rd))) READ_BUF_SIZE rd wr 0.

(** ** class ProxyReqStreamReader

    Its stream is the intermediate frame reader.  [self.feed_eof()] is found
    neither in this class nor in the frame reader: both hand the attribute
    down, to the transport. *)

Module ProxyReqStreamReader.

Record t : Type := mk {
  stream : MTProtoFrameStreamReader.t
}.

Definition RPC_PROXY_ANS : bytes := [x0d; xda; x03; x44].
Definition RPC_CLOSE_EXT : bytes := [xa2; x34; xb6; x5e].

Definition on_stream {A : Type} (m : M MTProtoFrameStreamReader.t A) : M t A :=
  fun r =>
    match m (stream r) with
    | Ok (a, s') => Ok (a, mk s')
    | Raise e => Raise e
    end.

Definition feed_eof : M t unit :=
  on_stream (MTProtoFrameStreamReader.on_stream StreamReader_feed_eof).

Definition read (msg : nat) : M t bytes :=
  data <- on_stream (MTProtoFrameStreamReader.read 1) ;;
  if (length data <? 4)%nat then
    ret []
  else
    let ans_type := firstn 4 data in
    let ans_flags := Py.slice 4 8 data in
    let conn_id := Py.slice 8 16 data in
    let conn_data := skipn 16 data in
    if bytes_eqb ans_type RPC_CLOSE_EXT then
      feed_eof ;;;
      ret []
    else if negb (bytes_eqb ans_type RPC_PROXY_ANS) then
      ret []
    else
      ret conn_data.

End ProxyReqStreamReader.

(** ** class ProxyReqStreamWriter

    Its stream is the intermediate frame writer.  [OUT_CONN_ID] is the array
    of eight random bytes drawn at the start of the call, [AD_TAG] the
    configured tag; [bytes([len(AD_TAG)])] is one byte for a tag of fewer than
    256 bytes, and the writer is only made when the tag has sixteen. *)

Module ProxyReqStreamWriter.

Record t : Type := mk {
  stream : MTProtoFrameStreamWriter.t
}.

Definition on_stream {A : Type} (m : M MTProtoFrameStreamWriter.t A) : M t A :=
  fun w =>
    match m (stream w) with
    | Ok (a, s') => Ok (a, mk s')
    | Raise e => Raise e
    end.

Definition RPC_PROXY_REQ : bytes := [xee; xf1; xce; x36].
Definition FLAGS : bytes := [x08; x10; x02; x40].
Definition REMOTE_IP_PORT : bytes := repeat x41 20.
Definition OUR_IP_PORT : bytes := repeat x42 20.
Definition EXTRA_SIZE : bytes := [x18; x00; x00; x00].
Definition PROXY_TAG : bytes := [xae; x26; x1e; xdb].
Definition FOUR_BYTES_ALIGNER : bytes := [x00; x00; x00].

Definition write (AD_TAG OUT_CONN_ID msg : bytes) : M t pyret :=
  if negb (Z.of_nat (length msg) mod 4 =? 0) then
    ret (PyInt 0)
  else
    let full_msg := RPC_PROXY_REQ ++ FLAGS ++ OUT_CONN_ID ++ REMOTE_IP_PORT in
    let full_msg := full_msg ++ OUR_IP_PORT ++ EXTRA_SIZE ++ PROXY_TAG in
    let full_msg :=
      full_msg ++ [Py.int_to_byte (Z.of_nat (length AD_TAG))] ++ AD_TAG
               ++ FOUR_BYTES_ALIGNER in
    let full_msg := full_msg ++ msg in
    on_stream (MTProtoFrameStreamWriter.write full_msg).

End ProxyReqStreamWriter.

(** ** init_stats, update_stats

    [stats] maps a user to a [collections.Counter] with the keys
    [connects], [curr_connects_x2] and [octets]; a key a counter does not
    hold yet reads as zero, so a counter is modelled by its three values.  The
    dictionary keeps its keys in the order they were first set. *)

Record Counter : Type := mkCounter {
  connects : Z;
  curr_connects_x2 : Z;
  octets : Z
}.

Definition stats_t : Type := list (string * Counter).

Definition empty_counter : Counter := mkCounter 0 0 0.

(** [Counter.update(connects=a, curr_connects_x2=b, octets=c)] adds. *)
Definition counter_update (c : Counter) (a b o : Z) : Counter :=
  mkCounter (connects c + a) (curr_connects_x2 c + b) (octets c + o).

(** [d.get(k)] *)
Fixpoint dict_get {V : Type} (k : string) (d : list (string * V)) : option V :=
  match d with
  | [] => None
  | (k', v) :: rest => if String.eqb k' k then Some v else dict_get k rest
  end.

(** [d[k] = v]: in place for a key of [d], at the end for a new one. *)
Fixpoint dict_set {V : Type} (k : string) (v : V) (d : list (string * V))
  : list (string * V) :=
  match d with
  | [] => [(k, v)]
  | (k', v') :: rest =>
      if String.eqb k' k then (k', v) :: rest else (k', v') :: dict_set k v rest
  end.

Definition init_stats (USERS : users) : stats_t :=
  fold_left (fun d us => dict_set (fst us) empty_counter d) USERS [].

Definition update_stats (stats : stats_t) (user : string)
    (connects curr_connects_x2 octets : Z) : stats_t :=
  let stats :=
    match dict_get user stats with
    | None => dict_set user empty_counter stats
    | Some _ => stats
    end in
  match dict_get user stats with
  | Some c => dict_set user (counter_update c connects curr_connects_x2 octets) stats
  | None => stats
  end.

(** ** connect_reader_to_writer with its statistics

    The same loop as [forward], with the dictionary of the statistics
    threaded through: one more half connection on entry, the octets of every
    chunk read, one half connection less in the [finally] clause, whatever
    ended the loop. *)
Fixpoint forward_stats (fuel buf_size : nat) (user : string)
    (rd : CryptoWrappedStreamReader.t) (wr : CryptoWrappedStreamWriter.t)
    (stats : stats_t)
  : outcome (CryptoWrappedStreamReader.t * CryptoWrappedStreamWriter.t) * stats_t :=
  match fuel with
  | O => (Raise LoopBound, stats)
  | S fuel' =>
      match CryptoWrappedStreamReader.read buf_size rd with
      | Raise e => (if caught e then Ok (rd, wr) else Raise e, stats)
      | Ok (data, rd) =>
          if is_empty data then (Ok (rd, wr), stats)
          else
            let stats := update_stats stats user 0 0 (Z.of_nat (length data)) in
            match CryptoWrappedStreamWriter.write data wr with
            | Raise e => (if caught e then Ok (rd, wr) else Raise e, stats)
            | Ok (_, wr) => forward_stats fuel' buf_size user rd wr stats
            end
      end
  end.

Definition connect_reader_to_writer_stats (READ_BUF_SIZE : nat) (user : string)
    (rd : CryptoWrappedStreamReader.t) (wr : CryptoWrappedStreamWriter.t)
    (stats : stats_t)
  : outcome (CryptoWrappedStreamReader.t * CryptoWrappedStreamWriter.t) * stats_t :=
  let stats := update_stats stats user 0 1 0 in
  let '(res, stats) :=
    forward_stats (S (stream_measure (CryptoWrappedStreamReader.stream rd)))
                  READ_BUF_SIZE user rd wr stats in
  (res, update_stats stats user 0 (-1) 0).


(** * Notions the properties are stated with *)

(** The bytes the abridged writer puts on the wire for a payload [p]. *)
Definition abridged_encoding (p : bytes) : bytes :=
  let len_div_four := Z.of_nat (length p) / 4 in
  (if len_div_four <? 0x7f
   then [Py.int_to_byte len_div_four]
   else x7f :: Py.little_digits 3 len_div_four) ++ p.

(** [j] padding records in a row. *)
Definition paddings (j : nat) : bytes := concat (repeat PADDING_FILLER j).

(** The reader gave up: empty result, end of file fed to its stream. *)
Definition signals_eof (res : outcome (bytes * MTProtoFrameStreamReader.t)) : Prop :=
  exists r', res = Ok ([], r')
             /\ eof_fed (MTProtoFrameStreamReader.stream r') = true.

Module FrameReaderParts.
Import MTProtoFrameStreamReader.

(** What [read] does once it holds the length field of a record. *)
Definition read_record (msg_len_bytes : bytes) : M t bytes :=
  let msg_len := Py.from_bytes_little msg_len_bytes in
  let len_is_impossible :=
    negb (msg_len mod Z.of_nat (length PADDING_FILLER) =? 0) in
  if negb ((MIN_MSG_LEN <=? msg_len) && (msg_len <=? MAX_MSG_LEN))
     || len_is_impossible
  then
    on_stream StreamReader_feed_eof ;;;
    ret []
  else
    msg_seq_bytes <- on_stream (StreamReader_readexactly 4) ;;
    let msg_seq := Py.from_bytes_little_signed msg_seq_bytes in
    expected <- get_seq_no ;;
    if negb (msg_seq =? expected) then
      on_stream StreamReader_feed_eof ;;;
      ret []
    else
      incr_seq_no ;;;
      data <- on_stream (StreamReader_readexactly (Z.to_nat (msg_len - 4 - 4 - 4))) ;;
      checksum_bytes <- on_stream (StreamReader_readexactly 4) ;;
      let checksum := Py.from_bytes_little checksum_bytes in
      let computed_checksum :=
        CRC32.crc32 (msg_len_bytes ++ msg_seq_bytes ++ data) in
      if negb (computed_checksum =? checksum) then
        on_stream StreamReader_feed_eof ;;;
        ret []
      else ret data.

(** A length field the reader takes. *)
Definition len_ok (v : Z) : Prop := 12 <= v <= 2 ^ 24 /\ v mod 4 = 0.

End FrameReaderParts.

(** The record of payload [p] at sequence number [k]: length field (the
    three header and trailer fields count), sequence number, payload,
    checksum of all that precedes it; all integers little-endian. *)
Definition frame_record (p : bytes) (k : Z) : bytes :=
  let len_bytes := Py.little_digits 4 (Z.of_nat (length p) + 12) in
  let seq_bytes := Py.little_digits 4 (k mod 2 ^ 32) in
  let body := len_bytes ++ seq_bytes ++ p in
  body ++ Py.little_digits 4 (CRC32.crc32 body).

(** How many fillers follow the record of [p]. *)
Definition frame_pad_count (p : bytes) : nat :=
  Z.to_nat (((- (Z.of_nat (length p) + 12)) mod 16) / 4).

Definition int32 (k : Z) : Prop := - 2 ^ 31 <= k < 2 ^ 31.

(** Flip bit [b] of the byte at index [i]. *)
Fixpoint flip_bit (i : nat) (b : Z) (s : bytes) {struct s} : bytes :=
  match s with
  | [] => []
  | x :: tl =>
      match i with
      | O => Py.byte_xor x (Py.int_to_byte (2 ^ b)) :: tl
      | S i' => x :: flip_bit i' b tl
      end
  end.

(** A payload the intermediate framing can carry. *)
Definition payload_ok (p : bytes) : Prop :=
  Z.of_nat (length p) mod 4 = 0 /\ 12 + Z.of_nat (length p) <= 2 ^ 24.

(** The quantities of a 64-byte handshake [H] read under a secret. *)
Definition client_dec_key (H secret : bytes) : bytes :=
  SHA256.digest (Py.slice 8 40 H ++ secret).

Definition client_dec_iv (H : bytes) : Z := Py.from_bytes_big (Py.slice 40 56 H).

Definition client_enc_key (H secret : bytes) : bytes :=
  SHA256.digest (Py.slice 0 32 (rev (Py.slice 8 56 H)) ++ secret).

Definition client_enc_iv (H : bytes) : bytes :=
  Py.slice 32 48 (rev (Py.slice 8 56 H)).

Definition client_decryptor (lib : aes_library) (H secret : bytes) : AesCtr :=
  create_aes_ctr lib (client_dec_key H secret) (client_dec_iv H).

Definition dc_index_of (decrypted : bytes) : Z :=
  Z.abs (Py.from_bytes_little_signed (Py.slice 60 62 decrypted)) - 1.

(** [H] decodes under [secret]: the magic is in place and the index of the
    datacenter is not the reserved one. *)
Definition passes (lib : aes_library) (H secret : bytes) : Prop :=
  exists decrypted dec',
    ctr_crypt H (client_decryptor lib H secret) = Ok (decrypted, dec')
    /\ Py.slice 56 60 decrypted = MAGIC_VAL_TO_CHECK
    /\ dc_index_of decrypted <> 0.

(** The counter of [c] does not wrap within the next [remaining] bytes. *)
Definition no_wrap (c : AesCtr) (remaining : nat) : Prop :=
  ctr_library c = PyAES
  \/ ctr_iv c + Z.of_nat ((ctr_pos c + remaining) / 16) < 2 ^ 128.

(** A 32-bit register. *)
Definition u32 (c : Z) : Prop := 0 <= c < 2 ^ 32.

(** ** Concrete inputs *)

(** A handshake for the user [alice] with the all-zero secret: bytes
    [00 .. 37], then the eight bytes that decrypt to [EF EF EF EF] and
    [tail]. *)
Definition alice : users := [("alice"%string, repeat x00 16)].

Definition handshake_head : bytes :=
  map (fun i => Py.int_to_byte (Z.of_nat i)) (seq 0 56).

(** What the first 56 bytes of these handshakes decrypt to. *)
Definition handshake_head_plain : bytes :=
  [xb3; x7a; x56; xb5; xc3; x6e; x61; xe7; xd4; xeb; xeb; x50; x04; xf6; x5d; xfa;
   x8a; x64; xee; x3d; xb1; xc0; xf8; x3f; xd6; xcd; x32; xdc; x5b; xf4; xd5; x5f;
   xa4; xb6; x11; x58; x0c; x71; x7a; xbc; x91; xed; xab; x84; xcd; xa8; xa9; x44;
   x93; x28; xd4; x03; x7b; x8e; x84; x9e].

(** A datacenter that answers with two segments, and a generator whose
    first array is already acceptable. *)
Definition example_connection : connector :=
  fun _ _ => Some (mkStreamReader [[xde; xad]; [xbe; xef; x01]] false, mkStreamWriter []).

Definition example_draws : list bytes :=
  [handshake_head ++ [x38; x39; x3a; x3b; x3c; x3d; x3e; x3f]].

(** ** Sequences of messages *)

(** Write the payloads one after the other. *)
Fixpoint compact_write_all (ps : list bytes) : M MTProtoCompactFrameStreamWriter.t unit :=
  match ps with
  | [] => ret tt
  | p :: rest => MTProtoCompactFrameStreamWriter.write p ;;; compact_write_all rest
  end.

(** Read [n] messages one after the other. *)
Fixpoint compact_read_n (buf_size n : nat) : M MTProtoCompactFrameStreamReader.t (list bytes) :=
  match n with
  | O => ret []
  | S n' =>
      p <- MTProtoCompactFrameStreamReader.read buf_size ;;
      rest <- compact_read_n buf_size n' ;;
      ret (p :: rest)
  end.

Fixpoint frame_write_all (ps : list bytes) : M MTProtoFrameStreamWriter.t unit :=
  match ps with
  | [] => ret tt
  | p :: rest => MTProtoFrameStreamWriter.write p ;;; frame_write_all rest
  end.

Fixpoint frame_read_n (buf_size n : nat) : M MTProtoFrameStreamReader.t (list bytes) :=
  match n with
  | O => ret []
  | S n' =>
      p <- MTProtoFrameStreamReader.read buf_size ;;
      rest <- frame_read_n buf_size n' ;;
      ret (p :: rest)
  end.

(** A payload the abridged framing can carry. *)
Definition abridged_ok (p : bytes) : Prop :=
  Z.of_nat (length p) mod 4 = 0 /\ Z.of_nat (length p) / 4 < 2 ^ 24.

(** The wire image of a sequence of intermediate records, the first at
    sequence number [k], each followed by its fillers. *)
Fixpoint frame_wire (ps : list bytes) (k : Z) : bytes :=
  match ps with
  | [] => []
  | p :: rest =>
      frame_record p k ++ paddings (frame_pad_count p) ++ frame_wire rest (k + 1)
  end.

(** The request [ProxyReqStreamWriter.write] wraps around a message. *)
Definition proxy_request (AD_TAG OUT_CONN_ID msg : bytes) : bytes :=
  ProxyReqStreamWriter.RPC_PROXY_REQ ++ ProxyReqStreamWriter.FLAGS ++ OUT_CONN_ID
  ++ ProxyReqStreamWriter.REMOTE_IP_PORT ++ ProxyReqStreamWriter.OUR_IP_PORT
  ++ ProxyReqStreamWriter.EXTRA_SIZE ++ ProxyReqStreamWriter.PROXY_TAG
  ++ [Py.int_to_byte (Z.of_nat (length AD_TAG))] ++ AD_TAG
  ++ ProxyReqStreamWriter.FOUR_BYTES_ALIGNER ++ msg.

(** A proxy answer that carries [conn_data]. *)
Definition proxy_answer (conn_data : bytes) : bytes :=
  ProxyReqStreamReader.RPC_PROXY_ANS ++ [x00; x00; x00; x00]
  ++ [x01; x02; x03; x04; x05; x06; x07; x08] ++ conn_data.


(** ** Counter mode as a stream *)

(** The cipher object [c] after [n] more bytes. *)
Definition ctr_advance (c : AesCtr) (n : nat) : AesCtr :=
  mkAesCtr (ctr_library c) (ctr_key c) (ctr_iv c) (ctr_pos c + n).

(** [data] under the keystream of [c], from where [c] stands. *)
Definition ctr_stream (c : AesCtr) (data : bytes) : bytes :=
  xor_bytes data (keystream c (length data)).

(** Write the chunks one after the other through a crypto writer. *)
Fixpoint crypto_write_all (ds : list bytes) : M CryptoWrappedStreamWriter.t unit :=
  match ds with
  | [] => ret tt
  | d :: rest => CryptoWrappedStreamWriter.write d ;;; crypto_write_all rest
  end.

(** [readexactly] for each of the lengths [ns] in turn. *)
Fixpoint crypto_readexactly_all (ns : list nat) : M CryptoWrappedStreamReader.t (list bytes) :=
  match ns with
  | [] => ret []
  | n :: rest =>
      d <- CryptoWrappedStreamReader.readexactly n ;;
      ds <- crypto_readexactly_all rest ;;
      ret (d :: ds)
  end.

(** [l] cut into pieces of the lengths [ns]. *)
Fixpoint pieces (ns : list nat) (l : bytes) : list bytes :=
  match ns with
  | [] => []
  | n :: rest => firstn n l :: pieces rest (skipn n l)
  end.

(** ** Statistics *)

(** The counter of [user], all zero for a user the dictionary does not hold. *)
Definition counter_of (user : string) (stats : stats_t) : Counter :=
  match dict_get user stats with
  | Some c => c
  | None => empty_counter
  end.

(** Calls of [update_stats] in a row, each with its user and its three
    keyword arguments. *)
Definition apply_updates (stats : stats_t) (ups : list (string * (Z * Z * Z))) : stats_t :=
  fold_left
    (fun st up =>
       let '(user, (a, b, o)) := up in update_stats st user a b o)
    ups stats.

(** What the calls for [user] add up to, from the counter [c] on. *)
Definition sum_for (user : string) (ups : list (string * (Z * Z * Z))) (c : Counter)
  : Counter :=
  fold_left
    (fun c up =>
       let '(user', (a, b, o)) := up in
       if String.eqb user' user then counter_update c a b o else c)
    ups c.

Definition named (user : string) (names : list string) : bool :=
  existsb (fun n => String.eqb n user) names.

(** * Properties *)

(** Closed side conditions, settled by evaluation. *)
Ltac evaluate := vm_compute; first [reflexivity | discriminate].

(** ** Bytes and integers *)

Lemma byte_to_int_range (b : byte) : 0 <= Py.byte_to_int b < 256.
Proof.
  unfold Py.byte_to_int. pose proof (Byte.to_N_bounded b). lia.
Qed.

Lemma int_to_byte_to_int (b : byte) : Py.int_to_byte (Py.byte_to_int b) = b.
Proof.
  unfold Py.int_to_byte. pose proof (byte_to_int_range b) as Hr.
  rewrite Z.mod_small by exact Hr.
  unfold Py.byte_to_int. rewrite N2Z.id, Byte.of_to_N. reflexivity.
Qed.

Lemma byte_to_int_to_byte (z : Z) : Py.byte_to_int (Py.int_to_byte z) = z mod 256.
Proof.
  unfold Py.int_to_byte, Py.byte_to_int.
  pose proof (Z.mod_pos_bound z 256 ltac:(lia)) as Hr.
  destruct (Byte.of_N (Z.to_N (z mod 256))) as [b|] eqn:E.
  - apply Byte.to_of_N in E. rewrite E. lia.
  - apply Byte.of_N_None_iff in E. lia.
Qed.

Lemma byte_to_int_inj (a b : byte) : Py.byte_to_int a = Py.byte_to_int b -> a = b.
Proof.
  intros H. rewrite <- (int_to_byte_to_int a), <- (int_to_byte_to_int b), H.
  reflexivity.
Qed.

Lemma little_digits_length (k : nat) (n : Z) : length (Py.little_digits k n) = k.
Proof.
  revert n. induction k as [|k IH]; intros n; simpl; [reflexivity|].
  now rewrite IH.
Qed.

Lemma from_bytes_little_range (bs : bytes) :
  0 <= Py.from_bytes_little bs < 256 ^ Z.of_nat (length bs).
Proof.
  induction bs as [|b bs IH].
  - simpl. lia.
  - cbn [Py.from_bytes_little length]. rewrite Nat2Z.inj_succ, Z.pow_succ_r by lia.
    pose proof (byte_to_int_range b). lia.
Qed.

Lemma from_bytes_little_digits (k : nat) (n : Z) :
  Py.from_bytes_little (Py.little_digits k n) = n mod 256 ^ Z.of_nat k.
Proof.
  revert n. induction k as [|k IH]; intros n.
  - simpl. now rewrite Z.mod_1_r.
  - cbn [Py.little_digits Py.from_bytes_little].
    rewrite IH, byte_to_int_to_byte, Nat2Z.inj_succ, Z.pow_succ_r by lia.
    rewrite (Z.rem_mul_r n 256 (256 ^ Z.of_nat k)) by lia. reflexivity.
Qed.

Lemma little_digits_from_bytes (bs : bytes) :
  Py.little_digits (length bs) (Py.from_bytes_little bs) = bs.
Proof.
  induction bs as [|b bs IH]; [reflexivity|].
  cbn [length Py.little_digits Py.from_bytes_little].
  pose proof (byte_to_int_range b) as Hb.
  rewrite (Z.mul_comm 256).
  f_equal.
  - rewrite <- (int_to_byte_to_int b) at 2. unfold Py.int_to_byte.
    rewrite Z_mod_plus_full. reflexivity.
  - rewrite Z_div_plus_full, Z.div_small by lia. exact IH.
Qed.

Lemma from_bytes_little_inj (a b : bytes) :
  length a = length b -> Py.from_bytes_little a = Py.from_bytes_little b -> a = b.
Proof.
  intros Hl He.
  rewrite <- (little_digits_from_bytes a), <- (little_digits_from_bytes b).
  now rewrite Hl, He.
Qed.

Lemma to_bytes_little_ok (n : Z) (k : nat) :
  0 <= n < 256 ^ Z.of_nat k ->
  to_bytes_little n k = Ok (Py.little_digits k n).
Proof.
  intros H. unfold to_bytes_little.
  replace (2 ^ (8 * Z.of_nat k)) with (256 ^ Z.of_nat k)
    by (rewrite Z.pow_mul_r by lia; reflexivity).
  destruct (Z.leb_spec 0 n); [|lia].
  destruct (Z.ltb_spec n (256 ^ Z.of_nat k)); [|lia].
  reflexivity.
Qed.

Lemma from_bytes_to_bytes_little (n : Z) (k : nat) (bs : bytes) :
  to_bytes_little n k = Ok bs ->
  Py.from_bytes_little bs = n /\ length bs = k.
Proof.
  unfold to_bytes_little.
  replace (2 ^ (8 * Z.of_nat k)) with (256 ^ Z.of_nat k)
    by (rewrite Z.pow_mul_r by lia; reflexivity).
  destruct (Z.leb_spec 0 n); [|discriminate].
  destruct (Z.ltb_spec n (256 ^ Z.of_nat k)); [|discriminate].
  cbn [andb]. intros [= <-].
  rewrite from_bytes_little_digits, little_digits_length, Z.mod_small by lia.
  split; reflexivity.
Qed.

Lemma from_bytes_to_bytes_little_signed (n : Z) (k : nat) (bs : bytes) :
  (0 < k)%nat ->
  to_bytes_little_signed n k = Ok bs ->
  Py.from_bytes_little_signed bs = n /\ length bs = k.
Proof.
  intros Hk. unfold to_bytes_little_signed, Py.from_bytes_little_signed.
  set (w := 8 * Z.of_nat k).
  assert (Hw : 0 < w) by (unfold w; lia).
  assert (Hp : 2 ^ w = 2 * 2 ^ (w - 1)).
  { replace w with (Z.succ (w - 1)) at 1 by lia. rewrite Z.pow_succ_r by lia. reflexivity. }
  assert (Hpos : 0 < 2 ^ (w - 1)) by (apply Z.pow_pos_nonneg; lia).
  destruct (Z.leb_spec (- 2 ^ (w - 1)) n); [|discriminate].
  destruct (Z.ltb_spec n (2 ^ (w - 1))); [|discriminate].
  cbn [andb]. intros [= <-].
  rewrite little_digits_length. fold w.
  rewrite from_bytes_little_digits.
  replace (256 ^ Z.of_nat k) with (2 ^ w)
    by (unfold w; rewrite Z.pow_mul_r by lia; reflexivity).
  rewrite Z.mod_mod by lia.
  split; [|reflexivity].
  destruct (Z.ltb_spec 0 w); [|lia]. cbn [andb].
  destruct (Z_lt_le_dec n 0) as [Hn|Hn].
  - assert (E : n mod 2 ^ w = n + 2 ^ w).
    { symmetry. apply (Z.mod_unique_pos _ _ (-1)); lia. }
    rewrite E. destruct (Z.leb_spec (2 ^ (w - 1)) (n + 2 ^ w)); lia.
  - rewrite Z.mod_small by lia.
    destruct (Z.leb_spec (2 ^ (w - 1)) n); lia.
Qed.

(** ** Streams *)

Lemma concat_drop_segments (n : nat) (segs : list bytes) :
  concat (drop_segments n segs) = skipn n (concat segs).
Proof.
  revert n. induction segs as [|c rest IH]; intros n.
  - simpl. now rewrite skipn_nil.
  - cbn [drop_segments concat]. destruct (Nat.ltb_spec n (length c)) as [Hlt|Hge].
    + cbn [concat]. rewrite skipn_app.
      replace (n - length c)%nat with 0%nat by lia. reflexivity.
    + rewrite IH, skipn_app, (skipn_all2 c) by lia. reflexivity.
Qed.

(** [readexactly] on a stream whose pending bytes start with [a]. *)
Lemma readexactly_prefix (a rest : bytes) (s : StreamReader) :
  pending s = a ++ rest ->
  exists s',
    StreamReader_readexactly (length a) s = Ok (a, s')
    /\ pending s' = rest
    /\ eof_fed s' = eof_fed s.
Proof.
  intros Hp. unfold StreamReader_readexactly. rewrite Hp.
  rewrite length_app.
  destruct (Nat.leb_spec (length a) (length a + length rest)) as [_|Hbad]; [|lia].
  eexists. split; [|split].
  - rewrite firstn_app, firstn_all, Nat.sub_diag. cbn [firstn].
    rewrite app_nil_r. reflexivity.
  - unfold pending. cbn [segments]. rewrite concat_drop_segments.
    fold (pending s). rewrite Hp, skipn_app, skipn_all, Nat.sub_diag. reflexivity.
  - reflexivity.
Qed.

Lemma readexactly_short (n : nat) (s : StreamReader) :
  (length (pending s) < n)%nat ->
  StreamReader_readexactly n s = Raise IncompleteReadError.
Proof.
  intros H. unfold StreamReader_readexactly.
  destruct (Nat.leb_spec n (length (pending s))); [lia|reflexivity].
Qed.

Lemma bind_ok {St A B : Type} (m : M St A) (k : A -> M St B) s a s' :
  m s = Ok (a, s') -> bind m k s = k a s'.
Proof. intros H. unfold bind. now rewrite H. Qed.

Lemma bind_raise {St A B : Type} (m : M St A) (k : A -> M St B) s e :
  m s = Raise e -> bind m k s = Raise e.
Proof. intros H. unfold bind. now rewrite H. Qed.

(** ** Abridged framing *)

Module CompactFacts.
Import MTProtoCompactFrameStreamReader.

Lemma on_stream_readexactly (a rest : bytes) (r : t) :
  pending (stream r) = a ++ rest ->
  exists r',
    on_stream (StreamReader_readexactly (length a)) r = Ok (a, r')
    /\ pending (stream r') = rest
    /\ eof_fed (stream r') = eof_fed (stream r).
Proof.
  intros Hp. destruct (readexactly_prefix a rest (stream r) Hp) as (s' & Hr & Hp' & He).
  exists (mk s'). unfold on_stream. rewrite Hr. auto.
Qed.

(** Reading a frame whose (reduced) length byte is below [0x7f]. *)
Lemma read_short_form (L : byte) (payload rest : bytes) (n : nat) (r : t) :
  let v := Py.byte_to_int L in
  let v' := if 0x80 <=? v then v - 0x80 else v in
  v' <> 0x7f ->
  Z.of_nat (length payload) = v' * 4 ->
  pending (stream r) = [L] ++ payload ++ rest ->
  exists r',
    read n r = Ok (payload, r')
    /\ pending (stream r') = rest
    /\ eof_fed (stream r') = eof_fed (stream r).
Proof.
  intros v v' Hne Hlen Hp.
  destruct (on_stream_readexactly [L] (payload ++ rest) r Hp) as (r1 & H1 & Hp1 & He1).
  destruct (on_stream_readexactly payload rest r1 Hp1) as (r2 & H2 & Hp2 & He2).
  exists r2. split; [|split; [exact Hp2|congruence]].
  unfold read. cbn [length] in H1. rewrite (bind_ok _ _ _ _ _ H1).
  cbn [Py.from_bytes_little]. rewrite Z.mul_0_r, Z.add_0_r.
  fold v. fold v'.
  destruct (Z.eqb_spec v' 0x7f) as [E|_]; [contradiction|].
  unfold bind at 1, ret at 1.
  rewrite <- Hlen, Nat2Z.id. rewrite (bind_ok _ _ _ _ _ H2). reflexivity.
Qed.

(** Reading a frame in the extended form: marker, three length bytes. *)
Lemma read_long_form (L : byte) (len3 payload rest : bytes) (n : nat) (r : t) :
  let v := Py.byte_to_int L in
  (if 0x80 <=? v then v - 0x80 else v) = 0x7f ->
  length len3 = 3%nat ->
  Z.of_nat (length payload) = Py.from_bytes_little len3 * 4 ->
  pending (stream r) = [L] ++ len3 ++ payload ++ rest ->
  exists r',
    read n r = Ok (payload, r')
    /\ pending (stream r') = rest
    /\ eof_fed (stream r') = eof_fed (stream r).
Proof.
  intros v Hv H3 Hlen Hp.
  destruct (on_stream_readexactly [L] _ r Hp) as (r1 & H1 & Hp1 & He1).
  destruct (on_stream_readexactly len3 _ r1 Hp1) as (r2 & H2 & Hp2 & He2).
  destruct (on_stream_readexactly payload rest r2 Hp2) as (r3 & H4 & Hp3 & He3).
  exists r3. split; [|split; [exact Hp3|congruence]].
  unfold read. cbn [length] in H1. rewrite (bind_ok _ _ _ _ _ H1).
  cbn [Py.from_bytes_little]. rewrite Z.mul_0_r, Z.add_0_r.
  fold v. rewrite Hv. cbn [Z.eqb Pos.eqb].
  rewrite H3 in H2.
  unfold bind at 1. rewrite (bind_ok _ _ _ _ _ H2). unfold ret at 1.
  rewrite <- Hlen, Nat2Z.id. rewrite (bind_ok _ _ _ _ _ H4). reflexivity.
Qed.

End CompactFacts.

(** C7.  A payload of a multiple of four bytes, of fewer than [2^24] words,
    goes through the abridged writer and back through the abridged reader
    unchanged: the writer sends one length byte (below [0x7f]) or the marker
    [0x7f] and three little-endian length bytes, then the payload, and a
    reader that finds these bytes at the head of its stream returns the
    payload and leaves what follows. *)
Theorem abridged_write_then_read
  (p : bytes) (w : MTProtoCompactFrameStreamWriter.t) (buf_size : nat) :
  Z.of_nat (length p) mod 4 = 0 ->
  Z.of_nat (length p) / 4 < 2 ^ 24 ->
  exists w',
    MTProtoCompactFrameStreamWriter.write p w = Ok (PyNone, w')
    /\ MTProtoCompactFrameStreamWriter.seq_no w' = MTProtoCompactFrameStreamWriter.seq_no w
    /\ sent (MTProtoCompactFrameStreamWriter.stream w')
       = sent (MTProtoCompactFrameStreamWriter.stream w) ++ abridged_encoding p
    /\ forall (r : MTProtoCompactFrameStreamReader.t) (rest : bytes),
         pending (MTProtoCompactFrameStreamReader.stream r) = abridged_encoding p ++ rest ->
         exists r',
           MTProtoCompactFrameStreamReader.read buf_size r = Ok (p, r')
           /\ pending (MTProtoCompactFrameStreamReader.stream r') = rest.
Proof.
  intros Hmod Hlt.
  set (q := Z.of_nat (length p) / 4).
  assert (Hq : 0 <= q) by (apply Z.div_pos; lia).
  assert (Hlen : Z.of_nat (length p) = q * 4).
  { unfold q. pose proof (Z.div_mod (Z.of_nat (length p)) 4 ltac:(lia)). lia. }
  unfold MTProtoCompactFrameStreamWriter.write, abridged_encoding.
  rewrite Hmod. cbn [Z.eqb negb]. fold q.
  unfold MTProtoCompactFrameStreamWriter.SMALL_PKT_BORDER,
    MTProtoCompactFrameStreamWriter.LARGE_PKT_BORGER.
  destruct (Z.ltb_spec q 0x7f) as [Hsmall|Hbig].
  - eexists. split; [reflexivity|]. split; [reflexivity|]. split; [reflexivity|].
    intros r rest Hp.
    destruct (CompactFacts.read_short_form (Py.int_to_byte q) p rest buf_size r)
      as (r' & Hr & Hp' & _).
    + rewrite byte_to_int_to_byte, Z.mod_small by lia.
      destruct (Z.leb_spec 0x80 q); lia.
    + rewrite byte_to_int_to_byte, Z.mod_small by lia.
      destruct (Z.leb_spec 0x80 q); lia.
    + exact Hp.
    + exists r'. auto.
  - destruct (Z.ltb_spec q (256 ^ 3)) as [_|Hbad]; [|change (256 ^ 3) with (2 ^ 24) in Hbad; lia].
    unfold bind, lift.
    rewrite (to_bytes_little_ok q 3) by (change (256 ^ Z.of_nat 3) with (2 ^ 24); lia).
    eexists. split; [reflexivity|]. split; [reflexivity|]. split; [reflexivity|].
    intros r rest Hp.
    destruct (CompactFacts.read_long_form x7f (Py.little_digits 3 q) p rest buf_size r)
      as (r' & Hr & Hp' & _).
    + reflexivity.
    + apply little_digits_length.
    + rewrite from_bytes_little_digits, Z.mod_small
        by (change (256 ^ Z.of_nat 3) with (2 ^ 24); lia).
      exact Hlen.
    + rewrite Hp. cbn [app]. reflexivity.
    + exists r'. auto.
Qed.

Lemma abridged_write_then_read_witness :
  exists w',
    MTProtoCompactFrameStreamWriter.write [xaa; xbb; xcc; xdd]
      (MTProtoCompactFrameStreamWriter.mk (mkStreamWriter []) 0) = Ok (PyNone, w')
    /\ MTProtoCompactFrameStreamWriter.seq_no w' = 0
    /\ sent (MTProtoCompactFrameStreamWriter.stream w') = [x01; xaa; xbb; xcc; xdd]
    /\ forall (r : MTProtoCompactFrameStreamReader.t) (rest : bytes),
         pending (MTProtoCompactFrameStreamReader.stream r)
           = [x01; xaa; xbb; xcc; xdd] ++ rest ->
         exists r',
           MTProtoCompactFrameStreamReader.read 4096 r = Ok ([xaa; xbb; xcc; xdd], r')
           /\ pending (MTProtoCompactFrameStreamReader.stream r') = rest.
Proof.
  apply (abridged_write_then_read [xaa; xbb; xcc; xdd]
           (MTProtoCompactFrameStreamWriter.mk (mkStreamWriter []) 0) 4096);
    reflexivity.
Defined.

(** C10.  The abridged reader drops the high bit of the first length byte:
    a frame that starts with a byte [L] in [0x80, 0xfe] is read as a payload
    of [(L - 0x80) * 4] bytes, and the byte [0xff] opens the extended form
    (three little-endian length bytes) just as [0x7f] does. *)
Theorem abridged_reader_drops_high_bit
  (L : byte) (buf_size : nat) (r : MTProtoCompactFrameStreamReader.t) :
  0x80 <= Py.byte_to_int L ->
  (Py.byte_to_int L <> 0xff ->
   forall payload rest : bytes,
     Z.of_nat (length payload) = (Py.byte_to_int L - 0x80) * 4 ->
     pending (MTProtoCompactFrameStreamReader.stream r) = [L] ++ payload ++ rest ->
     exists r',
       MTProtoCompactFrameStreamReader.read buf_size r = Ok (payload, r')
       /\ pending (MTProtoCompactFrameStreamReader.stream r') = rest)
  /\
  (Py.byte_to_int L = 0xff ->
   forall len3 payload rest : bytes,
     length len3 = 3%nat ->
     Z.of_nat (length payload) = Py.from_bytes_little len3 * 4 ->
     pending (MTProtoCompactFrameStreamReader.stream r) = [L] ++ len3 ++ payload ++ rest ->
     exists r',
       MTProtoCompactFrameStreamReader.read buf_size r = Ok (payload, r')
       /\ pending (MTProtoCompactFrameStreamReader.stream r') = rest).
Proof.
  intros Hhigh. pose proof (byte_to_int_range L) as HL. split.
  - intros Hne payload rest Hlen Hp.
    destruct (CompactFacts.read_short_form L payload rest buf_size r)
      as (r' & Hr & Hp' & _); try assumption.
    + cbv zeta. destruct (Z.leb_spec 0x80 (Py.byte_to_int L)); lia.
    + cbv zeta. destruct (Z.leb_spec 0x80 (Py.byte_to_int L)); lia.
    + exists r'. auto.
  - intros Hff len3 payload rest H3 Hlen Hp.
    destruct (CompactFacts.read_long_form L len3 payload rest buf_size r)
      as (r' & Hr & Hp' & _); try assumption.
    + cbv zeta. rewrite Hff. reflexivity.
    + exists r'. auto.
Qed.

Lemma abridged_reader_drops_high_bit_witness :
  (exists r',
     MTProtoCompactFrameStreamReader.read 4096
       (MTProtoCompactFrameStreamReader.mk
          (mkStreamReader [[x81; x0a; x0b]; [x0c; x0d; x2a]] false))
     = Ok ([x0a; x0b; x0c; x0d], r')
     /\ pending (MTProtoCompactFrameStreamReader.stream r') = [x2a])
  /\
  (exists r',
     MTProtoCompactFrameStreamReader.read 4096
       (MTProtoCompactFrameStreamReader.mk
          (mkStreamReader [[xff; x01; x00; x00; x0a; x0b; x0c; x0d; x2a]] false))
     = Ok ([x0a; x0b; x0c; x0d], r')
     /\ pending (MTProtoCompactFrameStreamReader.stream r') = [x2a]).
Proof.
  split.
  - apply (proj1 (abridged_reader_drops_high_bit x81 4096
             (MTProtoCompactFrameStreamReader.mk
                (mkStreamReader [[x81; x0a; x0b]; [x0c; x0d; x2a]] false))
             ltac:(discriminate)));
      [discriminate | reflexivity | reflexivity].
  - apply (proj2 (abridged_reader_drops_high_bit xff 4096
             (MTProtoCompactFrameStreamReader.mk
                (mkStreamReader [[xff; x01; x00; x00; x0a; x0b; x0c; x0d; x2a]] false))
             ltac:(discriminate)) eq_refl [x01; x00; x00]);
      reflexivity.
Defined.

(** The abridged writer on a payload of [2^24] words or more: refused,
    nothing written. *)
Lemma abridged_write_oversize (data : bytes) (w : MTProtoCompactFrameStreamWriter.t) :
  Z.of_nat (length data) mod 4 = 0 ->
  2 ^ 24 <= Z.of_nat (length data) / 4 ->
  MTProtoCompactFrameStreamWriter.write data w = Ok (PyInt 0, w).
Proof.
  intros Hm Hbig. unfold MTProtoCompactFrameStreamWriter.write.
  rewrite Hm. cbn [Z.eqb negb].
  unfold MTProtoCompactFrameStreamWriter.SMALL_PKT_BORDER,
    MTProtoCompactFrameStreamWriter.LARGE_PKT_BORGER.
  change (256 ^ 3) with (2 ^ 24).
  destruct (Z.ltb_spec (Z.of_nat (length data) / 4) 0x7f); [lia|].
  destruct (Z.ltb_spec (Z.of_nat (length data) / 4) (2 ^ 24)); [lia|].
  reflexivity.
Qed.

(** C9 (the code departs from it).  A payload whose length is not a
    multiple of four is not refused with a logged message and the value [0]:
    building the message fails with [NameError], and nothing is written or
    returned. *)
Theorem abridged_write_misaligned_raises
  (data : bytes) (w : MTProtoCompactFrameStreamWriter.t) :
  Z.of_nat (length data) mod 4 <> 0 ->
  MTProtoCompactFrameStreamWriter.write data w = Raise NameError.
Proof.
  intros H. unfold MTProtoCompactFrameStreamWriter.write.
  destruct (Z.eqb_spec (Z.of_nat (length data) mod 4) 0); [contradiction|].
  reflexivity.
Qed.

Lemma abridged_write_misaligned_raises_witness :
  MTProtoCompactFrameStreamWriter.write [x00]
    (MTProtoCompactFrameStreamWriter.mk (mkStreamWriter []) 0) = Raise NameError.
Proof.
  apply (abridged_write_misaligned_raises [x00]
           (MTProtoCompactFrameStreamWriter.mk (mkStreamWriter []) 0)).
  discriminate.
Defined.

(** ** CRC-32 *)

Module CRC32Facts.
Import CRC32.

Lemma lxor_below (n a b : Z) :
  0 <= n -> 0 <= a < 2 ^ n -> 0 <= b < 2 ^ n -> 0 <= Z.lxor a b < 2 ^ n.
Proof.
  intros Hn Ha Hb.
  assert (Hnn : 0 <= Z.lxor a b) by (apply Z.lxor_nonneg; lia).
  split; [exact Hnn|].
  destruct (Z.eq_dec (Z.lxor a b) 0) as [E|E].
  - rewrite E. apply Z.pow_pos_nonneg; lia.
  - apply Z.log2_lt_pow2; [lia|].
    pose proof (Z.log2_lxor a b ltac:(lia) ltac:(lia)) as Hl.
    assert (La : Z.log2 a < n).
    { destruct (Z.eq_dec a 0) as [->|]; [simpl|apply Z.log2_lt_pow2]; try lia.
      destruct (Z.eq_dec n 0) as [->|]; [|lia].
      change (2 ^ 0) with 1 in Hb. assert (b = 0) by lia. subst b.
      now rewrite Z.lxor_0_r in E. }
    assert (Lb : Z.log2 b < n).
    { destruct (Z.eq_dec b 0) as [->|]; [simpl|apply Z.log2_lt_pow2]; try lia.
      destruct (Z.eq_dec n 0) as [->|]; [|lia].
      change (2 ^ 0) with 1 in Ha. assert (a = 0) by lia. subst a.
      now rewrite Z.lxor_0_l in E. }
    lia.
Qed.

Lemma lxor_cancel_r (a b k : Z) : Z.lxor a k = Z.lxor b k -> a = b.
Proof.
  intros H.
  rewrite <- (Z.lxor_0_r a), <- (Z.lxor_0_r b), <- (Z.lxor_nilpotent k).
  now rewrite <- !Z.lxor_assoc, H.
Qed.

Lemma shiftr1_below (c : Z) : u32 c -> 0 <= Z.shiftr c 1 < 2 ^ 31.
Proof.
  unfold u32. intros H. rewrite Z.shiftr_div_pow2 by lia.
  change (2 ^ 1) with 2. change (2 ^ 32) with (2 * 2 ^ 31) in H.
  split; [apply Z.div_pos; lia|apply Z.div_lt_upper_bound; lia].
Qed.

Lemma step_u32 (c : Z) : u32 c -> u32 (step c).
Proof.
  intros H. pose proof (shiftr1_below c H) as Hs. unfold step.
  destruct (Z.testbit c 0).
  - apply lxor_below; [lia| |unfold POLY; lia].
    change (2 ^ 32) with (2 * 2 ^ 31). lia.
  - unfold u32. change (2 ^ 32) with (2 * 2 ^ 31). lia.
Qed.

Lemma bit32_clear (c : Z) : 0 <= c < 2 ^ 31 -> Z.testbit c 31 = false.
Proof.
  intros H. destruct (Z.eq_dec c 0) as [->|Hc]; [apply Z.bits_0|].
  apply Z.bits_above_log2; [lia|]. apply Z.log2_lt_pow2; lia.
Qed.

(** The top bit of [step c] is the bit shifted out of [c]. *)
Lemma step_top_bit (c : Z) : u32 c -> Z.testbit (step c) 31 = Z.testbit c 0.
Proof.
  intros H. pose proof (bit32_clear _ (shiftr1_below c H)) as Hb. unfold step.
  destruct (Z.testbit c 0).
  - rewrite Z.lxor_spec, Hb. reflexivity.
  - exact Hb.
Qed.

Lemma step_inj (c d : Z) : u32 c -> u32 d -> step c = step d -> c = d.
Proof.
  intros Hc Hd E.
  assert (Hbit : Z.testbit c 0 = Z.testbit d 0).
  { rewrite <- (step_top_bit c Hc), <- (step_top_bit d Hd), E. reflexivity. }
  assert (Hsh : Z.shiftr c 1 = Z.shiftr d 1).
  { unfold step in E. rewrite <- Hbit in E.
    destruct (Z.testbit c 0); [apply (lxor_cancel_r _ _ POLY)|]; exact E. }
  rewrite (Z.div2_odd c), (Z.div2_odd d).
  rewrite <- !Z.bit0_odd, !Z.div2_spec, Hbit, Hsh. reflexivity.
Qed.

Lemma iter_step_u32 (n : nat) (c : Z) : u32 c -> u32 (Nat.iter n step c).
Proof.
  intros H. induction n as [|n IH]; [exact H|].
  cbn [Nat.iter nat_rect]. apply step_u32. exact IH.
Qed.

Lemma iter_step_inj (n : nat) (c d : Z) :
  u32 c -> u32 d -> Nat.iter n step c = Nat.iter n step d -> c = d.
Proof.
  intros Hc Hd. induction n as [|n IH]; intros E; [exact E|].
  cbn [Nat.iter nat_rect] in E.
  apply IH. apply step_inj; [apply iter_step_u32| apply iter_step_u32|]; assumption.
Qed.

Lemma lxor_byte_u32 (c : Z) (b : byte) : u32 c -> u32 (Z.lxor c (Py.byte_to_int b)).
Proof.
  intros H. pose proof (byte_to_int_range b).
  apply lxor_below; [lia|exact H|lia].
Qed.

Lemma update_u32 (c : Z) (b : byte) : u32 c -> u32 (update c b).
Proof.
  intros H. unfold update. apply iter_step_u32, lxor_byte_u32, H.
Qed.

Lemma update_inj_state (c d : Z) (b : byte) :
  u32 c -> u32 d -> update c b = update d b -> c = d.
Proof.
  intros Hc Hd E. unfold update in E.
  apply iter_step_inj in E; [|apply lxor_byte_u32; assumption ..].
  exact (lxor_cancel_r _ _ _ E).
Qed.

Lemma update_inj_byte (c : Z) (x y : byte) :
  u32 c -> update c x = update c y -> x = y.
Proof.
  intros Hc E. unfold update in E.
  apply iter_step_inj in E; [|apply lxor_byte_u32; assumption ..].
  apply byte_to_int_inj.
  rewrite (Z.lxor_comm c), (Z.lxor_comm c) in E.
  exact (lxor_cancel_r _ _ _ E).
Qed.

Lemma fold_update_u32 (data : bytes) (c : Z) : u32 c -> u32 (fold_left update data c).
Proof.
  revert c. induction data as [|b data IH]; intros c H; [exact H|].
  cbn [fold_left]. apply IH, update_u32, H.
Qed.

Lemma fold_update_inj (data : bytes) (c d : Z) :
  u32 c -> u32 d -> fold_left update data c = fold_left update data d -> c = d.
Proof.
  revert c d. induction data as [|b data IH]; intros c d Hc Hd E; [exact E|].
  cbn [fold_left] in E.
  apply IH in E; [|apply update_u32; assumption ..].
  exact (update_inj_state c d b Hc Hd E).
Qed.

Lemma crc32_range (data : bytes) : 0 <= crc32 data < 2 ^ 32.
Proof.
  unfold crc32. apply lxor_below; [lia| |lia].
  apply fold_update_u32. unfold u32. lia.
Qed.

(** Two messages that differ in exactly one byte have different checksums. *)
Lemma crc32_one_byte (pre post : bytes) (x y : byte) :
  x <> y -> crc32 (pre ++ x :: post) <> crc32 (pre ++ y :: post).
Proof.
  intros Hxy E. unfold crc32 in E. apply lxor_cancel_r in E.
  rewrite !fold_left_app in E. cbn [fold_left] in E.
  assert (H0 : u32 (fold_left update pre 0xFFFFFFFF))
    by (apply fold_update_u32; unfold u32; lia).
  apply fold_update_inj in E; [|apply update_u32; exact H0 ..].
  apply update_inj_byte in E; [contradiction|exact H0].
Qed.

End CRC32Facts.

(** ** Intermediate framing: the reader *)

Module FrameReaderFacts.
Import MTProtoFrameStreamReader.
Import FrameReaderParts.

Lemma read_unfold (buf_size : nat) :
  read buf_size =
  (msg_len_bytes <- on_stream (StreamReader_readexactly 4) ;;
   msg_len_bytes <- (fun r => skip_paddings (length (pending (stream r)))
                                            msg_len_bytes r) ;;
   read_record msg_len_bytes).
Proof. reflexivity. Qed.

Lemma frame_readexactly (a rest : bytes) (r : t) :
  pending (stream r) = a ++ rest ->
  exists s',
    on_stream (StreamReader_readexactly (length a)) r = Ok (a, mk s' (seq_no r))
    /\ pending s' = rest
    /\ eof_fed s' = eof_fed (stream r).
Proof.
  intros Hp. destruct (readexactly_prefix a rest (stream r) Hp) as (s' & Hr & Hp' & He).
  exists s'. unfold on_stream. rewrite Hr. auto.
Qed.

Lemma filler_value : Py.from_bytes_little PADDING_FILLER = 4.
Proof. reflexivity. Qed.

Lemma skip_paddings_done (fuel : nat) (w : bytes) (r : t) :
  Py.from_bytes_little w <> 4 -> skip_paddings fuel w r = Ok (w, r).
Proof.
  intros H. destruct fuel; cbn [skip_paddings];
    (destruct (Z.eqb_spec (Py.from_bytes_little w) 4); [contradiction|reflexivity]).
Qed.

Lemma skip_paddings_run (j fuel : nat) (len_bytes rest : bytes) (r : t) :
  length len_bytes = 4%nat ->
  Py.from_bytes_little len_bytes <> 4 ->
  (j < fuel)%nat ->
  pending (stream r) = paddings j ++ len_bytes ++ rest ->
  exists s',
    skip_paddings fuel PADDING_FILLER r = Ok (len_bytes, mk s' (seq_no r))
    /\ pending s' = rest
    /\ eof_fed s' = eof_fed (stream r).
Proof.
  intros H4 Hne. revert fuel r.
  induction j as [|j IH]; intros fuel r Hf Hp.
  - destruct fuel as [|fuel]; [lia|].
    cbn [skip_paddings]. rewrite filler_value. cbn [Z.eqb Pos.eqb].
    cbn [paddings repeat concat app] in Hp.
    destruct (frame_readexactly len_bytes rest r Hp) as (s' & Hr & Hp' & He).
    rewrite H4 in Hr. rewrite (bind_ok _ _ _ _ _ Hr).
    exists s'. split; [|auto]. apply skip_paddings_done, Hne.
  - destruct fuel as [|fuel]; [lia|].
    cbn [skip_paddings]. rewrite filler_value. cbn [Z.eqb Pos.eqb].
    unfold paddings in Hp. cbn [repeat concat] in Hp. rewrite <- app_assoc in Hp.
    fold (paddings j) in Hp.
    destruct (frame_readexactly PADDING_FILLER _ r Hp) as (s1 & Hr & Hp1 & He1).
    change (length PADDING_FILLER) with 4%nat in Hr.
    rewrite (bind_ok _ _ _ _ _ Hr).
    destruct (IH fuel (mk s1 (seq_no r)) ltac:(lia) Hp1) as (s' & Hs & Hp' & He').
    exists s'. cbn [seq_no stream] in *. split; [exact Hs|]. split; [exact Hp'|congruence].
Qed.

Lemma paddings_length (j : nat) : length (paddings j) = (4 * j)%nat.
Proof.
  induction j as [|j IH]; [reflexivity|].
  unfold paddings in *. cbn [repeat concat]. rewrite length_app, IH.
  change (length PADDING_FILLER) with 4%nat. lia.
Qed.

(** The head of [read]: padding records are passed over, and the record
    whose length field is [len_bytes] is handed to [read_record]. *)
Lemma read_reaches_record (buf_size j : nat) (len_bytes rest : bytes) (r : t) :
  length len_bytes = 4%nat ->
  Py.from_bytes_little len_bytes <> 4 ->
  pending (stream r) = paddings j ++ len_bytes ++ rest ->
  exists s',
    read buf_size r = read_record len_bytes (mk s' (seq_no r))
    /\ pending s' = rest
    /\ eof_fed s' = eof_fed (stream r).
Proof.
  intros H4 Hne Hp. rewrite read_unfold.
  destruct j as [|j].
  - cbn [paddings repeat concat app] in Hp.
    destruct (frame_readexactly len_bytes rest r Hp) as (s' & Hr & Hp' & He).
    rewrite H4 in Hr. rewrite (bind_ok _ _ _ _ _ Hr).
    exists s'. split; [|auto].
    unfold bind at 1. rewrite skip_paddings_done by exact Hne. reflexivity.
  - unfold paddings in Hp. cbn [repeat concat] in Hp. rewrite <- app_assoc in Hp.
    fold (paddings j) in Hp.
    destruct (frame_readexactly PADDING_FILLER _ r Hp) as (s1 & Hr & Hp1 & He1).
    change (length PADDING_FILLER) with 4%nat in Hr.
    rewrite (bind_ok _ _ _ _ _ Hr).
    destruct (skip_paddings_run j (length (pending s1)) len_bytes rest
                (mk s1 (seq_no r)) H4 Hne) as (s' & Hs & Hp' & He').
    + rewrite Hp1, !length_app, paddings_length, H4. lia.
    + exact Hp1.
    + exists s'. cbn [seq_no stream] in *. split; [|split; [exact Hp'|congruence]].
      unfold bind at 1. cbv beta. cbn [stream]. rewrite Hs. reflexivity.
Qed.

Lemma len_check_passes (v : Z) :
  len_ok v ->
  negb ((MIN_MSG_LEN <=? v) && (v <=? MAX_MSG_LEN))
  || negb (v mod Z.of_nat (length PADDING_FILLER) =? 0) = false.
Proof.
  intros [[H1 H2] H3]. unfold MIN_MSG_LEN, MAX_MSG_LEN.
  change (Z.of_nat (length PADDING_FILLER)) with 4. rewrite H3.
  destruct (Z.leb_spec 12 v); [|lia]. destruct (Z.leb_spec v (2 ^ 24)); [|lia].
  reflexivity.
Qed.

Lemma len_check_fails (v : Z) :
  v < 12 \/ 2 ^ 24 < v \/ v mod 4 <> 0 ->
  negb ((MIN_MSG_LEN <=? v) && (v <=? MAX_MSG_LEN))
  || negb (v mod Z.of_nat (length PADDING_FILLER) =? 0) = true.
Proof.
  intros H. unfold MIN_MSG_LEN, MAX_MSG_LEN.
  change (Z.of_nat (length PADDING_FILLER)) with 4.
  destruct (Z.leb_spec 12 v); destruct (Z.leb_spec v (2 ^ 24));
    destruct (Z.eqb_spec (v mod 4) 0); try reflexivity; lia.
Qed.

Lemma record_bad_length (len_bytes : bytes) (r : t) :
  let v := Py.from_bytes_little len_bytes in
  v < 12 \/ 2 ^ 24 < v \/ v mod 4 <> 0 ->
  read_record len_bytes r = Ok ([], mk (mkStreamReader (segments (stream r)) true) (seq_no r)).
Proof.
  intros v H. unfold read_record. fold v. rewrite (len_check_fails v H).
  reflexivity.
Qed.

Lemma record_bad_seq (len_bytes seq_bytes rest : bytes) (r : t) :
  len_ok (Py.from_bytes_little len_bytes) ->
  length seq_bytes = 4%nat ->
  Py.from_bytes_little_signed seq_bytes <> seq_no r ->
  pending (stream r) = seq_bytes ++ rest ->
  signals_eof (read_record len_bytes r).
Proof.
  intros Hv H4 Hne Hp. unfold read_record. rewrite (len_check_passes _ Hv).
  destruct (frame_readexactly seq_bytes rest r Hp) as (s' & Hr & Hp' & He).
  rewrite H4 in Hr. rewrite (bind_ok _ _ _ _ _ Hr).
  unfold bind at 1, get_seq_no. cbn [seq_no].
  destruct (Z.eqb_spec (Py.from_bytes_little_signed seq_bytes) (seq_no r)); [contradiction|].
  cbn [negb]. eexists. split; reflexivity.
Qed.

Lemma record_body (len_bytes seq_bytes data crc_bytes rest : bytes) (r : t) :
  len_ok (Py.from_bytes_little len_bytes) ->
  length seq_bytes = 4%nat ->
  Py.from_bytes_little_signed seq_bytes = seq_no r ->
  Z.of_nat (length data) = Py.from_bytes_little len_bytes - 12 ->
  length crc_bytes = 4%nat ->
  pending (stream r) = seq_bytes ++ data ++ crc_bytes ++ rest ->
  exists s',
    pending s' = rest /\ eof_fed s' = eof_fed (stream r) /\
    read_record len_bytes r =
      if CRC32.crc32 (len_bytes ++ seq_bytes ++ data) =? Py.from_bytes_little crc_bytes
      then Ok (data, mk s' (seq_no r + 1))
      else Ok ([], mk (mkStreamReader (segments s') true) (seq_no r + 1)).
Proof.
  intros Hv H4 Hseq Hd Hc Hp. unfold read_record. rewrite (len_check_passes _ Hv).
  destruct (frame_readexactly seq_bytes _ r Hp) as (s1 & Hr1 & Hp1 & He1).
  rewrite H4 in Hr1. rewrite (bind_ok _ _ _ _ _ Hr1).
  unfold bind at 1, get_seq_no. cbn [seq_no].
  rewrite Hseq, Z.eqb_refl. cbn [negb].
  unfold bind at 1, incr_seq_no. cbn [seq_no stream].
  destruct (frame_readexactly data _ (mk s1 (seq_no r + 1)) Hp1) as (s2 & Hr2 & Hp2 & He2).
  replace (Z.to_nat (Py.from_bytes_little len_bytes - 4 - 4 - 4)) with (length data) by lia.
  rewrite (bind_ok _ _ _ _ _ Hr2).
  destruct (frame_readexactly crc_bytes rest (mk s2 (seq_no r + 1)) Hp2)
    as (s3 & Hr3 & Hp3 & He3).
  cbn [seq_no stream] in *.
  rewrite Hc in Hr3. rewrite (bind_ok _ _ _ _ _ Hr3).
  exists s3. split; [exact Hp3|]. split; [congruence|].
  destruct (CRC32.crc32 (len_bytes ++ seq_bytes ++ data) =? Py.from_bytes_little crc_bytes);
    reflexivity.
Qed.

End FrameReaderFacts.

(** ** Intermediate framing: the writer, and writer against reader *)

Module FrameWriterFacts.
Import MTProtoFrameStreamWriter.

Lemma to_bytes_little_signed_ok (k : Z) :
  int32 k -> to_bytes_little_signed k 4 = Ok (Py.little_digits 4 (k mod 2 ^ 32)).
Proof.
  intros [H1 H2]. unfold to_bytes_little_signed.
  change (8 * Z.of_nat 4 - 1) with 31. change (8 * Z.of_nat 4) with 32.
  destruct (Z.leb_spec (- 2 ^ 31) k); [|lia].
  destruct (Z.ltb_spec k (2 ^ 31)); [|lia]. reflexivity.
Qed.

Lemma frame_record_length (p : bytes) (k : Z) :
  length (frame_record p k) = (length p + 12)%nat.
Proof.
  unfold frame_record. cbv zeta. rewrite !length_app, !little_digits_length. lia.
Qed.

Lemma write_emits (p : bytes) (w : t) :
  Z.of_nat (length p) + 12 < 2 ^ 32 ->
  int32 (seq_no w) ->
  write p w =
    Ok (PyNone,
        mk (mkStreamWriter (sent (stream w) ++ frame_record p (seq_no w)
                              ++ paddings (frame_pad_count p)))
           (seq_no w + 1)).
Proof.
  intros Hlen Hk. unfold write.
  replace (Z.of_nat (length p) + 4 + 4 + 4) with (Z.of_nat (length p) + 12) by lia.
  unfold bind at 1, lift at 1.
  rewrite to_bytes_little_ok
    by (change (256 ^ Z.of_nat 4) with (2 ^ 32); lia).
  unfold bind at 1, get_seq_no at 1.
  unfold bind at 1, lift at 1.
  rewrite (to_bytes_little_signed_ok _ Hk).
  unfold bind at 1, incr_seq_no at 1.
  unfold bind at 1, lift at 1.
  rewrite to_bytes_little_ok
    by (change (256 ^ Z.of_nat 4) with (2 ^ 32); apply CRC32Facts.crc32_range).
  unfold on_stream, StreamWriter_write. cbn [stream seq_no sent].
  unfold frame_record, frame_pad_count, paddings, repeat_bytes, CBC_PADDING.
  cbv zeta. rewrite !length_app, !little_digits_length.
  change (Z.of_nat (length PADDING_FILLER)) with 4.
  replace (Z.of_nat (4 + (4 + length p) + 4)) with (Z.of_nat (length p) + 12) by lia.
  rewrite <- !app_assoc. reflexivity.
Qed.

Lemma padded_to_block (p : bytes) (k : Z) :
  Z.of_nat (length p) mod 4 = 0 ->
  Z.of_nat (length (frame_record p k ++ paddings (frame_pad_count p))) mod 16 = 0.
Proof.
  intros H4.
  rewrite length_app, frame_record_length, FrameReaderFacts.paddings_length.
  unfold frame_pad_count.
  set (L := Z.of_nat (length p) + 12).
  assert (HL : L mod 4 = 0).
  { unfold L. replace (Z.of_nat (length p) + 12) with (Z.of_nat (length p) + 3 * 4) by lia.
    rewrite Z_mod_plus_full. exact H4. }
  pose proof (Z.mod_pos_bound (- L) 16 ltac:(lia)) as Hx.
  pose proof (Z.div_mod (- L) 16 ltac:(lia)) as Hq.
  set (x := (- L) mod 16) in *.
  assert (Hx4 : x mod 4 = 0).
  { pose proof (Z.div_mod L 4 ltac:(lia)) as HL4. rewrite HL in HL4.
    replace x with ((- L / 16 * (-4) + L / 4 * (-1) + x / 4 * 0) * 4 + (x + (- L / 16) * 16 + L / 4 * 4)) by lia.
    replace (x + - L / 16 * 16 + L / 4 * 4) with 0 by lia.
    rewrite Z.add_0_r. apply Z.mod_mul. lia. }
  pose proof (Z.div_mod x 4 ltac:(lia)) as Hx'. rewrite Hx4 in Hx'.
  assert (Hnn : 0 <= x / 4) by (apply Z.div_pos; lia).
  replace (Z.of_nat (length p + 12 + 4 * Z.to_nat (x / 4))) with ((- (- L / 16)) * 16)
    by (unfold L in *; lia).
  apply Z.mod_mul. lia.
Qed.

End FrameWriterFacts.

(** C6.  A payload of a multiple of four bytes with [12 + |p| <= 2^24],
    written by the intermediate writer at sequence number [k], is returned
    unchanged by the intermediate reader that expects [k].  The writer sends
    the record (length [|p| + 12], sequence number, payload, CRC-32 of these,
    little-endian) followed by whole fillers [04 00 00 00] up to a multiple of
    sixteen bytes; the reader passes over any padding records before the
    record and leaves the fillers after it for the next read. *)
Theorem intermediate_write_then_read
  (p : bytes) (w : MTProtoFrameStreamWriter.t) (buf_size : nat) :
  Z.of_nat (length p) mod 4 = 0 ->
  12 <= 12 + Z.of_nat (length p) <= 2 ^ 24 ->
  int32 (MTProtoFrameStreamWriter.seq_no w) ->
  let k := MTProtoFrameStreamWriter.seq_no w in
  let wire := frame_record p k ++ paddings (frame_pad_count p) in
  exists w',
    MTProtoFrameStreamWriter.write p w = Ok (PyNone, w')
    /\ MTProtoFrameStreamWriter.seq_no w' = k + 1
    /\ sent (MTProtoFrameStreamWriter.stream w')
       = sent (MTProtoFrameStreamWriter.stream w) ++ wire
    /\ Z.of_nat (length wire) mod 16 = 0
    /\ forall (r : MTProtoFrameStreamReader.t) (j : nat) (rest : bytes),
         MTProtoFrameStreamReader.seq_no r = k ->
         pending (MTProtoFrameStreamReader.stream r) = paddings j ++ wire ++ rest ->
         exists r',
           MTProtoFrameStreamReader.read buf_size r = Ok (p, r')
           /\ MTProtoFrameStreamReader.seq_no r' = k + 1
           /\ pending (MTProtoFrameStreamReader.stream r')
              = paddings (frame_pad_count p) ++ rest.
Proof.
  intros H4 Hlen Hk k wire.
  eexists. split; [apply FrameWriterFacts.write_emits; [lia|exact Hk]|].
  cbn [MTProtoFrameStreamWriter.seq_no MTProtoFrameStreamWriter.stream sent].
  split; [reflexivity|]. split; [reflexivity|].
  split; [apply FrameWriterFacts.padded_to_block, H4|].
  intros r j rest Hseq Hp.
  set (len_bytes := Py.little_digits 4 (Z.of_nat (length p) + 12)).
  set (seq_bytes := Py.little_digits 4 (k mod 2 ^ 32)).
  set (crc_bytes := Py.little_digits 4 (CRC32.crc32 (len_bytes ++ seq_bytes ++ p))).
  assert (Hv : Py.from_bytes_little len_bytes = Z.of_nat (length p) + 12).
  { unfold len_bytes. rewrite from_bytes_little_digits.
    apply Z.mod_small. change (256 ^ Z.of_nat 4) with (2 ^ 32). lia. }
  assert (Hwire : paddings j ++ wire ++ rest
                  = paddings j ++ len_bytes
                      ++ (seq_bytes ++ p ++ crc_bytes ++ paddings (frame_pad_count p) ++ rest)).
  { unfold wire, frame_record. cbv zeta.
    fold len_bytes. fold seq_bytes. fold crc_bytes.
    rewrite <- !app_assoc. reflexivity. }
  rewrite Hwire in Hp.
  destruct (FrameReaderFacts.read_reaches_record buf_size j len_bytes
              (seq_bytes ++ p ++ crc_bytes ++ paddings (frame_pad_count p) ++ rest) r)
    as (s1 & Hread & Hp1 & He1); [apply little_digits_length|rewrite Hv; lia|exact Hp|].
  rewrite Hread.
  destruct (FrameReaderFacts.record_body len_bytes seq_bytes p crc_bytes
              (paddings (frame_pad_count p) ++ rest)
              (MTProtoFrameStreamReader.mk s1 (MTProtoFrameStreamReader.seq_no r)))
    as (s2 & Hp2 & He2 & Hbody).
  - rewrite Hv. split; [lia|].
    replace (Z.of_nat (length p) + 12) with (Z.of_nat (length p) + 3 * 4) by lia.
    rewrite Z_mod_plus_full. exact H4.
  - apply little_digits_length.
  - cbn [MTProtoFrameStreamReader.seq_no]. rewrite Hseq.
    apply (from_bytes_to_bytes_little_signed k 4); [lia|].
    apply FrameWriterFacts.to_bytes_little_signed_ok, Hk.
  - rewrite Hv. lia.
  - apply little_digits_length.
  - exact Hp1.
  - rewrite Hbody. cbn [MTProtoFrameStreamReader.seq_no].
    unfold crc_bytes at 1. rewrite from_bytes_little_digits.
    rewrite Z.mod_small
      by (change (256 ^ Z.of_nat 4) with (2 ^ 32); apply CRC32Facts.crc32_range).
    rewrite Z.eqb_refl. eexists. split; [reflexivity|].
    cbn [MTProtoFrameStreamReader.seq_no MTProtoFrameStreamReader.stream].
    split; [rewrite Hseq; reflexivity|exact Hp2].
Qed.

Lemma intermediate_write_then_read_witness :
  let p := [x01; x02; x03; x04] in
  let w := MTProtoFrameStreamWriter.mk (mkStreamWriter []) (-2) in
  let wire := frame_record p (-2) ++ paddings (frame_pad_count p) in
  exists w',
    MTProtoFrameStreamWriter.write p w = Ok (PyNone, w')
    /\ MTProtoFrameStreamWriter.seq_no w' = -2 + 1
    /\ sent (MTProtoFrameStreamWriter.stream w') = [] ++ wire
    /\ Z.of_nat (length wire) mod 16 = 0
    /\ forall (r : MTProtoFrameStreamReader.t) (j : nat) (rest : bytes),
         MTProtoFrameStreamReader.seq_no r = -2 ->
         pending (MTProtoFrameStreamReader.stream r) = paddings j ++ wire ++ rest ->
         exists r',
           MTProtoFrameStreamReader.read 4096 r = Ok (p, r')
           /\ MTProtoFrameStreamReader.seq_no r' = -2 + 1
           /\ pending (MTProtoFrameStreamReader.stream r')
              = paddings (frame_pad_count p) ++ rest.
Proof.
  apply (intermediate_write_then_read [x01; x02; x03; x04]
           (MTProtoFrameStreamWriter.mk (mkStreamWriter []) (-2)) 4096);
    [reflexivity | simpl; lia | unfold int32; simpl; lia].
Defined.

Module TamperFacts.

Lemma byte_xor_bit_changes (x : byte) (b : Z) :
  0 <= b < 8 -> Py.byte_xor x (Py.int_to_byte (2 ^ b)) <> x.
Proof.
  intros Hb E. apply (f_equal Py.byte_to_int) in E.
  unfold Py.byte_xor in E. rewrite !byte_to_int_to_byte in E.
  pose proof (byte_to_int_range x) as Hx.
  assert (Hm : 0 < 2 ^ b < 256).
  { split; [apply Z.pow_pos_nonneg; lia|].
    change 256 with (2 ^ 8). apply Z.pow_lt_mono_r; lia. }
  rewrite (Z.mod_small (2 ^ b)) in E by lia.
  rewrite Z.mod_small in E
    by (apply (CRC32Facts.lxor_below 8); change (2 ^ 8) with 256; lia).
  rewrite <- (Z.lxor_0_r (Py.byte_to_int x)) in E at 2.
  rewrite !(Z.lxor_comm (Py.byte_to_int x)) in E.
  apply CRC32Facts.lxor_cancel_r in E. lia.
Qed.

Lemma flip_bit_split (i : nat) (b : Z) (s : bytes) :
  (i < length s)%nat ->
  exists pre x post,
    s = pre ++ x :: post
    /\ flip_bit i b s = pre ++ Py.byte_xor x (Py.int_to_byte (2 ^ b)) :: post.
Proof.
  revert i. induction s as [|x tl IH]; intros i Hi; [simpl in Hi; lia|].
  destruct i as [|i].
  - exists [], x, tl. split; reflexivity.
  - destruct (IH i) as (pre & y & post & Hs & Hf); [simpl in Hi; lia|].
    exists (x :: pre), y, post. cbn [flip_bit app]. rewrite Hf, <- Hs. split; reflexivity.
Qed.

Lemma flip_bit_length (i : nat) (b : Z) (s : bytes) :
  length (flip_bit i b s) = length s.
Proof.
  revert i. induction s as [|x tl IH]; intros i; [reflexivity|].
  destruct i; cbn [flip_bit length]; [reflexivity|now rewrite IH].
Qed.

Lemma flip_bit_app_l (a s : bytes) (i : nat) (b : Z) :
  flip_bit (length a + i) b (a ++ s) = a ++ flip_bit i b s.
Proof.
  induction a as [|x a IH]; [reflexivity|].
  cbn [length app Nat.add flip_bit]. now rewrite IH.
Qed.

Lemma flip_bit_app_r (s t : bytes) (i : nat) (b : Z) :
  (i < length s)%nat -> flip_bit i b (s ++ t) = flip_bit i b s ++ t.
Proof.
  revert i. induction s as [|x s IH]; intros i Hi; [simpl in Hi; lia|].
  destruct i; cbn [app flip_bit]; [reflexivity|].
  rewrite IH by (simpl in Hi; lia). reflexivity.
Qed.

End TamperFacts.

Module RejectFacts.
Import MTProtoFrameStreamReader.

Lemma reject_length (buf_size j : nat) (len_bytes rest : bytes) (r : t) :
  length len_bytes = 4%nat ->
  Py.from_bytes_little len_bytes <> 4 ->
  (Py.from_bytes_little len_bytes < 12 \/ 2 ^ 24 < Py.from_bytes_little len_bytes
   \/ Py.from_bytes_little len_bytes mod 4 <> 0) ->
  pending (stream r) = paddings j ++ len_bytes ++ rest ->
  signals_eof (read buf_size r).
Proof.
  intros H4 Hne Hbad Hp.
  destruct (FrameReaderFacts.read_reaches_record buf_size j len_bytes rest r H4 Hne Hp)
    as (s' & Hread & _ & _).
  rewrite Hread, (FrameReaderFacts.record_bad_length len_bytes _ Hbad).
  eexists. split; reflexivity.
Qed.

Lemma reject_seq (buf_size j : nat) (len_bytes seq_bytes rest : bytes) (r : t) :
  length len_bytes = 4%nat ->
  FrameReaderParts.len_ok (Py.from_bytes_little len_bytes) ->
  length seq_bytes = 4%nat ->
  Py.from_bytes_little_signed seq_bytes <> seq_no r ->
  pending (stream r) = paddings j ++ len_bytes ++ seq_bytes ++ rest ->
  signals_eof (read buf_size r).
Proof.
  intros H4 Hv Hs Hne Hp.
  destruct (FrameReaderFacts.read_reaches_record buf_size j len_bytes _ r H4
              ltac:(destruct Hv; lia) Hp) as (s' & Hread & Hp' & _).
  rewrite Hread.
  apply (FrameReaderFacts.record_bad_seq len_bytes seq_bytes rest); assumption.
Qed.

Lemma reject_crc (buf_size j : nat) (len_bytes seq_bytes data crc_bytes rest : bytes) (r : t) :
  length len_bytes = 4%nat ->
  FrameReaderParts.len_ok (Py.from_bytes_little len_bytes) ->
  length seq_bytes = 4%nat ->
  Py.from_bytes_little_signed seq_bytes = seq_no r ->
  Z.of_nat (length data) = Py.from_bytes_little len_bytes - 12 ->
  length crc_bytes = 4%nat ->
  Py.from_bytes_little crc_bytes <> CRC32.crc32 (len_bytes ++ seq_bytes ++ data) ->
  pending (stream r) = paddings j ++ len_bytes ++ seq_bytes ++ data ++ crc_bytes ++ rest ->
  signals_eof (read buf_size r).
Proof.
  intros H4 Hv Hs Hseq Hd Hc Hne Hp.
  destruct (FrameReaderFacts.read_reaches_record buf_size j len_bytes _ r H4
              ltac:(destruct Hv; lia) Hp) as (s' & Hread & Hp' & _).
  rewrite Hread.
  destruct (FrameReaderFacts.record_body len_bytes seq_bytes data crc_bytes rest
              (mk s' (seq_no r)) Hv Hs Hseq Hd Hc Hp') as (s2 & _ & _ & Hbody).
  rewrite Hbody.
  destruct (Z.eqb_spec (CRC32.crc32 (len_bytes ++ seq_bytes ++ data))
              (Py.from_bytes_little crc_bytes)) as [E|_]; [congruence|].
  eexists. split; reflexivity.
Qed.

Lemma payload_len_ok (p : bytes) :
  payload_ok p ->
  Py.from_bytes_little (Py.little_digits 4 (Z.of_nat (length p) + 12))
    = Z.of_nat (length p) + 12
  /\ FrameReaderParts.len_ok (Z.of_nat (length p) + 12).
Proof.
  intros [H4 Hle]. split.
  - rewrite from_bytes_little_digits. apply Z.mod_small.
    change (256 ^ Z.of_nat 4) with (2 ^ 32). lia.
  - split; [lia|].
    replace (Z.of_nat (length p) + 12) with (Z.of_nat (length p) + 3 * 4) by lia.
    rewrite Z_mod_plus_full. exact H4.
Qed.

Lemma seq_bytes_value (k : Z) :
  int32 k -> Py.from_bytes_little_signed (Py.little_digits 4 (k mod 2 ^ 32)) = k.
Proof.
  intros Hk. apply (from_bytes_to_bytes_little_signed k 4); [lia|].
  apply FrameWriterFacts.to_bytes_little_signed_ok, Hk.
Qed.

Lemma reject_flipped (buf_size j i : nat) (b : Z) (p rest : bytes) (r : t) :
  payload_ok p ->
  int32 (seq_no r) ->
  (i < length p)%nat ->
  0 <= b < 8 ->
  pending (stream r)
    = paddings j
        ++ flip_bit (8 + i) b (frame_record p (seq_no r) ++ paddings (frame_pad_count p))
        ++ rest ->
  signals_eof (read buf_size r).
Proof.
  intros Hok Hk Hi Hb Hp.
  destruct (payload_len_ok p Hok) as [Hv Hlen].
  set (len_bytes := Py.little_digits 4 (Z.of_nat (length p) + 12)) in *.
  set (seq_bytes := Py.little_digits 4 (seq_no r mod 2 ^ 32)).
  set (crc_bytes := Py.little_digits 4 (CRC32.crc32 (len_bytes ++ seq_bytes ++ p))).
  assert (Hflip :
    flip_bit (8 + i) b (frame_record p (seq_no r) ++ paddings (frame_pad_count p))
    = len_bytes ++ seq_bytes ++ flip_bit i b p
        ++ crc_bytes ++ paddings (frame_pad_count p)).
  { unfold frame_record. cbv zeta. fold len_bytes. fold seq_bytes. fold crc_bytes.
    rewrite <- !app_assoc.
    rewrite (app_assoc len_bytes seq_bytes).
    replace (8 + i)%nat with (length (len_bytes ++ seq_bytes) + i)%nat
      by (rewrite length_app; unfold len_bytes, seq_bytes;
          rewrite !little_digits_length; reflexivity).
    rewrite TamperFacts.flip_bit_app_l, TamperFacts.flip_bit_app_r by exact Hi.
    rewrite <- !app_assoc. reflexivity. }
  rewrite Hflip, <- !app_assoc in Hp.
  destruct (TamperFacts.flip_bit_split i b p Hi) as (pre & x & post & Hsplit & Hf).
  apply (reject_crc buf_size j len_bytes seq_bytes (flip_bit i b p) crc_bytes
           (paddings (frame_pad_count p) ++ rest)).
  - apply little_digits_length.
  - rewrite Hv. exact Hlen.
  - apply little_digits_length.
  - apply seq_bytes_value, Hk.
  - rewrite TamperFacts.flip_bit_length, Hv. lia.
  - apply little_digits_length.
  - unfold crc_bytes. rewrite from_bytes_little_digits, Z.mod_small
      by (change (256 ^ Z.of_nat 4) with (2 ^ 32); apply CRC32Facts.crc32_range).
    rewrite Hf. rewrite Hsplit at 1.
    rewrite !app_assoc. apply CRC32Facts.crc32_one_byte.
    intros E. symmetry in E. revert E. apply TamperFacts.byte_xor_bit_changes, Hb.
  - exact Hp.
Qed.

Lemma reject_other_seq (buf_size j : nat) (m : Z) (p rest : bytes) (r : t) :
  payload_ok p ->
  int32 m ->
  m <> seq_no r ->
  pending (stream r)
    = paddings j ++ (frame_record p m ++ paddings (frame_pad_count p)) ++ rest ->
  signals_eof (read buf_size r).
Proof.
  intros Hok Hm Hne Hp.
  destruct (payload_len_ok p Hok) as [Hv Hlen].
  unfold frame_record in Hp. cbv zeta in Hp. rewrite <- !app_assoc in Hp.
  eapply (reject_seq buf_size j _ (Py.little_digits 4 (m mod 2 ^ 32))); [| | | |exact Hp].
  - apply little_digits_length.
  - rewrite Hv. exact Hlen.
  - apply little_digits_length.
  - rewrite (seq_bytes_value m Hm). exact Hne.
Qed.

End RejectFacts.

(** C5.  The intermediate reader gives the empty result, and feeds end of
    file to its stream, whenever a check on the incoming record fails.  The
    record starts after [j] padding records (length field 4, passed over);
    (1) its length field is below 12, above [2^24] or not a multiple of 4;
    (2) its sequence number is not the one the reader expects;
    (3) its checksum is not the CRC-32 of length, sequence number and
        payload.
    In particular (4) a record as the writer sends it, with one bit of its
    payload flipped on the way, and (5) a record the writer sent at another
    sequence number than the reader expects (after a lost record the writer
    is one ahead) both end in the empty result. *)
Theorem intermediate_reader_rejects
  (r : MTProtoFrameStreamReader.t) (buf_size j : nat) :
  (forall len_bytes rest : bytes,
     length len_bytes = 4%nat ->
     Py.from_bytes_little len_bytes <> 4 ->
     (Py.from_bytes_little len_bytes < MIN_MSG_LEN
      \/ MAX_MSG_LEN < Py.from_bytes_little len_bytes
      \/ Py.from_bytes_little len_bytes mod 4 <> 0) ->
     pending (MTProtoFrameStreamReader.stream r) = paddings j ++ len_bytes ++ rest ->
     signals_eof (MTProtoFrameStreamReader.read buf_size r))
  /\
  (forall len_bytes seq_bytes rest : bytes,
     length len_bytes = 4%nat ->
     MIN_MSG_LEN <= Py.from_bytes_little len_bytes <= MAX_MSG_LEN ->
     Py.from_bytes_little len_bytes mod 4 = 0 ->
     length seq_bytes = 4%nat ->
     Py.from_bytes_little_signed seq_bytes <> MTProtoFrameStreamReader.seq_no r ->
     pending (MTProtoFrameStreamReader.stream r)
       = paddings j ++ len_bytes ++ seq_bytes ++ rest ->
     signals_eof (MTProtoFrameStreamReader.read buf_size r))
  /\
  (forall len_bytes seq_bytes data crc_bytes rest : bytes,
     length len_bytes = 4%nat ->
     MIN_MSG_LEN <= Py.from_bytes_little len_bytes <= MAX_MSG_LEN ->
     Py.from_bytes_little len_bytes mod 4 = 0 ->
     length seq_bytes = 4%nat ->
     Py.from_bytes_little_signed seq_bytes = MTProtoFrameStreamReader.seq_no r ->
     Z.of_nat (length data) = Py.from_bytes_little len_bytes - 12 ->
     length crc_bytes = 4%nat ->
     Py.from_bytes_little crc_bytes <> CRC32.crc32 (len_bytes ++ seq_bytes ++ data) ->
     pending (MTProtoFrameStreamReader.stream r)
       = paddings j ++ len_bytes ++ seq_bytes ++ data ++ crc_bytes ++ rest ->
     signals_eof (MTProtoFrameStreamReader.read buf_size r))
  /\
  (forall (p rest : bytes) (w w' : MTProtoFrameStreamWriter.t) (i : nat) (b : Z),
     payload_ok p ->
     int32 (MTProtoFrameStreamWriter.seq_no w) ->
     sent (MTProtoFrameStreamWriter.stream w) = [] ->
     MTProtoFrameStreamWriter.write p w = Ok (PyNone, w') ->
     MTProtoFrameStreamWriter.seq_no w = MTProtoFrameStreamReader.seq_no r ->
     (i < length p)%nat ->
     0 <= b < 8 ->
     pending (MTProtoFrameStreamReader.stream r)
       = paddings j
           ++ flip_bit (8 + i) b (sent (MTProtoFrameStreamWriter.stream w'))
           ++ rest ->
     signals_eof (MTProtoFrameStreamReader.read buf_size r))
  /\
  (forall (p rest : bytes) (w w' : MTProtoFrameStreamWriter.t),
     payload_ok p ->
     int32 (MTProtoFrameStreamWriter.seq_no w) ->
     sent (MTProtoFrameStreamWriter.stream w) = [] ->
     MTProtoFrameStreamWriter.write p w = Ok (PyNone, w') ->
     MTProtoFrameStreamWriter.seq_no w <> MTProtoFrameStreamReader.seq_no r ->
     pending (MTProtoFrameStreamReader.stream r)
       = paddings j ++ sent (MTProtoFrameStreamWriter.stream w') ++ rest ->
     signals_eof (MTProtoFrameStreamReader.read buf_size r)).
Proof.
  unfold MIN_MSG_LEN, MAX_MSG_LEN. repeat split.
  - intros len_bytes rest H4 Hne Hbad Hp.
    apply (RejectFacts.reject_length buf_size j len_bytes rest); assumption.
  - intros len_bytes seq_bytes rest H4 Hr Hm Hs Hne Hp.
    apply (RejectFacts.reject_seq buf_size j len_bytes seq_bytes rest);
      try assumption. split; assumption.
  - intros len_bytes seq_bytes data crc_bytes rest H4 Hr Hm Hs Hseq Hd Hc Hne Hp.
    apply (RejectFacts.reject_crc buf_size j len_bytes seq_bytes data crc_bytes rest);
      try assumption. split; assumption.
  - intros p rest w w' i b Hok Hk Hempty Hw Hseq Hi Hb Hp.
    rewrite FrameWriterFacts.write_emits in Hw by (destruct Hok; first [lia|assumption]).
    injection Hw as <-. cbn [MTProtoFrameStreamWriter.stream sent] in Hp.
    rewrite Hempty, Hseq in Hp. cbn [app] in Hp.
    apply (RejectFacts.reject_flipped buf_size j i b p rest); try assumption.
    rewrite <- Hseq. exact Hk.
  - intros p rest w w' Hok Hk Hempty Hw Hne Hp.
    rewrite FrameWriterFacts.write_emits in Hw by (destruct Hok; first [lia|assumption]).
    injection Hw as <-. cbn [MTProtoFrameStreamWriter.stream sent] in Hp.
    rewrite Hempty in Hp. cbn [app] in Hp.
    apply (RejectFacts.reject_other_seq buf_size j
             (MTProtoFrameStreamWriter.seq_no w) p rest); assumption.
Qed.

Lemma intermediate_reader_rejects_witness :
  let reader segs k := MTProtoFrameStreamReader.mk (mkStreamReader segs false) k in
  signals_eof (MTProtoFrameStreamReader.read 4096
    (reader [[x04; x00; x00; x00]; [x05; x00; x00; x00; x2a]] 0))
  /\ signals_eof (MTProtoFrameStreamReader.read 4096
    (reader [[x10; x00; x00; x00; x07; x00; x00; x00; x01; x02; x03; x04]] 0))
  /\ signals_eof (MTProtoFrameStreamReader.read 4096
    (reader [[x10; x00; x00; x00; x00; x00; x00; x00];
             [x01; x02; x03; x04; x00; x00; x00; x00]] 0))
  /\ signals_eof (MTProtoFrameStreamReader.read 4096
    (reader [[x10; x00; x00; x00; xfe; xff; xff; xff;
              x01; x02; x0b; x04; x4a; x2f; xc2; xb6]] (-2)))
  /\ signals_eof (MTProtoFrameStreamReader.read 4096
    (reader [[x10; x00; x00; x00; xfe; xff; xff; xff;
              x01; x02; x03; x04; x4a; x2f; xc2; xb6]] (-3))).
Proof.
  cbv zeta. repeat split.
  - apply (proj1 (intermediate_reader_rejects _ 4096 1)
             [x05; x00; x00; x00] [x2a]);
      [reflexivity | evaluate | left; reflexivity | reflexivity].
  - apply (proj1 (proj2 (intermediate_reader_rejects _ 4096 0))
             [x10; x00; x00; x00] [x07; x00; x00; x00] [x01; x02; x03; x04]);
      [reflexivity | split; evaluate | reflexivity | reflexivity
      | evaluate | reflexivity].
  - apply (proj1 (proj2 (proj2 (intermediate_reader_rejects _ 4096 0)))
             [x10; x00; x00; x00] [x00; x00; x00; x00] [x01; x02; x03; x04]
             [x00; x00; x00; x00] []);
      [reflexivity | split; evaluate | reflexivity | reflexivity | reflexivity
      | reflexivity | reflexivity | evaluate | reflexivity].
  - apply (proj1 (proj2 (proj2 (proj2 (intermediate_reader_rejects _ 4096 0))))
             [x01; x02; x03; x04] []
             (MTProtoFrameStreamWriter.mk (mkStreamWriter []) (-2))
             (MTProtoFrameStreamWriter.mk
                (mkStreamWriter [x10; x00; x00; x00; xfe; xff; xff; xff;
                                 x01; x02; x03; x04; x4a; x2f; xc2; xb6]) (-1))
             2%nat 3);
      [split; [reflexivity | evaluate] | split; evaluate | reflexivity
      | evaluate | reflexivity | simpl; lia | lia | reflexivity].
  - apply (proj2 (proj2 (proj2 (proj2 (intermediate_reader_rejects _ 4096 0))))
             [x01; x02; x03; x04] []
             (MTProtoFrameStreamWriter.mk (mkStreamWriter []) (-2))
             (MTProtoFrameStreamWriter.mk
                (mkStreamWriter [x10; x00; x00; x00; xfe; xff; xff; xff;
                                 x01; x02; x03; x04; x4a; x2f; xc2; xb6]) (-1)));
      [split; [reflexivity | evaluate] | split; evaluate | reflexivity
      | evaluate | evaluate | reflexivity].
Defined.

(** ** Digest sizes *)

Lemma big_digits_length (k : nat) (n : Z) : length (Words.big_digits k n) = k.
Proof. unfold Words.big_digits. now rewrite length_rev, little_digits_length. Qed.

Lemma sha256_digest_length (msg : bytes) : length (SHA256.digest msg) = 32%nat.
Proof.
  unfold SHA256.digest.
  destruct (fold_left SHA256.compress _ SHA256.init) as [[[[[[[a b] c] d] e] f] g] h].
  rewrite !length_app, !big_digits_length. reflexivity.
Qed.

Lemma md5_digest_length (msg : bytes) : length (MD5.digest msg) = 16%nat.
Proof.
  unfold MD5.digest.
  destruct (fold_left MD5.compress _ MD5.init) as [[[a b] c] d].
  rewrite !length_app, !little_digits_length. reflexivity.
Qed.

Lemma sha1_digest_length (msg : bytes) : length (SHA1.digest msg) = 20%nat.
Proof.
  unfold SHA1.digest.
  destruct (fold_left SHA1.compress _ SHA1.init) as [[[[a b] c] d] e].
  rewrite !length_app, !big_digits_length. reflexivity.
Qed.

(** The digests agree with the published test vectors. *)
Example sha256_abc :
  SHA256.digest (list_byte_of_string "abc")
  = [xba; x78; x16; xbf; x8f; x01; xcf; xea; x41; x41; x40; xde; x5d; xae; x22; x23;
     xb0; x03; x61; xa3; x96; x17; x7a; x9c; xb4; x10; xff; x61; xf2; x00; x15; xad].
Proof. vm_compute. reflexivity. Qed.

Example md5_abc :
  MD5.digest (list_byte_of_string "abc")
  = [x90; x01; x50; x98; x3c; xd2; x4f; xb0; xd6; x96; x3f; x7d; x28; xe1; x7f; x72].
Proof. vm_compute. reflexivity. Qed.

Example sha1_abc :
  SHA1.digest (list_byte_of_string "abc")
  = [xa9; x99; x3e; x36; x47; x06; x81; x6a; xba; x3e;
     x25; x71; x78; x50; xc2; x6c; x9c; xd0; xd8; x9d].
Proof. vm_compute. reflexivity. Qed.

(** FIPS 197, appendix C.3: AES-256 on the key [00 01 .. 1f]. *)
Example aes256_fips197 :
  AES.encrypt_block
    (map (fun i => Py.int_to_byte (Z.of_nat i)) (seq 0 32))
    (map (fun i => Py.int_to_byte (17 * Z.of_nat i)) (seq 0 16))
  = [x8e; xa2; xb7; xca; x51; x67; x45; xbf; xea; xfc; x49; x90; x4b; x49; x60; x89].
Proof. vm_compute. reflexivity. Qed.

(** ** Middle-proxy key derivation *)

(** C3.  The key and the initial vector of a middle-proxy session: with
    [s] the concatenation of the two nonces, the timestamp, server address,
    client port, purpose, client address, server port, proxy secret, server
    nonce, the two IPv6 addresses when both are given (and not empty), and the
    client nonce, the key is the first twelve bytes of [MD5(s[1:])] followed by
    [SHA1(s)], thirty-two bytes in all, and the initial vector is
    [MD5(s[2:])], sixteen bytes; for every purpose, so for [CLIENT] and for
    [SERVER]. *)
Theorem middleproxy_key_and_iv
  (nonce_srv nonce_clt crypto_ts srv_ip clt_port purpose clt_ip srv_port
     PROXY_SECRET : bytes)
  (clt_ipv6 srv_ipv6 : option bytes) :
  let ipv6 :=
    match clt_ipv6, srv_ipv6 with
    | Some (a0 :: a), Some (b0 :: b) => (a0 :: a) ++ (b0 :: b)
    | _, _ => []
    end in
  let s := nonce_srv ++ nonce_clt ++ crypto_ts ++ srv_ip ++ clt_port ++ purpose
           ++ clt_ip ++ srv_port ++ PROXY_SECRET ++ nonce_srv ++ ipv6 ++ nonce_clt in
  let key := firstn 12 (MD5.digest (skipn 1 s)) ++ SHA1.digest s in
  let iv := MD5.digest (skipn 2 s) in
  get_middleproxy_aes_key_and_iv nonce_srv nonce_clt crypto_ts srv_ip clt_port
    purpose clt_ip srv_port PROXY_SECRET clt_ipv6 srv_ipv6 = (key, iv)
  /\ length key = 32%nat
  /\ length iv = 16%nat.
Proof.
  cbv zeta. split; [|split].
  - unfold get_middleproxy_aes_key_and_iv.
    destruct clt_ipv6 as [[|a0 a]|], srv_ipv6 as [[|b0 b]|];
      cbn [truthy andb]; rewrite <- ?app_assoc; cbn [app]; reflexivity.
  - rewrite length_app, length_firstn, md5_digest_length, sha1_digest_length.
    reflexivity.
  - apply md5_digest_length.
Qed.

(** ** The crypto wrappers *)

Module CryptoReaderFacts.
Import CryptoWrappedStreamReader.

(** An underlying read that ends inside a block. *)
Lemma read_unaligned (n : nat) (r : t) (readed : bytes) (s' : StreamReader) :
  buf r = [] ->
  StreamReader_read n (stream r) = Ok (readed, s') ->
  0 < (- Z.of_nat (length readed)) mod block_size r ->
  read n r = Raise TypeError.
Proof.
  intros Hb Hr Hneed. unfold read.
  unfold bind at 1, get_buf. rewrite Hb. cbn [is_empty negb].
  unfold bind at 1, on_stream. rewrite Hr.
  unfold bind at 1, get_block_size. cbn [block_size].
  destruct (Z.ltb_spec 0 ((- Z.of_nat (length readed)) mod block_size r)); [|lia].
  reflexivity.
Qed.

(** An underlying read that ends on a block boundary. *)
Lemma read_aligned (n : nat) (r : t) (readed : bytes) (s' : StreamReader) :
  buf r = [] ->
  StreamReader_read n (stream r) = Ok (readed, s') ->
  (- Z.of_nat (length readed)) mod block_size r = 0 ->
  read n r = on_decryptor (decrypt readed) (mk s' (decryptor r) (block_size r) []).
Proof.
  intros Hb Hr Hneed. unfold read.
  unfold bind at 1, get_buf. rewrite Hb. cbn [is_empty negb].
  unfold bind at 1, on_stream. rewrite Hr, Hb.
  unfold bind at 1, get_block_size. cbn [block_size].
  rewrite Hneed. reflexivity.
Qed.

End CryptoReaderFacts.

(** C8 (the code departs from it).  Nothing buffered, and the underlying
    read returns a number of bytes that is not a multiple of the block size:
    the read does not fetch the missing bytes and decrypt the block, it
    raises [TypeError]. *)
Theorem crypto_read_partial_block_raises
  (n : nat) (r : CryptoWrappedStreamReader.t) (readed : bytes) (s' : StreamReader) :
  CryptoWrappedStreamReader.buf r = [] ->
  0 < CryptoWrappedStreamReader.block_size r ->
  StreamReader_read n (CryptoWrappedStreamReader.stream r) = Ok (readed, s') ->
  Z.of_nat (length readed) mod CryptoWrappedStreamReader.block_size r <> 0 ->
  CryptoWrappedStreamReader.read n r = Raise TypeError.
Proof.
  intros Hb HB Hr Hmod.
  apply (CryptoReaderFacts.read_unaligned n r readed s' Hb Hr).
  rewrite Z.mod_opp_l_nz by (try exact Hmod; lia).
  pose proof (Z.mod_pos_bound (Z.of_nat (length readed))
                (CryptoWrappedStreamReader.block_size r) HB).
  lia.
Qed.

(** Block size 16; five bytes arrive, eleven more are ready behind them. *)
Lemma crypto_read_partial_block_raises_witness :
  CryptoWrappedStreamReader.read 4096
    (CryptoWrappedStreamReader.mk
       (mkStreamReader [[x01; x02; x03; x04; x05];
                        [x06; x07; x08; x09; x0a; x0b; x0c; x0d; x0e; x0f; x10]] false)
       FakeCipher 16 [])
  = Raise TypeError.
Proof.
  apply (crypto_read_partial_block_raises 4096
           (CryptoWrappedStreamReader.mk
              (mkStreamReader [[x01; x02; x03; x04; x05];
                               [x06; x07; x08; x09; x0a; x0b; x0c; x0d; x0e; x0f; x10]] false)
              FakeCipher 16 [])
           [x01; x02; x03; x04; x05]
           (mkStreamReader [[x06; x07; x08; x09; x0a; x0b; x0c; x0d; x0e; x0f; x10]] false));
    [reflexivity | reflexivity | reflexivity | discriminate].
Defined.

(** ** The client handshake *)

Module HandshakeFacts.

Lemma bytes_eqb_eq (a b : bytes) : bytes_eqb a b = true <-> a = b.
Proof.
  unfold bytes_eqb. destruct (list_eq_dec Byte.byte_eq_dec a b); split;
    congruence.
Qed.

Lemma prekey_slice (H : bytes) :
  firstn PREKEY_LEN (Py.slice SKIP_LEN (SKIP_LEN + PREKEY_LEN + IV_LEN) H)
  = Py.slice 8 40 H.
Proof.
  unfold Py.slice, PREKEY_LEN, SKIP_LEN, IV_LEN. cbn [Nat.add Nat.sub].
  rewrite firstn_firstn. reflexivity.
Qed.

Lemma iv_slice (H : bytes) :
  skipn PREKEY_LEN (Py.slice SKIP_LEN (SKIP_LEN + PREKEY_LEN + IV_LEN) H)
  = Py.slice 40 56 H.
Proof.
  unfold Py.slice, PREKEY_LEN, SKIP_LEN, IV_LEN. cbn [Nat.add Nat.sub].
  rewrite skipn_firstn_comm, skipn_skipn. reflexivity.
Qed.

Lemma key_iv_slice_length (H : bytes) :
  length H = 64%nat -> length (Py.slice 8 56 H) = 48%nat.
Proof.
  intros HL. unfold Py.slice. rewrite length_firstn, length_skipn, HL. reflexivity.
Qed.

Lemma enc_iv_slice (H : bytes) :
  length H = 64%nat ->
  skipn PREKEY_LEN (rev (Py.slice SKIP_LEN (SKIP_LEN + PREKEY_LEN + IV_LEN) H))
  = client_enc_iv H.
Proof.
  intros HL. unfold client_enc_iv, PREKEY_LEN, SKIP_LEN, IV_LEN.
  cbn [Nat.add]. unfold Py.slice at 2. cbn [Nat.sub].
  symmetry. apply firstn_all2. rewrite length_skipn, length_rev, key_iv_slice_length; auto.
Qed.

Lemma enc_key_slice (H : bytes) :
  firstn PREKEY_LEN (rev (Py.slice SKIP_LEN (SKIP_LEN + PREKEY_LEN + IV_LEN) H))
  = Py.slice 0 32 (rev (Py.slice 8 56 H)).
Proof. reflexivity. Qed.

Lemma ctr_crypt_inv (data out : bytes) (c c' : AesCtr) :
  ctr_crypt data c = Ok (out, c') ->
  counter_wraps c (length data) = false
  /\ out = xor_bytes data (keystream c (length data))
  /\ c' = mkAesCtr (ctr_library c) (ctr_key c) (ctr_iv c) (ctr_pos c + length data).
Proof.
  unfold ctr_crypt. destruct (counter_wraps c (length data)); [discriminate|].
  intros [= <- <-]. auto.
Qed.

Lemma ctr_crypt_ok (data : bytes) (c : AesCtr) :
  counter_wraps c (length data) = false ->
  ctr_crypt data c
  = Ok (xor_bytes data (keystream c (length data)),
        mkAesCtr (ctr_library c) (ctr_key c) (ctr_iv c) (ctr_pos c + length data)).
Proof. intros H. unfold ctr_crypt. now rewrite H. Qed.

(** Whether the counter wraps does not depend on the key. *)
Lemma counter_wraps_key (lib : aes_library) (k1 k2 : bytes) (iv : Z) (n : nat) :
  counter_wraps (create_aes_ctr lib k1 iv) n = counter_wraps (create_aes_ctr lib k2 iv) n.
Proof. reflexivity. Qed.

(** One turn of the loop over the users. *)
Lemma users_turn (lib : aes_library) (user : string) (secret : bytes)
    (rest : users) (H : bytes) (reader : StreamReader) (writer : StreamWriter) :
  length H = 64%nat ->
  handshake_users lib ((user, secret) :: rest) H reader writer =
  match ctr_crypt H (client_decryptor lib H secret) with
  | Raise e => Raise e
  | Ok (decrypted, decryptor) =>
      if negb (bytes_eqb (Py.slice 56 60 decrypted) MAGIC_VAL_TO_CHECK) then
        handshake_users lib rest H reader writer
      else if dc_index_of decrypted =? 0 then
        handshake_users lib rest H reader writer
      else
        Ok (Some (CryptoWrappedStreamReader.mk reader (AesCtrCipher decryptor) 1 [],
                  CryptoWrappedStreamWriter.mk writer
                    (AesCtrCipher (create_aes_ctr lib (client_enc_key H secret)
                                     (Py.from_bytes_big (client_enc_iv H)))) 1,
                  user, dc_index_of decrypted,
                  client_enc_key H secret ++ client_enc_iv H))
  end.
Proof.
  intros HL. cbn [handshake_users].
  rewrite prekey_slice, iv_slice, enc_key_slice, (enc_iv_slice H HL).
  reflexivity.
Qed.

Lemma users_hit (lib : aes_library) (user : string) (secret : bytes)
    (rest : users) (H decrypted : bytes) (dec' : AesCtr)
    (reader : StreamReader) (writer : StreamWriter) :
  length H = 64%nat ->
  ctr_crypt H (client_decryptor lib H secret) = Ok (decrypted, dec') ->
  Py.slice 56 60 decrypted = MAGIC_VAL_TO_CHECK ->
  dc_index_of decrypted <> 0 ->
  handshake_users lib ((user, secret) :: rest) H reader writer =
  Ok (Some (CryptoWrappedStreamReader.mk reader (AesCtrCipher dec') 1 [],
            CryptoWrappedStreamWriter.mk writer
              (AesCtrCipher (create_aes_ctr lib (client_enc_key H secret)
                               (Py.from_bytes_big (client_enc_iv H)))) 1,
            user, dc_index_of decrypted,
            client_enc_key H secret ++ client_enc_iv H)).
Proof.
  intros HL Hd Hm Hne. rewrite (users_turn lib user secret rest H reader writer HL), Hd.
  rewrite (proj2 (bytes_eqb_eq _ _) Hm). cbn [negb].
  destruct (Z.eqb_spec (dc_index_of decrypted) 0); [contradiction|reflexivity].
Qed.

Lemma users_skip (lib : aes_library) (user : string) (secret : bytes)
    (rest : users) (H : bytes) (reader : StreamReader) (writer : StreamWriter) :
  length H = 64%nat ->
  counter_wraps (client_decryptor lib H secret) (length H) = false ->
  ~ passes lib H secret ->
  handshake_users lib ((user, secret) :: rest) H reader writer
  = handshake_users lib rest H reader writer.
Proof.
  intros HL Hw Hnp. rewrite (users_turn lib user secret rest H reader writer HL).
  rewrite (ctr_crypt_ok H _ Hw).
  destruct (bytes_eqb _ MAGIC_VAL_TO_CHECK) eqn:Em; cbn [negb]; [|reflexivity].
  destruct (Z.eqb_spec (dc_index_of (xor_bytes H (keystream (client_decryptor lib H secret) (length H)))) 0)
    as [|Hne]; [reflexivity|].
  exfalso. apply Hnp. eexists _, _. split; [apply ctr_crypt_ok, Hw|].
  split; [apply bytes_eqb_eq, Em|exact Hne].
Qed.

(** Whoever comes first: as soon as one user of the list passes, the
    handshake is accepted. *)
Lemma users_accept (lib : aes_library) (pre post : users) (user : string)
    (secret H : bytes) (reader : StreamReader) (writer : StreamWriter) :
  length H = 64%nat ->
  passes lib H secret ->
  exists cd,
    handshake_users lib (pre ++ (user, secret) :: post) H reader writer = Ok (Some cd).
Proof.
  intros HL (decrypted & dec' & Hd & Hm & Hne).
  induction pre as [|[u' s'] pre IH].
  - eexists. apply (users_hit lib user secret post H decrypted dec'); assumption.
  - cbn [app]. rewrite (users_turn lib u' s' _ H reader writer HL).
    destruct (ctr_crypt_inv _ _ _ _ Hd) as (Hw & _ & _).
    rewrite (ctr_crypt_ok H (client_decryptor lib H s')) by exact Hw.
    destruct (negb _); [exact IH|].
    destruct (_ =? 0); [exact IH|]. eexists. reflexivity.
Qed.

Lemma users_first (lib : aes_library) (pre post : users) (user : string)
    (secret H decrypted : bytes) (dec' : AesCtr)
    (reader : StreamReader) (writer : StreamWriter) :
  length H = 64%nat ->
  ctr_crypt H (client_decryptor lib H secret) = Ok (decrypted, dec') ->
  Py.slice 56 60 decrypted = MAGIC_VAL_TO_CHECK ->
  dc_index_of decrypted <> 0 ->
  Forall (fun e => ~ passes lib H (snd e)) pre ->
  handshake_users lib (pre ++ (user, secret) :: post) H reader writer =
  Ok (Some (CryptoWrappedStreamReader.mk reader (AesCtrCipher dec') 1 [],
            CryptoWrappedStreamWriter.mk writer
              (AesCtrCipher (create_aes_ctr lib (client_enc_key H secret)
                               (Py.from_bytes_big (client_enc_iv H)))) 1,
            user, dc_index_of decrypted,
            client_enc_key H secret ++ client_enc_iv H)).
Proof.
  intros HL Hd Hm Hne Hpre.
  induction Hpre as [|[u' s'] pre Hnp _ IH].
  - apply users_hit; assumption.
  - cbn [app]. rewrite users_skip; [exact IH|exact HL| |exact Hnp].
    destruct (ctr_crypt_inv _ _ _ _ Hd) as (Hw & _ & _). exact Hw.
Qed.

Lemma read_handshake (H rest : bytes) (reader : StreamReader) :
  length H = 64%nat ->
  pending reader = H ++ rest ->
  exists reader',
    StreamReader_readexactly HANDSHAKE_LEN reader = Ok (H, reader')
    /\ pending reader' = rest
    /\ eof_fed reader' = eof_fed reader.
Proof.
  intros HL Hp. destruct (readexactly_prefix H rest reader Hp) as (r' & Hr & Hp' & He).
  rewrite HL in Hr. exists r'. auto.
Qed.

End HandshakeFacts.

(** C1.  Let [u] be a configured user with secret [s], and [H] a 64-byte
    handshake that, decrypted with AES-CTR under the key
    [SHA-256(H[8:40] ++ s)] from the big-endian counter [H[40:56]], shows
    [EF EF EF EF] at offset 56 and a datacenter index
    [d = |signed_i16_le(decrypted[60:62])| - 1] between 1 and [N - 1].  Then
    [handle_handshake] accepts [H]; users are tried in the order of the
    configuration and the first who passes wins, so when no user listed
    before [u] passes, the result is [u], [d] and [enc_key ++ enc_iv] with
    [enc_key = SHA-256(reverse(H[8:56])[0:32] ++ s)] and
    [enc_iv = reverse(H[8:56])[32:48]] (and the two cipher objects of [u]
    wrap the client's streams). *)
Theorem handle_handshake_accepts
  (lib : aes_library) (pre post : users) (u : string)
  (s H rest decrypted : bytes) (dec' : AesCtr)
  (reader : StreamReader) (writer : StreamWriter) (d : Z) :
  length H = 64%nat ->
  pending reader = H ++ rest ->
  ctr_crypt H (create_aes_ctr lib (SHA256.digest (Py.slice 8 40 H ++ s))
                 (Py.from_bytes_big (Py.slice 40 56 H)))
    = Ok (decrypted, dec') ->
  Py.slice 56 60 decrypted = [xef; xef; xef; xef] ->
  d = Z.abs (Py.from_bytes_little_signed (Py.slice 60 62 decrypted)) - 1 ->
  1 <= d <= Z.of_nat (length TG_DATACENTERS_V4) - 1 ->
  let USERS := pre ++ (u, s) :: post in
  let enc_key := SHA256.digest (Py.slice 0 32 (rev (Py.slice 8 56 H)) ++ s) in
  let enc_iv := Py.slice 32 48 (rev (Py.slice 8 56 H)) in
  (exists cd, handle_handshake lib USERS reader writer = Ok (Some cd))
  /\ (Forall (fun e => ~ passes lib H (snd e)) pre ->
      exists reader',
        handle_handshake lib USERS reader writer
        = Ok (Some (CryptoWrappedStreamReader.mk reader' (AesCtrCipher dec') 1 [],
                    CryptoWrappedStreamWriter.mk writer
                      (AesCtrCipher (create_aes_ctr lib enc_key (Py.from_bytes_big enc_iv))) 1,
                    u, d, enc_key ++ enc_iv))
        /\ pending reader' = rest).
Proof.
  intros HL Hp Hd Hm Hdc Hrange USERS enc_key enc_iv. subst USERS enc_key enc_iv.
  destruct (HandshakeFacts.read_handshake H rest reader HL Hp) as (reader' & Hr & Hp' & _).
  assert (Hne : dc_index_of decrypted <> 0) by (unfold dc_index_of; lia).
  unfold handle_handshake. rewrite Hr. split.
  - apply HandshakeFacts.users_accept; [exact HL|].
    exists decrypted, dec'. auto.
  - intros Hpre. exists reader'. split; [|exact Hp'].
    rewrite (HandshakeFacts.users_first lib pre post u s H decrypted dec' reader' writer
               HL Hd Hm Hne Hpre).
    unfold dc_index_of. rewrite <- Hdc. reflexivity.
Qed.

Lemma handle_handshake_accepts_witness :
  let H := handshake_head ++ [x05; x87; x95; x4f; x4c; xe6; xb4; xf7] in
  exists reader',
    handle_handshake PyCrypto alice (mkStreamReader [H] false) (mkStreamWriter [])
    = Ok (Some (CryptoWrappedStreamReader.mk reader'
                  (AesCtrCipher (mkAesCtr PyCrypto (client_dec_key H (repeat x00 16))
                                   (client_dec_iv H) 64)) 1 [],
                CryptoWrappedStreamWriter.mk (mkStreamWriter [])
                  (AesCtrCipher
                     (create_aes_ctr PyCrypto
                        [x6e; x1d; x1a; xda; xe5; xe0; xba; x34; x6d; x72; x87; x4f;
                         xa5; xdd; x8e; xf6; x61; x65; xe7; x53; xe6; x8a; x34; x1c;
                         xd9; xe1; xfb; x63; x9c; xaa; xc4; x63]
                        0x17161514131211100f0e0d0c0b0a0908)) 1,
                "alice"%string, 1,
                [x6e; x1d; x1a; xda; xe5; xe0; xba; x34; x6d; x72; x87; x4f;
                 xa5; xdd; x8e; xf6; x61; x65; xe7; x53; xe6; x8a; x34; x1c;
                 xd9; xe1; xfb; x63; x9c; xaa; xc4; x63;
                 x17; x16; x15; x14; x13; x12; x11; x10;
                 x0f; x0e; x0d; x0c; x0b; x0a; x09; x08]))
    /\ pending reader' = [].
Proof.
  intros H.
  destruct (proj2 (handle_handshake_accepts PyCrypto [] [] "alice"%string
                     (repeat x00 16) H []
                     (handshake_head_plain ++ [xef; xef; xef; xef; x02; x00; x00; x00])
                     (mkAesCtr PyCrypto (client_dec_key H (repeat x00 16))
                        (client_dec_iv H) 64)
                     (mkStreamReader [H] false) (mkStreamWriter []) 1
                     ltac:(reflexivity) ltac:(reflexivity) ltac:(evaluate)
                     ltac:(reflexivity) ltac:(reflexivity) ltac:(split; evaluate))
                  (Forall_nil _))
    as (reader' & Heq & Hp).
  exists reader'. split; [|exact Hp].
  etransitivity; [exact Heq|]. vm_compute. reflexivity.
Defined.

(** ** The datacenter index *)

Module IndexFacts.

Lemma xor_bytes_length (a b : bytes) :
  length (xor_bytes a b) = Nat.min (length a) (length b).
Proof. unfold xor_bytes. now rewrite length_map, length_combine. Qed.

Lemma keystream_length (c : AesCtr) (n : nat) : length (keystream c n) = n.
Proof. unfold keystream. now rewrite length_map, length_seq. Qed.

Lemma crypt_length (data out : bytes) (c c' : AesCtr) :
  ctr_crypt data c = Ok (out, c') -> length out = length data.
Proof.
  intros H. destruct (HandshakeFacts.ctr_crypt_inv _ _ _ _ H) as (_ & -> & _).
  rewrite xor_bytes_length, keystream_length. apply Nat.min_id.
Qed.

Lemma signed16_range (bs : bytes) :
  length bs = 2%nat -> - 32768 <= Py.from_bytes_little_signed bs <= 32767.
Proof.
  intros HL. unfold Py.from_bytes_little_signed.
  pose proof (from_bytes_little_range bs) as Hr. rewrite HL in *.
  change (256 ^ Z.of_nat 2) with 65536 in Hr.
  change (8 * Z.of_nat 2) with 16. cbn [Z.ltb Z.compare andb].
  change (2 ^ (16 - 1)) with 32768. change (2 ^ 16) with 65536.
  destruct (Z.leb_spec 32768 (Py.from_bytes_little bs)); lia.
Qed.

Lemma dc_index_range (decrypted : bytes) :
  length decrypted = 64%nat -> -1 <= dc_index_of decrypted <= 32767.
Proof.
  intros HL. unfold dc_index_of.
  pose proof (signed16_range (Py.slice 60 62 decrypted)) as Hr.
  assert (Hs : length (Py.slice 60 62 decrypted) = 2%nat).
  { unfold Py.slice. rewrite length_firstn, length_skipn, HL. reflexivity. }
  specialize (Hr Hs). lia.
Qed.

(** What an accepted handshake was accepted for. *)
Lemma users_result (lib : aes_library) (USERS : users) (H : bytes)
    (reader : StreamReader) (writer : StreamWriter)
    (rd : CryptoWrappedStreamReader.t) (wr : CryptoWrappedStreamWriter.t)
    (u : string) (d : Z) (k : bytes) :
  length H = 64%nat ->
  handshake_users lib USERS H reader writer = Ok (Some (rd, wr, u, d, k)) ->
  exists s decrypted dec',
    In (u, s) USERS
    /\ ctr_crypt H (client_decryptor lib H s) = Ok (decrypted, dec')
    /\ Py.slice 56 60 decrypted = MAGIC_VAL_TO_CHECK
    /\ d = dc_index_of decrypted
    /\ d <> 0
    /\ k = client_enc_key H s ++ client_enc_iv H
    /\ rd = CryptoWrappedStreamReader.mk reader (AesCtrCipher dec') 1 []
    /\ wr = CryptoWrappedStreamWriter.mk writer
              (AesCtrCipher (create_aes_ctr lib (client_enc_key H s)
                               (Py.from_bytes_big (client_enc_iv H)))) 1.
Proof.
  intros HL. induction USERS as [|[u' s'] rest IH]; [discriminate|].
  rewrite (HandshakeFacts.users_turn lib u' s' rest H reader writer HL).
  destruct (ctr_crypt H (client_decryptor lib H s')) as [[decrypted dec']|e] eqn:Ed;
    [|discriminate].
  destruct (bytes_eqb (Py.slice 56 60 decrypted) MAGIC_VAL_TO_CHECK) eqn:Em; cbn [negb].
  - destruct (Z.eqb_spec (dc_index_of decrypted) 0) as [E0|Hne].
    + intros Hres. destruct (IH Hres) as (s & dd & dc & Hin & Hrest).
      exists s, dd, dc. split; [right; exact Hin|exact Hrest].
    + clear IH. intros [= <- <- <- <- <-]. exists s', decrypted, dec'.
      split; [left; reflexivity|]. split; [exact Ed|].
      split; [apply HandshakeFacts.bytes_eqb_eq, Em|]. auto.
  - intros Hres. destruct (IH Hres) as (s & dd & dc & Hin & Hrest).
    exists s, dd, dc. split; [right; exact Hin|exact Hrest].
Qed.

Lemma handshake_read (reader reader' : StreamReader) (H : bytes) :
  StreamReader_readexactly HANDSHAKE_LEN reader = Ok (H, reader') ->
  length H = 64%nat.
Proof.
  unfold StreamReader_readexactly.
  destruct (Nat.leb_spec HANDSHAKE_LEN (length (pending reader))) as [Hle|]; [|discriminate].
  intros Heq.
  assert (E : H = firstn HANDSHAKE_LEN (pending reader)) by congruence.
  rewrite E, length_firstn. unfold HANDSHAKE_LEN in *. lia.
Qed.

Lemma direct_index_checked (lib : aes_library) (PREFER_IPV6 : bool)
    (open_connection : connector) (draws : list bytes) (d : Z)
    (key : option bytes) res :
  do_direct_handshake lib PREFER_IPV6 open_connection draws d key = Ok (Some res) ->
  0 <= d < 5.
Proof.
  unfold do_direct_handshake.
  assert (Hlen : Z.of_nat (length (if PREFER_IPV6 then TG_DATACENTERS_V6
                                   else TG_DATACENTERS_V4)) = 5)
    by (destruct PREFER_IPV6; reflexivity).
  rewrite Hlen.
  destruct (Z.leb_spec 0 d); destruct (Z.ltb_spec d 5); cbn [andb negb];
    try discriminate. lia.
Qed.

End IndexFacts.

(** C4 as the code has it.  The index an accepted handshake comes with is
    never 0, and lies between -1 and 32767.  The bounds of the datacenter
    table are checked by [do_direct_handshake], which gives up on an index
    outside them: when it goes on to set up the upstream connection, the
    index is between 1 and [len(DC_LIST) - 1]. *)
Theorem handle_handshake_dc_index
  (lib : aes_library) (USERS : users) (reader : StreamReader) (writer : StreamWriter)
  (rd : CryptoWrappedStreamReader.t) (wr : CryptoWrappedStreamWriter.t)
  (u : string) (d : Z) (k : bytes) :
  handle_handshake lib USERS reader writer = Ok (Some (rd, wr, u, d, k)) ->
  d <> 0
  /\ -1 <= d <= 32767
  /\ forall (lib' : aes_library) (PREFER_IPV6 : bool) (open_connection : connector)
            (draws : list bytes) (key : option bytes) res,
       do_direct_handshake lib' PREFER_IPV6 open_connection draws d key = Ok (Some res) ->
       1 <= d <= Z.of_nat (length TG_DATACENTERS_V4) - 1
       /\ 1 <= d <= Z.of_nat (length TG_DATACENTERS_V6) - 1.
Proof.
  unfold handle_handshake.
  destruct (StreamReader_readexactly HANDSHAKE_LEN reader) as [[H reader']|e] eqn:Er;
    [|discriminate].
  intros Hres. pose proof (IndexFacts.handshake_read _ _ _ Er) as HL.
  destruct (IndexFacts.users_result lib USERS H reader' writer rd wr u d k HL Hres)
    as (s & decrypted & dec' & _ & Hd & _ & Hidx & Hne & _).
  split; [exact Hne|]. split.
  - rewrite Hidx. apply IndexFacts.dc_index_range.
    rewrite (IndexFacts.crypt_length _ _ _ _ Hd). exact HL.
  - intros lib' v6 conn draws key res Hdirect.
    pose proof (IndexFacts.direct_index_checked _ _ _ _ _ _ _ Hdirect) as Hr.
    change (Z.of_nat (length TG_DATACENTERS_V4)) with 5.
    change (Z.of_nat (length TG_DATACENTERS_V6)) with 5. lia.
Qed.

Lemma handle_handshake_dc_index_witness :
  1 <> 0
  /\ -1 <= 1 <= 32767
  /\ forall (lib' : aes_library) (PREFER_IPV6 : bool) (open_connection : connector)
            (draws : list bytes) (key : option bytes) res,
       do_direct_handshake lib' PREFER_IPV6 open_connection draws 1 key = Ok (Some res) ->
       1 <= 1 <= Z.of_nat (length TG_DATACENTERS_V4) - 1
       /\ 1 <= 1 <= Z.of_nat (length TG_DATACENTERS_V6) - 1.
Proof.
  eapply (handle_handshake_dc_index PyCrypto alice
            (mkStreamReader [handshake_head ++ [x05; x87; x95; x4f; x4c; xe6; xb4; xf7]] false)
            (mkStreamWriter []) _ _ "alice"%string 1 _).
  vm_compute. reflexivity.
Defined.

(** Against C4 as the specification words it: these two handshakes are
    accepted for [alice], the first with the index -1 (its index bytes decrypt to
    [00 00]), the second with the index 5 (they decrypt to [06 00]). *)
Lemma handle_handshake_index_out_of_range :
  (exists rd wr k,
     handle_handshake PyCrypto alice
       (mkStreamReader [handshake_head ++ [x05; x87; x95; x4f; x4e; xe6; xb4; xf7]] false)
       (mkStreamWriter [])
     = Ok (Some (rd, wr, "alice"%string, -1, k)))
  /\ (exists rd wr k,
     handle_handshake PyCrypto alice
       (mkStreamReader [handshake_head ++ [x05; x87; x95; x4f; x48; xe6; xb4; xf7]] false)
       (mkStreamWriter [])
     = Ok (Some (rd, wr, "alice"%string, 5, k)))
  /\ ~ (1 <= -1 <= Z.of_nat (length TG_DATACENTERS_V4) - 1)
  /\ ~ (1 <= 5 <= Z.of_nat (length TG_DATACENTERS_V4) - 1).
Proof.
  split; [|split; [|split]].
  - eexists _, _, _. vm_compute. reflexivity.
  - eexists _, _, _. vm_compute. reflexivity.
  - vm_compute. intros [H _]. apply H. reflexivity.
  - vm_compute. intros [_ H]. apply H. reflexivity.
Qed.

(** ** Fast mode *)

Module FastModeFacts.

Lemma byte_xor_involutive (a k : byte) : Py.byte_xor (Py.byte_xor a k) k = a.
Proof.
  unfold Py.byte_xor. rewrite byte_to_int_to_byte.
  pose proof (byte_to_int_range a). pose proof (byte_to_int_range k).
  rewrite Z.mod_small
    by (apply (CRC32Facts.lxor_below 8); change (2 ^ 8) with 256; lia).
  rewrite Z.lxor_assoc, Z.lxor_nilpotent, Z.lxor_0_r.
  apply int_to_byte_to_int.
Qed.

Lemma xor_bytes_involutive (data ks : bytes) :
  (length data <= length ks)%nat -> xor_bytes (xor_bytes data ks) ks = data.
Proof.
  revert ks. induction data as [|a data IH]; intros ks Hl; [reflexivity|].
  destruct ks as [|k ks]; [simpl in Hl; lia|].
  unfold xor_bytes in *. cbn [combine map fst snd].
  rewrite byte_xor_involutive. f_equal. apply IH. simpl in Hl. lia.
Qed.

Lemma is_empty_length {A : Type} (a b : list A) :
  length a = length b -> is_empty a = is_empty b.
Proof. destruct a, b; simpl; intros; congruence || reflexivity. Qed.

(** Decrypting and encrypting again from the same cipher state. *)
Lemma crypt_twice (data out : bytes) (c c' : AesCtr) :
  ctr_crypt data c = Ok (out, c') ->
  ctr_crypt out c = Ok (data, c').
Proof.
  intros H. pose proof (IndexFacts.crypt_length _ _ _ _ H) as HL.
  destruct (HandshakeFacts.ctr_crypt_inv _ _ _ _ H) as (Hw & Ho & Hc).
  rewrite HandshakeFacts.ctr_crypt_ok by (rewrite HL; exact Hw).
  rewrite HL, Ho, Hc.
  rewrite xor_bytes_involutive by (rewrite IndexFacts.keystream_length; lia).
  reflexivity.
Qed.

Lemma stream_read_total (n : nat) (s : StreamReader) :
  exists readed s', StreamReader_read n s = Ok (readed, s').
Proof.
  unfold StreamReader_read. destruct (segments s) as [|c rest]; [eauto|].
  destruct (length c <=? n)%nat; eauto.
Qed.

(** One read of a crypto reader with block size 1 and nothing buffered. *)
Lemma read_block1 (n : nat) (s s' : StreamReader) (ci : cipher) (readed : bytes) :
  StreamReader_read n s = Ok (readed, s') ->
  CryptoWrappedStreamReader.read n (CryptoWrappedStreamReader.mk s ci 1 [])
  = match decrypt readed ci with
    | Ok (plain, ci') => Ok (plain, CryptoWrappedStreamReader.mk s' ci' 1 [])
    | Raise e => Raise e
    end.
Proof.
  intros Hr.
  rewrite (CryptoReaderFacts.read_aligned n
             (CryptoWrappedStreamReader.mk s ci 1 []) readed s' eq_refl Hr)
    by (cbn [CryptoWrappedStreamReader.block_size]; apply Z.mod_1_r).
  unfold CryptoWrappedStreamReader.on_decryptor.
  cbn [CryptoWrappedStreamReader.decryptor CryptoWrappedStreamReader.stream
       CryptoWrappedStreamReader.block_size CryptoWrappedStreamReader.buf].
  destruct (decrypt readed ci) as [[plain ci']|e]; reflexivity.
Qed.

(** One write of a crypto writer with block size 1. *)
Lemma write_block1 (w : StreamWriter) (ci : cipher) (data : bytes) :
  CryptoWrappedStreamWriter.write data (CryptoWrappedStreamWriter.mk w ci 1)
  = match encrypt data ci with
    | Ok (q, ci') =>
        Ok (PyNone, CryptoWrappedStreamWriter.mk (mkStreamWriter (sent w ++ q)) ci' 1)
    | Raise e => Raise e
    end.
Proof.
  unfold CryptoWrappedStreamWriter.write.
  unfold bind at 1, CryptoWrappedStreamWriter.get_block_size.
  cbn [CryptoWrappedStreamWriter.block_size]. rewrite Z.mod_1_r. cbn [Z.eqb negb].
  unfold bind, CryptoWrappedStreamWriter.on_encryptor.
  cbn [CryptoWrappedStreamWriter.encryptor].
  destruct (encrypt data ci) as [[q ci']|e]; reflexivity.
Qed.

(** The loop with the real ciphers in one common state against the loop with
    the fake ones: when the first ends, the second ends in the same way. *)
Lemma forward_same (fuel n : nat) :
  forall (s : StreamReader) (c : AesCtr) (w : StreamWriter) (octets : Z)
         rd' wr' octets',
    forward fuel n (CryptoWrappedStreamReader.mk s (AesCtrCipher c) 1 [])
                   (CryptoWrappedStreamWriter.mk w (AesCtrCipher c) 1) octets
      = Ok (rd', wr', octets') ->
    exists rd'' wr'',
      forward fuel n (CryptoWrappedStreamReader.mk s FakeCipher 1 [])
                     (CryptoWrappedStreamWriter.mk w FakeCipher 1) octets
        = Ok (rd'', wr'', octets')
      /\ CryptoWrappedStreamReader.stream rd'' = CryptoWrappedStreamReader.stream rd'
      /\ sent (CryptoWrappedStreamWriter.stream wr'')
         = sent (CryptoWrappedStreamWriter.stream wr').
Proof.
  induction fuel as [|fuel IH]; intros s c w octets rd' wr' octets'; [discriminate|].
  cbn [forward].
  destruct (stream_read_total n s) as (readed & s1 & Hr).
  rewrite !(read_block1 n s s1 _ readed Hr).
  unfold decrypt. cbn [cipher_apply].
  destruct (ctr_crypt readed c) as [[plain c1]|e] eqn:Ec.
  - pose proof (IndexFacts.crypt_length _ _ _ _ Ec) as HL.
    rewrite (is_empty_length plain readed HL).
    destruct (is_empty readed) eqn:Ee.
    + intros [= <- <- <-]. eexists _, _. split; [reflexivity|]. split; reflexivity.
    + rewrite !write_block1. unfold encrypt. cbn [cipher_apply].
      rewrite (crypt_twice _ _ _ _ Ec). rewrite HL.
      intros Hres. apply (IH _ _ _ _ _ _ _ Hres).
  - destruct e; cbn [caught]; try discriminate.
    unfold ctr_crypt in Ec. destruct (counter_wraps c (length readed)); discriminate.
Qed.

Lemma read_measure (n : nat) (s s' : StreamReader) (readed : bytes) :
  StreamReader_read n s = Ok (readed, s') ->
  readed <> [] ->
  (stream_measure s' < stream_measure s)%nat
  /\ pending s = readed ++ pending s'.
Proof.
  unfold StreamReader_read, stream_measure, pending.
  destruct (segments s) as [|c rest] eqn:Es; [intros [= <- <-]; congruence|].
  destruct (Nat.leb_spec (length c) n) as [Hle|Hgt].
  - intros [= <- <-] Hne. cbn [segments concat length].
    rewrite length_app. destruct c; [congruence|]. cbn [length]. split; [lia|reflexivity].
  - intros [= <- <-] Hne. cbn [segments concat length]. rewrite !length_app, length_skipn.
    rewrite app_assoc, firstn_skipn. split; [|reflexivity].
    destruct n; [simpl in Hne; congruence|]. lia.
Qed.

(** The loop with the fake ciphers ends within its bound. *)
Lemma forward_fake_total (fuel n : nat) :
  forall (s : StreamReader) (w : StreamWriter) (octets : Z),
    (stream_measure s < fuel)%nat ->
    exists rd' wr' octets',
      forward fuel n (CryptoWrappedStreamReader.mk s FakeCipher 1 [])
                     (CryptoWrappedStreamWriter.mk w FakeCipher 1) octets
        = Ok (rd', wr', octets')
      /\ exists delivered left,
           pending s = delivered ++ left
           /\ sent (CryptoWrappedStreamWriter.stream wr') = sent w ++ delivered
           /\ octets' = octets + Z.of_nat (length delivered).
Proof.
  induction fuel as [|fuel IH]; intros s w octets Hm; [lia|].
  cbn [forward].
  destruct (stream_read_total n s) as (readed & s1 & Hr).
  rewrite (read_block1 n s s1 _ readed Hr).
  unfold decrypt. cbn [cipher_apply].
  destruct readed as [|b readed].
  - cbn [is_empty]. eexists _, _, _. split; [reflexivity|].
    exists [], (pending s). cbn [CryptoWrappedStreamWriter.stream length].
    rewrite app_nil_r, Z.add_0_r. auto.
  - cbn [is_empty]. rewrite write_block1. unfold encrypt. cbn [cipher_apply].
    destruct (read_measure n s s1 _ Hr ltac:(discriminate)) as [Hlt Hp].
    destruct (IH s1 (mkStreamWriter (sent w ++ b :: readed))
                (octets + Z.of_nat (length (b :: readed))) ltac:(lia))
      as (rd' & wr' & o' & Hf & delivered & left & Hp1 & Hs & Ho).
    exists rd', wr', o'. split; [exact Hf|].
    exists ((b :: readed) ++ delivered), left.
    split; [rewrite Hp, Hp1, app_assoc; reflexivity|].
    split; [rewrite Hs; cbn [sent]; rewrite <- app_assoc; reflexivity|].
    rewrite Ho, length_app. lia.
Qed.

(** The loop with the real ciphers ends within its bound, as long as the
    counter does not wrap. *)
Lemma forward_real_total (fuel n : nat) :
  forall (s : StreamReader) (c : AesCtr) (w : StreamWriter) (octets : Z),
    (stream_measure s < fuel)%nat ->
    no_wrap c (length (pending s)) ->
    exists res,
      forward fuel n (CryptoWrappedStreamReader.mk s (AesCtrCipher c) 1 [])
                     (CryptoWrappedStreamWriter.mk w (AesCtrCipher c) 1) octets
        = Ok res.
Proof.
  induction fuel as [|fuel IH]; intros s c w octets Hm Hnw; [lia|].
  cbn [forward].
  destruct (stream_read_total n s) as (readed & s1 & Hr).
  rewrite (read_block1 n s s1 _ readed Hr).
  unfold decrypt. cbn [cipher_apply].
  destruct readed as [|b readed].
  - rewrite HandshakeFacts.ctr_crypt_ok
      by (unfold counter_wraps; destruct (ctr_library c); reflexivity).
    cbn [xor_bytes combine map is_empty]. eauto.
  - destruct (read_measure n s s1 _ Hr ltac:(discriminate)) as [Hlt Hp].
    assert (Hw : counter_wraps c (length (b :: readed)) = false).
    { unfold counter_wraps. destruct Hnw as [->|Hlt128]; [reflexivity|].
      destruct (ctr_library c); [|reflexivity].
      rewrite Hp, length_app in Hlt128.
      assert ((ctr_pos c + length (b :: readed) - 1) / 16
              <= (ctr_pos c + (length (b :: readed) + length (pending s1))) / 16)%nat
        by (apply Nat.Div0.div_le_mono; lia).
      destruct (Z.leb_spec (2 ^ 128)
                  (ctr_iv c + Z.of_nat ((ctr_pos c + length (b :: readed) - 1) / 16)));
        [lia|]. apply andb_false_r. }
    pose proof (HandshakeFacts.ctr_crypt_ok _ _ Hw) as Ec. rewrite Ec.
    rewrite (is_empty_length _ (b :: readed))
      by (rewrite IndexFacts.xor_bytes_length, IndexFacts.keystream_length; apply Nat.min_id).
    cbn [is_empty]. rewrite write_block1. unfold encrypt. cbn [cipher_apply].
    rewrite (crypt_twice _ _ _ _ Ec).
    apply IH; [lia|].
    destruct Hnw as [Hl|Hlt128]; [left; exact Hl|right].
    cbn [ctr_iv ctr_pos]. rewrite Hp, length_app in Hlt128.
    rewrite <- Nat.add_assoc. exact Hlt128.
Qed.

End FastModeFacts.

Module DirectFacts.

Lemma draw_nonce_in (draws : list bytes) (rnd : bytes) :
  draw_nonce draws = Ok rnd -> In rnd draws.
Proof.
  induction draws as [|r later IH]; [discriminate|].
  cbn [draw_nonce].
  destruct (bytes_in (firstn 1 r) RESERVED_NONCE_FIRST_CHARS); [right; auto|].
  destruct (bytes_in (firstn 4 r) RESERVED_NONCE_BEGININGS); [right; auto|].
  destruct (bytes_in (Py.slice 4 8 r) RESERVED_NONCE_CONTINUES); [right; auto|].
  intros [= <-]. left. reflexivity.
Qed.

Lemma set_slice_length {A : Type} (a b : nat) (v s : list A) :
  (a <= length s)%nat ->
  length (set_slice a b v s) = (a + length v + (length s - b))%nat.
Proof.
  intros H. unfold set_slice.
  rewrite !length_app, length_firstn, length_skipn. lia.
Qed.

Lemma slice_of_set_slice {A : Type} (v s : list A) :
  length v = 48%nat -> (8 <= length s)%nat ->
  Py.slice 8 56 (set_slice 8 56 v s) = v.
Proof.
  intros Hv Hs. unfold Py.slice, set_slice.
  change (56 - 8)%nat with 48%nat.
  rewrite skipn_app, length_firstn, Nat.min_l by exact Hs.
  rewrite skipn_all2 by (rewrite length_firstn; lia).
  rewrite Nat.sub_diag, skipn_O, app_nil_l.
  rewrite firstn_app, Hv, Nat.sub_diag, firstn_O, app_nil_r.
  apply firstn_all2. lia.
Qed.

Lemma slice_of_sent {A : Type} (rnd tail : list A) :
  length rnd = 64%nat ->
  Py.slice 8 56 (firstn 56 rnd ++ tail) = Py.slice 8 56 rnd.
Proof.
  intros HL. unfold Py.slice. change (56 - 8)%nat with 48%nat.
  assert (H56 : length (firstn 56 rnd) = 56%nat) by (rewrite length_firstn, HL; reflexivity).
  rewrite skipn_app, H56. change (8 - 56)%nat with 0%nat. rewrite skipn_O.
  assert (H48 : length (skipn 8 (firstn 56 rnd)) = 48%nat)
    by (rewrite length_skipn, H56; reflexivity).
  rewrite firstn_app, H48, Nat.sub_diag, firstn_O, app_nil_r.
  rewrite (skipn_firstn_comm 8 56 rnd). change (56 - 8)%nat with 48%nat.
  rewrite firstn_firstn. reflexivity.
Qed.

(** What a successful direct handshake in fast mode leaves behind. *)
Lemma direct_result (lib : aes_library) (PREFER_IPV6 : bool)
    (open_connection : connector) (draws : list bytes) (d : Z) (kiv : bytes)
    (rd_tg : CryptoWrappedStreamReader.t) (wr_tg : CryptoWrappedStreamWriter.t) :
  length kiv = 48%nat ->
  Forall (fun rnd => length rnd = HANDSHAKE_LEN) draws ->
  do_direct_handshake lib PREFER_IPV6 open_connection draws d (Some kiv)
    = Ok (Some (rd_tg, wr_tg)) ->
  exists (dc : string) (r0 : StreamReader) (w0 : StreamWriter)
         (nonce : bytes) (c_enc : AesCtr),
    open_connection dc TG_DATACENTER_PORT = Some (r0, w0)
    /\ rd_tg = CryptoWrappedStreamReader.mk r0
                 (AesCtrCipher (create_aes_ctr lib (firstn 32 kiv)
                                  (Py.from_bytes_big (skipn 32 kiv)))) 1 []
    /\ wr_tg = CryptoWrappedStreamWriter.mk (mkStreamWriter (sent w0 ++ nonce))
                 (AesCtrCipher c_enc) 1
    /\ length nonce = 64%nat
    /\ Py.slice 8 56 nonce = rev kiv.
Proof.
  intros Hk Hdraws. unfold do_direct_handshake.
  destruct (negb _); [discriminate|].
  set (dc := nth (Z.to_nat d) _ ""%string).
  destruct (open_connection dc TG_DATACENTER_PORT) as [[r0 w0]|] eqn:Ec; [|discriminate].
  destruct (draw_nonce draws) as [rnd0|e] eqn:Ed; [|discriminate].
  assert (H0 : length rnd0 = 64%nat).
  { apply draw_nonce_in in Ed. rewrite Forall_forall in Hdraws. exact (Hdraws _ Ed). }
  assert (Ht : truthy (Some kiv) = true) by (destruct kiv; [discriminate|reflexivity]).
  rewrite Ht.
  set (rnd1 := set_slice MAGIC_VAL_POS (MAGIC_VAL_POS + 4) MAGIC_VAL_TO_CHECK rnd0).
  assert (H1 : length rnd1 = 64%nat).
  { unfold rnd1. rewrite set_slice_length by (unfold MAGIC_VAL_POS; lia).
    rewrite H0. reflexivity. }
  change (SKIP_LEN + KEY_LEN + IV_LEN)%nat with 56%nat.
  change SKIP_LEN with 8%nat. change KEY_LEN with 32%nat.
  set (rnd := set_slice 8 56 (rev kiv) rnd1).
  assert (HL : length rnd = 64%nat).
  { unfold rnd. rewrite set_slice_length by lia. rewrite length_rev, Hk, H1. reflexivity. }
  assert (Hs : Py.slice 8 56 rnd = rev kiv).
  { unfold rnd. apply slice_of_set_slice; [rewrite length_rev; exact Hk|lia]. }
  rewrite Hs, rev_involutive.
  destruct (ctr_crypt rnd _) as [[encrypted c_enc]|e] eqn:Ee; [|discriminate].
  unfold StreamWriter_write. intros [= <- <-].
  exists dc, r0, w0, (firstn MAGIC_VAL_POS rnd ++ skipn MAGIC_VAL_POS encrypted), c_enc.
  split; [exact Ec|]. split; [reflexivity|]. split; [reflexivity|].
  pose proof (IndexFacts.crypt_length _ _ _ _ Ee) as Hel.
  split.
  - rewrite length_app, length_firstn, length_skipn, Hel, HL. reflexivity.
  - unfold MAGIC_VAL_POS. rewrite slice_of_sent by exact HL. exact Hs.
Qed.

Lemma enc_iv_length (H : bytes) : length H = 64%nat -> length (client_enc_iv H) = 16%nat.
Proof.
  intros HL. unfold client_enc_iv. unfold Py.slice at 1.
  rewrite length_firstn, length_skipn, length_rev, HandshakeFacts.key_iv_slice_length by exact HL.
  reflexivity.
Qed.

End DirectFacts.

(** C2.  Fast mode.  When the [enc_key ++ enc_iv] of an accepted client
    handshake is handed to [do_direct_handshake], bytes 8 to 56 of the nonce
    sent upstream are that string reversed, so the decryptor for the
    datacenter's traffic is made with the very key and counter of the
    encryptor for the client, both at the start of their keystream.  Hence
    the forwarding loop from the datacenter to the client with the two fake
    ciphers installed always ends, having written to the client the bytes of
    the datacenter as they came, and whenever the loop with the two real
    ciphers ends it has written to the client exactly the same bytes (and
    counted the same octets); the loop with the real ciphers does end unless
    the counter wraps under [Crypto]. *)
Theorem fast_mode_same_stream
  (lib : aes_library) (USERS : users)
  (reader_clt : StreamReader) (writer_clt : StreamWriter)
  (rd_clt : CryptoWrappedStreamReader.t) (wr_clt : CryptoWrappedStreamWriter.t)
  (user : string) (d : Z) (kiv : bytes)
  (PREFER_IPV6 : bool) (open_connection : connector) (draws : list bytes)
  (rd_tg : CryptoWrappedStreamReader.t) (wr_tg : CryptoWrappedStreamWriter.t)
  (READ_BUF_SIZE : nat) :
  handle_handshake lib USERS reader_clt writer_clt
    = Ok (Some (rd_clt, wr_clt, user, d, kiv)) ->
  Forall (fun rnd => length rnd = HANDSHAKE_LEN) draws ->
  do_direct_handshake lib PREFER_IPV6 open_connection draws d (Some kiv)
    = Ok (Some (rd_tg, wr_tg)) ->
  (exists dc r0 w0 nonce,
     open_connection dc TG_DATACENTER_PORT = Some (r0, w0)
     /\ sent (CryptoWrappedStreamWriter.stream wr_tg) = sent w0 ++ nonce
     /\ length nonce = 64%nat
     /\ Py.slice 8 56 nonce = rev kiv)
  /\ (exists c,
        CryptoWrappedStreamWriter.encryptor wr_clt = AesCtrCipher c
        /\ CryptoWrappedStreamReader.decryptor rd_tg = AesCtrCipher c
        /\ ctr_key c = firstn 32 kiv
        /\ ctr_iv c = Py.from_bytes_big (skipn 32 kiv)
        /\ ctr_pos c = 0%nat
        /\ (no_wrap c (length (pending (CryptoWrappedStreamReader.stream rd_tg))) ->
            exists res, connect_reader_to_writer READ_BUF_SIZE rd_tg wr_clt = Ok res))
  /\ (exists rd wr n delivered left,
        connect_reader_to_writer READ_BUF_SIZE
          (fst (install_fake_ciphers false true rd_tg wr_clt))
          (snd (install_fake_ciphers false true rd_tg wr_clt)) = Ok (rd, wr, n)
        /\ pending (CryptoWrappedStreamReader.stream rd_tg) = delivered ++ left
        /\ sent (CryptoWrappedStreamWriter.stream wr)
           = sent (CryptoWrappedStreamWriter.stream wr_clt) ++ delivered
        /\ n = Z.of_nat (length delivered))
  /\ (forall rd' wr' n,
        connect_reader_to_writer READ_BUF_SIZE rd_tg wr_clt = Ok (rd', wr', n) ->
        exists rd'' wr'',
          connect_reader_to_writer READ_BUF_SIZE
            (fst (install_fake_ciphers false true rd_tg wr_clt))
            (snd (install_fake_ciphers false true rd_tg wr_clt)) = Ok (rd'', wr'', n)
          /\ sent (CryptoWrappedStreamWriter.stream wr'')
             = sent (CryptoWrappedStreamWriter.stream wr')
          /\ CryptoWrappedStreamReader.stream rd''
             = CryptoWrappedStreamReader.stream rd').
Proof.
  intros Hclt Hdraws Hdirect.
  unfold handle_handshake in Hclt.
  destruct (StreamReader_readexactly HANDSHAKE_LEN reader_clt) as [[H reader']|e] eqn:Er;
    [|discriminate].
  pose proof (IndexFacts.handshake_read _ _ _ Er) as HL.
  destruct (IndexFacts.users_result lib USERS H reader' writer_clt rd_clt wr_clt user d kiv
              HL Hclt) as (s & decrypted & dec' & _ & _ & _ & _ & _ & Hkiv & _ & Hwr).
  assert (Hk32 : length (client_enc_key H s) = 32%nat) by apply sha256_digest_length.
  assert (Hk : length kiv = 48%nat).
  { rewrite Hkiv, length_app, Hk32, (DirectFacts.enc_iv_length H HL). reflexivity. }
  assert (Hkey : firstn 32 kiv = client_enc_key H s).
  { rewrite Hkiv, firstn_app, Hk32, Nat.sub_diag, firstn_O, app_nil_r.
    apply firstn_all2. lia. }
  assert (Hiv : skipn 32 kiv = client_enc_iv H).
  { rewrite Hkiv, skipn_app, Hk32, Nat.sub_diag, skipn_O.
    rewrite skipn_all2 by lia. reflexivity. }
  destruct (DirectFacts.direct_result lib PREFER_IPV6 open_connection draws d kiv rd_tg wr_tg
              Hk Hdraws Hdirect)
    as (dc & r0 & w0 & nonce & c_enc & Hconn & Hrd & Hwtg & Hnl & Hns).
  rewrite Hkey, Hiv in Hrd. subst rd_tg wr_clt.
  set (c := create_aes_ctr lib (client_enc_key H s) (Py.from_bytes_big (client_enc_iv H))).
  unfold connect_reader_to_writer.
  cbn [install_fake_ciphers negb andb fst snd
       CryptoWrappedStreamReader.stream CryptoWrappedStreamReader.decryptor
       CryptoWrappedStreamReader.block_size CryptoWrappedStreamReader.buf
       CryptoWrappedStreamWriter.stream CryptoWrappedStreamWriter.encryptor
       CryptoWrappedStreamWriter.block_size].
  fold (stream_measure r0).
  split; [|split; [|split]].
  - exists dc, r0, w0, nonce. rewrite Hwtg. auto.
  - exists c. split; [reflexivity|]. split; [reflexivity|].
    split; [symmetry; exact Hkey|]. split; [rewrite Hiv; reflexivity|].
    split; [reflexivity|].
    intros Hnw. apply FastModeFacts.forward_real_total; [lia|exact Hnw].
  - destruct (FastModeFacts.forward_fake_total (S (stream_measure r0))
                READ_BUF_SIZE r0 writer_clt 0 ltac:(lia))
      as (rd & wr & n & Hf & delivered & left & Hp & Hs & Hn).
    exists rd, wr, n, delivered, left. auto.
  - intros rd' wr' n Hreal.
    destruct (FastModeFacts.forward_same _ _ _ _ _ _ _ _ _ Hreal)
      as (rd'' & wr'' & Hf & Hs & Hw).
    exists rd'', wr''. auto.
Qed.

Lemma fast_mode_same_stream_witness :
  let H := handshake_head ++ [x05; x87; x95; x4f; x4c; xe6; xb4; xf7] in
  exists rd_clt wr_clt kiv rd_tg wr_tg,
    handle_handshake PyCrypto alice (mkStreamReader [H] false) (mkStreamWriter [])
      = Ok (Some (rd_clt, wr_clt, "alice"%string, 1, kiv))
    /\ do_direct_handshake PyCrypto false example_connection example_draws 1 (Some kiv)
       = Ok (Some (rd_tg, wr_tg))
    /\ (exists dc r0 w0 nonce,
          example_connection dc TG_DATACENTER_PORT = Some (r0, w0)
          /\ sent (CryptoWrappedStreamWriter.stream wr_tg) = sent w0 ++ nonce
          /\ length nonce = 64%nat
          /\ Py.slice 8 56 nonce = rev kiv)
    /\ (exists c,
          CryptoWrappedStreamWriter.encryptor wr_clt = AesCtrCipher c
          /\ CryptoWrappedStreamReader.decryptor rd_tg = AesCtrCipher c
          /\ ctr_key c = firstn 32 kiv
          /\ ctr_iv c = Py.from_bytes_big (skipn 32 kiv)
          /\ ctr_pos c = 0%nat
          /\ (no_wrap c (length (pending (CryptoWrappedStreamReader.stream rd_tg))) ->
              exists res, connect_reader_to_writer 4096 rd_tg wr_clt = Ok res))
    /\ (exists rd wr n delivered left,
          connect_reader_to_writer 4096
            (fst (install_fake_ciphers false true rd_tg wr_clt))
            (snd (install_fake_ciphers false true rd_tg wr_clt)) = Ok (rd, wr, n)
          /\ pending (CryptoWrappedStreamReader.stream rd_tg) = delivered ++ left
          /\ sent (CryptoWrappedStreamWriter.stream wr)
             = sent (CryptoWrappedStreamWriter.stream wr_clt) ++ delivered
          /\ n = Z.of_nat (length delivered))
    /\ (forall rd' wr' n,
          connect_reader_to_writer 4096 rd_tg wr_clt = Ok (rd', wr', n) ->
          exists rd'' wr'',
            connect_reader_to_writer 4096
              (fst (install_fake_ciphers false true rd_tg wr_clt))
              (snd (install_fake_ciphers false true rd_tg wr_clt)) = Ok (rd'', wr'', n)
            /\ sent (CryptoWrappedStreamWriter.stream wr'')
               = sent (CryptoWrappedStreamWriter.stream wr')
            /\ CryptoWrappedStreamReader.stream rd''
               = CryptoWrappedStreamReader.stream rd').
Proof.
  intros H.
  assert (Hclt : exists rd_clt wr_clt kiv,
             handle_handshake PyCrypto alice (mkStreamReader [H] false) (mkStreamWriter [])
             = Ok (Some (rd_clt, wr_clt, "alice"%string, 1, kiv))
             /\ exists rd_tg wr_tg,
                  do_direct_handshake PyCrypto false example_connection example_draws 1
                    (Some kiv) = Ok (Some (rd_tg, wr_tg))).
  { eexists _, _, _. split; [vm_compute; reflexivity|].
    eexists _, _. vm_compute. reflexivity. }
  destruct Hclt as (rd_clt & wr_clt & kiv & Hc & rd_tg & wr_tg & Hd).
  exists rd_clt, wr_clt, kiv, rd_tg, wr_tg.
  split; [exact Hc|]. split; [exact Hd|].
  apply (fast_mode_same_stream PyCrypto alice (mkStreamReader [H] false) (mkStreamWriter [])
           rd_clt wr_clt "alice"%string 1 kiv false example_connection example_draws
           rd_tg wr_tg 4096 Hc
           ltac:(repeat constructor) Hd).
Defined.

(** On that example the client sees the datacenter's five bytes as they
    came, with the real ciphers as with the fake ones. *)
Example fast_mode_example :
  forall rd_clt wr_clt kiv rd_tg wr_tg,
    handle_handshake PyCrypto alice
      (mkStreamReader [handshake_head ++ [x05; x87; x95; x4f; x4c; xe6; xb4; xf7]] false)
      (mkStreamWriter [])
      = Ok (Some (rd_clt, wr_clt, "alice"%string, 1, kiv)) ->
    do_direct_handshake PyCrypto false example_connection example_draws 1 (Some kiv)
      = Ok (Some (rd_tg, wr_tg)) ->
    (exists rd wr,
       connect_reader_to_writer 4096 rd_tg wr_clt = Ok (rd, wr, 5)
       /\ sent (CryptoWrappedStreamWriter.stream wr) = [xde; xad; xbe; xef; x01])
    /\ (exists rd wr,
       connect_reader_to_writer 4096
         (fst (install_fake_ciphers false true rd_tg wr_clt))
         (snd (install_fake_ciphers false true rd_tg wr_clt)) = Ok (rd, wr, 5)
       /\ sent (CryptoWrappedStreamWriter.stream wr) = [xde; xad; xbe; xef; x01]).
Proof.
  intros rd_clt wr_clt kiv rd_tg wr_tg Hc Hd.
  vm_compute in Hc. injection Hc as <- <- <-.
  vm_compute in Hd. injection Hd as <- <-.
  split; eexists _, _; split; vm_compute; reflexivity.
Qed.

(** * Further properties of the code *)

(** ** What the frame readers hand on *)

Module ReaderOutputFacts.

Lemma readexactly_length (n : nat) (s s' : StreamReader) (a : bytes) :
  StreamReader_readexactly n s = Ok (a, s') -> length a = n.
Proof.
  unfold StreamReader_readexactly.
  destruct (Nat.leb_spec n (length (pending s))) as [Hle|]; [|discriminate].
  intros Heq. assert (E : a = firstn n (pending s)) by congruence.
  rewrite E, length_firstn. lia.
Qed.

Lemma compact_on_stream_length (n : nat) (r r' : MTProtoCompactFrameStreamReader.t)
    (a : bytes) :
  MTProtoCompactFrameStreamReader.on_stream (StreamReader_readexactly n) r = Ok (a, r') ->
  length a = n.
Proof.
  unfold MTProtoCompactFrameStreamReader.on_stream.
  destruct (StreamReader_readexactly n _) as [[a0 s0]|e] eqn:E; [|discriminate].
  intros Heq. assert (a = a0) by congruence. subst a0.
  exact (readexactly_length _ _ _ _ E).
Qed.

Lemma frame_on_stream_length (n : nat) (r r' : MTProtoFrameStreamReader.t) (a : bytes) :
  MTProtoFrameStreamReader.on_stream (StreamReader_readexactly n) r = Ok (a, r') ->
  length a = n.
Proof.
  unfold MTProtoFrameStreamReader.on_stream.
  destruct (StreamReader_readexactly n _) as [[a0 s0]|e] eqn:E; [|discriminate].
  intros Heq. assert (a = a0) by congruence. subst a0.
  exact (readexactly_length _ _ _ _ E).
Qed.

(** Every payload the abridged reader returns. *)
Lemma compact_read_output (buf_size : nat) (r r' : MTProtoCompactFrameStreamReader.t)
    (data : bytes) :
  MTProtoCompactFrameStreamReader.read buf_size r = Ok (data, r') ->
  abridged_ok data.
Proof.
  unfold MTProtoCompactFrameStreamReader.read.
  unfold bind at 1.
  destruct (MTProtoCompactFrameStreamReader.on_stream (StreamReader_readexactly 1) r)
    as [[b1 r1]|e] eqn:E1; [|discriminate].
  pose proof (compact_on_stream_length _ _ _ _ E1) as L1.
  pose proof (from_bytes_little_range b1) as R1. rewrite L1 in R1.
  change (256 ^ Z.of_nat 1) with 256 in R1.
  set (v := Py.from_bytes_little b1) in *.
  set (v' := if 128 <=? v then v - 128 else v).
  assert (Hfin : forall (len : Z) (r2 : MTProtoCompactFrameStreamReader.t),
             0 <= len < 2 ^ 24 ->
             (data0 <- MTProtoCompactFrameStreamReader.on_stream
                         (StreamReader_readexactly (Z.to_nat (len * 4))) ;;
              ret data0) r2 = Ok (data, r') ->
             abridged_ok data).
  { intros len r2 Hlen. unfold bind, ret.
    destruct (MTProtoCompactFrameStreamReader.on_stream _ r2) as [[d r3]|e] eqn:E3;
      [|discriminate].
    intros Heq. assert (d = data) by congruence. subst d.
    pose proof (compact_on_stream_length _ _ _ _ E3) as L3.
    unfold abridged_ok. rewrite L3, Z2Nat.id by lia.
    rewrite Z.mod_mul, Z.div_mul by lia. lia. }
  destruct (Z.eqb_spec v' 127) as [E7|N7].
  - unfold bind at 1. unfold bind at 1.
    destruct (MTProtoCompactFrameStreamReader.on_stream (StreamReader_readexactly 3) r1)
      as [[b3 r2]|e] eqn:E2; [|discriminate].
    unfold ret at 1.
    pose proof (compact_on_stream_length _ _ _ _ E2) as L2.
    pose proof (from_bytes_little_range b3) as R3. rewrite L2 in R3.
    change (256 ^ Z.of_nat 3) with (2 ^ 24) in R3.
    apply Hfin. exact R3.
  - unfold bind at 1, ret at 1. apply Hfin.
    unfold v'. destruct (Z.leb_spec 128 v); lia.
Qed.

(** Every payload the intermediate reader returns. *)
Lemma frame_record_output (len_bytes data : bytes) (r r' : MTProtoFrameStreamReader.t) :
  FrameReaderParts.read_record len_bytes r = Ok (data, r') ->
  Z.of_nat (length data) mod 4 = 0 /\ Z.of_nat (length data) <= 2 ^ 24 - 12.
Proof.
  unfold FrameReaderParts.read_record.
  assert (Hnil : Z.of_nat (length (@nil byte)) mod 4 = 0
                 /\ Z.of_nat (length (@nil byte)) <= 2 ^ 24 - 12) by (split; [reflexivity|discriminate]).
  set (v := Py.from_bytes_little len_bytes).
  destruct (negb ((MIN_MSG_LEN <=? v) && (v <=? MAX_MSG_LEN))
            || negb (v mod Z.of_nat (length PADDING_FILLER) =? 0)) eqn:Echk.
  - unfold bind, ret, MTProtoFrameStreamReader.on_stream, StreamReader_feed_eof.
    intros Heq. assert (data = []) by congruence. subst data. exact Hnil.
  - apply orb_false_elim in Echk. destruct Echk as [Hr Hm].
    apply negb_false_iff in Hr, Hm. apply andb_true_iff in Hr. destruct Hr as [H1 H2].
    apply Z.leb_le in H1, H2. apply Z.eqb_eq in Hm.
    unfold MIN_MSG_LEN in H1. unfold MAX_MSG_LEN in H2.
    change (Z.of_nat (length PADDING_FILLER)) with 4 in Hm.
    unfold bind at 1.
    destruct (MTProtoFrameStreamReader.on_stream (StreamReader_readexactly 4) r)
      as [[sb r1]|e]; [|discriminate].
    unfold bind at 1, MTProtoFrameStreamReader.get_seq_no at 1.
    destruct (negb (Py.from_bytes_little_signed sb =? MTProtoFrameStreamReader.seq_no r1)).
    + unfold bind, ret, MTProtoFrameStreamReader.on_stream, StreamReader_feed_eof.
      intros Heq. assert (data = []) by congruence. subst data. exact Hnil.
    + unfold bind at 1, MTProtoFrameStreamReader.incr_seq_no at 1.
      unfold bind at 1.
      destruct (MTProtoFrameStreamReader.on_stream
                  (StreamReader_readexactly (Z.to_nat (v - 4 - 4 - 4))) _)
        as [[d r2]|e] eqn:Ed; [|discriminate].
      pose proof (frame_on_stream_length _ _ _ _ Ed) as Ld.
      unfold bind at 1.
      destruct (MTProtoFrameStreamReader.on_stream (StreamReader_readexactly 4) r2)
        as [[cb r3]|e]; [|discriminate].
      destruct (negb (CRC32.crc32 (len_bytes ++ sb ++ d) =? Py.from_bytes_little cb)).
      * unfold bind, ret, MTProtoFrameStreamReader.on_stream, StreamReader_feed_eof.
        intros Heq. assert (data = []) by congruence. subst data. exact Hnil.
      * unfold ret. intros Heq. assert (d = data) by congruence. subst d.
        rewrite Ld, Z2Nat.id by lia. split; [|lia].
        replace (v - 4 - 4 - 4) with (v + (-3) * 4) by lia.
        rewrite Z_mod_plus_full. exact Hm.
Qed.

Lemma frame_read_output (buf_size : nat) (data : bytes)
    (r r' : MTProtoFrameStreamReader.t) :
  MTProtoFrameStreamReader.read buf_size r = Ok (data, r') ->
  Z.of_nat (length data) mod 4 = 0 /\ Z.of_nat (length data) <= 2 ^ 24 - 12.
Proof.
  rewrite FrameReaderFacts.read_unfold. unfold bind at 1.
  destruct (MTProtoFrameStreamReader.on_stream (StreamReader_readexactly 4) r)
    as [[b r1]|e]; [|discriminate].
  unfold bind at 1.
  destruct (MTProtoFrameStreamReader.skip_paddings _ b r1) as [[lb r2]|e]; [|discriminate].
  apply frame_record_output.
Qed.

End ReaderOutputFacts.

Module PipelineFacts.

Lemma compact_write_ok (p : bytes) (w : MTProtoCompactFrameStreamWriter.t) :
  abridged_ok p ->
  MTProtoCompactFrameStreamWriter.write p w
  = Ok (PyNone,
        MTProtoCompactFrameStreamWriter.mk
          (mkStreamWriter (sent (MTProtoCompactFrameStreamWriter.stream w)
                             ++ abridged_encoding p))
          (MTProtoCompactFrameStreamWriter.seq_no w)).
Proof.
  intros [Hmod Hlt].
  assert (Hq : 0 <= Z.of_nat (length p) / 4) by (apply Z.div_pos; lia).
  unfold MTProtoCompactFrameStreamWriter.write, abridged_encoding.
  rewrite Hmod. cbn [Z.eqb negb].
  unfold MTProtoCompactFrameStreamWriter.SMALL_PKT_BORDER,
    MTProtoCompactFrameStreamWriter.LARGE_PKT_BORGER.
  destruct (Z.ltb_spec (Z.of_nat (length p) / 4) 0x7f) as [Hsmall|Hbig]; [reflexivity|].
  destruct (Z.ltb_spec (Z.of_nat (length p) / 4) (256 ^ 3)) as [_|Hbad];
    [|change (256 ^ 3) with (2 ^ 24) in Hbad; lia].
  unfold bind, lift.
  rewrite to_bytes_little_ok by (change (256 ^ Z.of_nat 3) with (2 ^ 24); lia).
  reflexivity.
Qed.

Lemma proxy_write_aligned (AD_TAG OUT_CONN_ID msg : bytes) (w : ProxyReqStreamWriter.t) :
  Z.of_nat (length msg) mod 4 = 0 ->
  ProxyReqStreamWriter.write AD_TAG OUT_CONN_ID msg w
  = ProxyReqStreamWriter.on_stream
      (MTProtoFrameStreamWriter.write (proxy_request AD_TAG OUT_CONN_ID msg)) w.
Proof.
  intros Hm. unfold ProxyReqStreamWriter.write. rewrite Hm. cbn [Z.eqb negb].
  unfold proxy_request. rewrite <- !app_assoc. reflexivity.
Qed.

Lemma skipn16_aligned (data : bytes) :
  Z.of_nat (length data) mod 4 = 0 ->
  Z.of_nat (length data) <= 2 ^ 24 - 12 ->
  abridged_ok (skipn 16 data).
Proof.
  intros Hm Hle. unfold abridged_ok. rewrite length_skipn.
  destruct (Nat.le_gt_cases 16 (length data)) as [Hge|Hlt].
  - rewrite Nat2Z.inj_sub by exact Hge. change (Z.of_nat 16) with 16.
    split.
    + replace (Z.of_nat (length data) - 16) with (Z.of_nat (length data) + (-4) * 4) by lia.
      rewrite Z_mod_plus_full. exact Hm.
    + apply Z.div_lt_upper_bound; lia.
  - replace (length data - 16)%nat with 0%nat by lia. split; reflexivity.
Qed.

(** Every payload the proxy-answer reader returns. *)
Lemma proxy_read_output (m : nat) (r r' : ProxyReqStreamReader.t) (data : bytes) :
  ProxyReqStreamReader.read m r = Ok (data, r') -> abridged_ok data.
Proof.
  assert (Hnil : abridged_ok []) by (split; reflexivity).
  unfold ProxyReqStreamReader.read. unfold bind at 1.
  unfold ProxyReqStreamReader.on_stream at 1.
  destruct (MTProtoFrameStreamReader.read 1 (ProxyReqStreamReader.stream r))
    as [[d f1]|e] eqn:Ef; [|discriminate].
  destruct (ReaderOutputFacts.frame_read_output _ _ _ _ Ef) as [Hm Hle].
  destruct (length d <? 4)%nat.
  - unfold ret. intros Heq. assert (data = []) by congruence. subst. exact Hnil.
  - destruct (bytes_eqb (firstn 4 d) ProxyReqStreamReader.RPC_CLOSE_EXT).
    + unfold bind, ret, ProxyReqStreamReader.feed_eof, ProxyReqStreamReader.on_stream,
        MTProtoFrameStreamReader.on_stream, StreamReader_feed_eof.
      intros Heq. assert (data = []) by congruence. subst. exact Hnil.
    + destruct (negb (bytes_eqb (firstn 4 d) ProxyReqStreamReader.RPC_PROXY_ANS)).
      * unfold ret. intros Heq. assert (data = []) by congruence. subst. exact Hnil.
      * unfold ret. intros Heq. assert (data = skipn 16 d) by congruence. subst.
        apply skipn16_aligned; assumption.
Qed.

End PipelineFacts.

(** ** The two pipelines of the middle-proxy mode *)

(** X1.  Client to middle proxy: whatever the abridged reader returns is a whole
    number of 4-byte words, fewer than [2^24] of them, so the proxy-request
    writer never refuses it: it is wrapped and handed to the intermediate
    writer. *)
Theorem abridged_reader_feeds_proxy_writer
  (buf_size : nat) (r r' : MTProtoCompactFrameStreamReader.t) (data : bytes)
  (AD_TAG OUT_CONN_ID : bytes) (w : ProxyReqStreamWriter.t) :
  MTProtoCompactFrameStreamReader.read buf_size r = Ok (data, r') ->
  Z.of_nat (length data) mod 4 = 0
  /\ Z.of_nat (length data) / 4 < 2 ^ 24
  /\ ProxyReqStreamWriter.write AD_TAG OUT_CONN_ID data w
     = ProxyReqStreamWriter.on_stream
         (MTProtoFrameStreamWriter.write (proxy_request AD_TAG OUT_CONN_ID data)) w.
Proof.
  intros Hr. destruct (ReaderOutputFacts.compact_read_output _ _ _ _ Hr) as [Hm Hlt].
  split; [exact Hm|]. split; [exact Hlt|].
  apply PipelineFacts.proxy_write_aligned, Hm.
Qed.

Lemma abridged_reader_feeds_proxy_writer_witness :
  let data := [xaa; xbb; xcc; xdd] in
  let w := ProxyReqStreamWriter.mk (MTProtoFrameStreamWriter.mk (mkStreamWriter []) 0) in
  Z.of_nat (length data) mod 4 = 0
  /\ Z.of_nat (length data) / 4 < 2 ^ 24
  /\ ProxyReqStreamWriter.write (repeat x07 16) (repeat x09 8) data w
     = ProxyReqStreamWriter.on_stream
         (MTProtoFrameStreamWriter.write
            (proxy_request (repeat x07 16) (repeat x09 8) data)) w.
Proof.
  apply (abridged_reader_feeds_proxy_writer 4096
           (MTProtoCompactFrameStreamReader.mk
              (mkStreamReader [[x01; xaa; xbb]; [xcc; xdd; x2a]] false))
           (MTProtoCompactFrameStreamReader.mk (mkStreamReader [[x2a]] false))).
  reflexivity.
Defined.

(** X2.  Middle proxy to client: whatever the proxy-answer reader returns is
    taken by the abridged writer, which sends its length prefix and the
    payload; the branch of that writer that fails with [NameError] is out of
    reach on this path. *)
Theorem proxy_answer_feeds_abridged_writer
  (m : nat) (r r' : ProxyReqStreamReader.t) (data : bytes)
  (w : MTProtoCompactFrameStreamWriter.t) :
  ProxyReqStreamReader.read m r = Ok (data, r') ->
  MTProtoCompactFrameStreamWriter.write data w
  = Ok (PyNone,
        MTProtoCompactFrameStreamWriter.mk
          (mkStreamWriter (sent (MTProtoCompactFrameStreamWriter.stream w)
                             ++ abridged_encoding data))
          (MTProtoCompactFrameStreamWriter.seq_no w)).
Proof.
  intros Hr. apply PipelineFacts.compact_write_ok.
  exact (PipelineFacts.proxy_read_output _ _ _ _ Hr).
Qed.

Lemma proxy_answer_feeds_abridged_writer_witness :
  MTProtoCompactFrameStreamWriter.write [xaa; xbb; xcc; xdd]
    (MTProtoCompactFrameStreamWriter.mk (mkStreamWriter []) 0)
  = Ok (PyNone,
        MTProtoCompactFrameStreamWriter.mk
          (mkStreamWriter ([] ++ abridged_encoding [xaa; xbb; xcc; xdd])) 0).
Proof.
  eapply (proxy_answer_feeds_abridged_writer 4096
            (ProxyReqStreamReader.mk
               (MTProtoFrameStreamReader.mk
                  (mkStreamReader [frame_record (proxy_answer [xaa; xbb; xcc; xdd]) 0] false)
                  0))
            _ [xaa; xbb; xcc; xdd]
            (MTProtoCompactFrameStreamWriter.mk (mkStreamWriter []) 0)).
  vm_compute. reflexivity.
Defined.

(** ** Records in a row *)

Module FrameRoundFacts.

(** The reader on a record as the writer makes it. *)
Lemma read_record_ok (buf_size j : nat) (p rest : bytes) (r : MTProtoFrameStreamReader.t) :
  payload_ok p ->
  int32 (MTProtoFrameStreamReader.seq_no r) ->
  pending (MTProtoFrameStreamReader.stream r)
    = paddings j ++ frame_record p (MTProtoFrameStreamReader.seq_no r) ++ rest ->
  exists s',
    MTProtoFrameStreamReader.read buf_size r
      = Ok (p, MTProtoFrameStreamReader.mk s' (MTProtoFrameStreamReader.seq_no r + 1))
    /\ pending s' = rest
    /\ eof_fed s' = eof_fed (MTProtoFrameStreamReader.stream r).
Proof.
  intros Hok Hk Hp.
  destruct (RejectFacts.payload_len_ok p Hok) as [Hv Hlen].
  set (k := MTProtoFrameStreamReader.seq_no r) in *.
  set (len_bytes := Py.little_digits 4 (Z.of_nat (length p) + 12)) in *.
  set (seq_bytes := Py.little_digits 4 (k mod 2 ^ 32)).
  set (crc_bytes := Py.little_digits 4 (CRC32.crc32 (len_bytes ++ seq_bytes ++ p))).
  assert (Hw : paddings j ++ frame_record p k ++ rest
               = paddings j ++ len_bytes ++ (seq_bytes ++ p ++ crc_bytes ++ rest)).
  { unfold frame_record. cbv zeta. fold len_bytes. fold seq_bytes. fold crc_bytes.
    rewrite <- !app_assoc. reflexivity. }
  rewrite Hw in Hp.
  destruct (FrameReaderFacts.read_reaches_record buf_size j len_bytes
              (seq_bytes ++ p ++ crc_bytes ++ rest) r)
    as (s1 & Hread & Hp1 & He1);
    [apply little_digits_length|rewrite Hv; destruct Hok; lia|exact Hp|].
  rewrite Hread. fold k.
  destruct (FrameReaderFacts.record_body len_bytes seq_bytes p crc_bytes rest
              (MTProtoFrameStreamReader.mk s1 k))
    as (s2 & Hp2 & He2 & Hbody).
  - rewrite Hv. exact Hlen.
  - apply little_digits_length.
  - apply RejectFacts.seq_bytes_value, Hk.
  - rewrite Hv. lia.
  - apply little_digits_length.
  - exact Hp1.
  - rewrite Hbody. cbn [MTProtoFrameStreamReader.seq_no MTProtoFrameStreamReader.stream] in *.
    unfold crc_bytes at 1. rewrite from_bytes_little_digits.
    rewrite Z.mod_small
      by (change (256 ^ Z.of_nat 4) with (2 ^ 32); apply CRC32Facts.crc32_range).
    rewrite Z.eqb_refl. exists s2. split; [reflexivity|]. split; [exact Hp2|congruence].
Qed.

End FrameRoundFacts.

(** ** The proxy-answer reader *)

(** X3.  A record that carries [data], read through the proxy-answer reader:
    an answer (tag [RPC_PROXY_ANS]) gives the bytes from offset 16 on; a close
    request (tag [RPC_CLOSE_EXT]) gives the empty result and feeds end of file
    to the transport; anything else, a record of fewer than four bytes
    included, gives the empty result and leaves the transport as it is.  In
    all three cases the record is consumed and the sequence number
    advances. *)
Theorem proxy_answer_reader_cases
  (m j : nat) (data rest : bytes) (r : ProxyReqStreamReader.t) :
  let fr := ProxyReqStreamReader.stream r in
  let k := MTProtoFrameStreamReader.seq_no fr in
  payload_ok data ->
  int32 k ->
  pending (MTProtoFrameStreamReader.stream fr)
    = paddings j ++ frame_record data k ++ rest ->
  exists s',
    pending s' = rest
    /\ ((4 <= length data)%nat ->
        firstn 4 data = ProxyReqStreamReader.RPC_PROXY_ANS ->
        ProxyReqStreamReader.read m r
          = Ok (skipn 16 data,
                ProxyReqStreamReader.mk (MTProtoFrameStreamReader.mk s' (k + 1)))
        /\ eof_fed s' = eof_fed (MTProtoFrameStreamReader.stream fr))
    /\ ((4 <= length data)%nat ->
        firstn 4 data = ProxyReqStreamReader.RPC_CLOSE_EXT ->
        ProxyReqStreamReader.read m r
          = Ok ([], ProxyReqStreamReader.mk
                      (MTProtoFrameStreamReader.mk
                         (mkStreamReader (segments s') true) (k + 1))))
    /\ ((length data < 4)%nat
        \/ (firstn 4 data <> ProxyReqStreamReader.RPC_PROXY_ANS
            /\ firstn 4 data <> ProxyReqStreamReader.RPC_CLOSE_EXT) ->
        ProxyReqStreamReader.read m r
          = Ok ([], ProxyReqStreamReader.mk (MTProtoFrameStreamReader.mk s' (k + 1)))
        /\ eof_fed s' = eof_fed (MTProtoFrameStreamReader.stream fr)).
Proof.
  intros fr k Hok Hk Hp.
  destruct (FrameRoundFacts.read_record_ok 1 j data rest fr Hok Hk Hp)
    as (s' & Hread & Hp' & He).
  exists s'. split; [exact Hp'|].
  assert (Hstep : forall cont : bytes -> M ProxyReqStreamReader.t bytes,
             (d <- ProxyReqStreamReader.on_stream (MTProtoFrameStreamReader.read 1) ;; cont d) r
             = cont data (ProxyReqStreamReader.mk (MTProtoFrameStreamReader.mk s' (k + 1)))).
  { intros cont. unfold bind, ProxyReqStreamReader.on_stream. fold fr. rewrite Hread.
    reflexivity. }
  unfold ProxyReqStreamReader.read. rewrite Hstep. clear Hstep.
  split; [|split].
  - intros H4 Htag. split; [|exact He].
    destruct (Nat.ltb_spec (length data) 4); [lia|].
    rewrite Htag. reflexivity.
  - intros H4 Htag.
    destruct (Nat.ltb_spec (length data) 4); [lia|].
    rewrite Htag. reflexivity.
  - intros Hcase. split; [|exact He].
    destruct (Nat.ltb_spec (length data) 4) as [|Hge]; [reflexivity|].
    destruct Hcase as [Hlt|[Hna Hnc]]; [lia|].
    destruct (bytes_eqb (firstn 4 data) ProxyReqStreamReader.RPC_CLOSE_EXT) eqn:Ec;
      [apply HandshakeFacts.bytes_eqb_eq in Ec; contradiction|].
    destruct (bytes_eqb (firstn 4 data) ProxyReqStreamReader.RPC_PROXY_ANS) eqn:Ea;
      [apply HandshakeFacts.bytes_eqb_eq in Ea; contradiction|].
    reflexivity.
Qed.

Lemma proxy_answer_reader_cases_witness :
  exists r',
    ProxyReqStreamReader.read 4096
      (ProxyReqStreamReader.mk
         (MTProtoFrameStreamReader.mk
            (mkStreamReader [frame_record (proxy_answer [xaa; xbb; xcc; xdd]) 0] false) 0))
    = Ok ([xaa; xbb; xcc; xdd], r').
Proof.
  destruct (proxy_answer_reader_cases 4096 0 (proxy_answer [xaa; xbb; xcc; xdd]) []
              (ProxyReqStreamReader.mk
                 (MTProtoFrameStreamReader.mk
                    (mkStreamReader [frame_record (proxy_answer [xaa; xbb; xcc; xdd]) 0] false)
                    0)))
    as (s' & _ & Hans & _).
  - split; evaluate.
  - split; evaluate.
  - vm_compute. reflexivity.
  - destruct (Hans ltac:(vm_compute; lia) eq_refl) as [Hread _].
    eexists. exact Hread.
Defined.

(** ** The proxy-request writer *)

Module ProxyWriterFacts.



End ProxyWriterFacts.



(** ** Messages in a row *)

Module SequenceFacts.

Lemma compact_read_encoding (buf_size : nat) (p rest : bytes)
    (r : MTProtoCompactFrameStreamReader.t) :
  abridged_ok p ->
  pending (MTProtoCompactFrameStreamReader.stream r) = abridged_encoding p ++ rest ->
  exists r',
    MTProtoCompactFrameStreamReader.read buf_size r = Ok (p, r')
    /\ pending (MTProtoCompactFrameStreamReader.stream r') = rest.
Proof.
  intros [Hmod Hlt] Hp.
  set (q := Z.of_nat (length p) / 4) in *.
  assert (Hq : 0 <= q) by (apply Z.div_pos; lia).
  assert (Hlen : Z.of_nat (length p) = q * 4).
  { unfold q. pose proof (Z.div_mod (Z.of_nat (length p)) 4 ltac:(lia)). lia. }
  unfold abridged_encoding in Hp. fold q in Hp.
  destruct (Z.ltb_spec q 0x7f) as [Hsmall|Hbig].
  - destruct (CompactFacts.read_short_form (Py.int_to_byte q) p rest buf_size r)
      as (r' & Hr & Hp' & _).
    + rewrite byte_to_int_to_byte, Z.mod_small by lia.
      destruct (Z.leb_spec 0x80 q); lia.
    + rewrite byte_to_int_to_byte, Z.mod_small by lia.
      destruct (Z.leb_spec 0x80 q); lia.
    + rewrite Hp, <- app_assoc. reflexivity.
    + exists r'. auto.
  - destruct (CompactFacts.read_long_form x7f (Py.little_digits 3 q) p rest buf_size r)
      as (r' & Hr & Hp' & _).
    + reflexivity.
    + apply little_digits_length.
    + rewrite from_bytes_little_digits, Z.mod_small
        by (change (256 ^ Z.of_nat 3) with (2 ^ 24); lia).
      exact Hlen.
    + rewrite Hp. cbn [app]. rewrite <- app_assoc. reflexivity.
    + exists r'. auto.
Qed.

Lemma compact_write_all_emits (ps : list bytes) :
  forall w : MTProtoCompactFrameStreamWriter.t,
    Forall abridged_ok ps ->
    compact_write_all ps w
    = Ok (tt,
          MTProtoCompactFrameStreamWriter.mk
            (mkStreamWriter (sent (MTProtoCompactFrameStreamWriter.stream w)
                               ++ concat (map abridged_encoding ps)))
            (MTProtoCompactFrameStreamWriter.seq_no w)).
Proof.
  induction ps as [|p ps IH]; intros w Hall.
  - cbn [compact_write_all map concat]. rewrite app_nil_r. destruct w as [[s] k].
    reflexivity.
  - inversion Hall as [|? ? Hp Hps]; subst.
    cbn [compact_write_all map concat].
    rewrite (bind_ok _ _ _ _ _ (PipelineFacts.compact_write_ok p w Hp)).
    rewrite (IH _ Hps).
    cbn [MTProtoCompactFrameStreamWriter.stream MTProtoCompactFrameStreamWriter.seq_no sent].
    rewrite <- app_assoc. reflexivity.
Qed.

Lemma compact_read_n_ok (buf_size : nat) (ps : list bytes) :
  forall (r : MTProtoCompactFrameStreamReader.t) (rest : bytes),
    Forall abridged_ok ps ->
    pending (MTProtoCompactFrameStreamReader.stream r)
      = concat (map abridged_encoding ps) ++ rest ->
    exists r',
      compact_read_n buf_size (length ps) r = Ok (ps, r')
      /\ pending (MTProtoCompactFrameStreamReader.stream r') = rest.
Proof.
  induction ps as [|p ps IH]; intros r rest Hall Hp.
  - exists r. split; [reflexivity|exact Hp].
  - inversion Hall as [|? ? Hok Hps]; subst.
    cbn [map concat] in Hp. rewrite <- app_assoc in Hp.
    destruct (compact_read_encoding buf_size p _ r Hok Hp) as (r1 & Hr1 & Hp1).
    destruct (IH r1 rest Hps Hp1) as (r' & Hr' & Hp').
    exists r'. split; [|exact Hp'].
    cbn [length compact_read_n]. rewrite (bind_ok _ _ _ _ _ Hr1).
    rewrite (bind_ok _ _ _ _ _ Hr'). reflexivity.
Qed.

Lemma frame_write_all_emits (ps : list bytes) :
  forall w : MTProtoFrameStreamWriter.t,
    Forall payload_ok ps ->
    - 2 ^ 31 <= MTProtoFrameStreamWriter.seq_no w ->
    MTProtoFrameStreamWriter.seq_no w + Z.of_nat (length ps) <= 2 ^ 31 ->
    frame_write_all ps w
    = Ok (tt,
          MTProtoFrameStreamWriter.mk
            (mkStreamWriter (sent (MTProtoFrameStreamWriter.stream w)
                               ++ frame_wire ps (MTProtoFrameStreamWriter.seq_no w)))
            (MTProtoFrameStreamWriter.seq_no w + Z.of_nat (length ps))).
Proof.
  induction ps as [|p ps IH]; intros w Hall Hlo Hhi.
  - cbn [frame_write_all frame_wire length]. rewrite app_nil_r, Z.add_0_r.
    destruct w as [[s] k]. reflexivity.
  - inversion Hall as [|? ? Hp Hps]; subst.
    cbn [frame_write_all frame_wire]. cbn [length] in Hhi.
    rewrite (bind_ok _ _ _ _ _
               (FrameWriterFacts.write_emits p w
                  ltac:(destruct Hp; lia) ltac:(unfold int32; lia))).
    rewrite IH;
      cbn [MTProtoFrameStreamWriter.stream MTProtoFrameStreamWriter.seq_no sent];
      try assumption; try lia.
    rewrite <- !app_assoc. cbn [length]. do 3 f_equal. lia.
Qed.

Lemma frame_read_n_ok (buf_size : nat) (ps : list bytes) :
  forall (j : nat) (r : MTProtoFrameStreamReader.t) (rest : bytes),
    Forall payload_ok ps ->
    - 2 ^ 31 <= MTProtoFrameStreamReader.seq_no r ->
    MTProtoFrameStreamReader.seq_no r + Z.of_nat (length ps) <= 2 ^ 31 ->
    pending (MTProtoFrameStreamReader.stream r)
      = paddings j ++ frame_wire ps (MTProtoFrameStreamReader.seq_no r) ++ rest ->
    exists s' j',
      frame_read_n buf_size (length ps) r
        = Ok (ps, MTProtoFrameStreamReader.mk s'
                    (MTProtoFrameStreamReader.seq_no r + Z.of_nat (length ps)))
      /\ pending s' = paddings j' ++ rest.
Proof.
  induction ps as [|p ps IH]; intros j r rest Hall Hlo Hhi Hp.
  - exists (MTProtoFrameStreamReader.stream r), j.
    cbn [frame_read_n length frame_wire app] in *. rewrite Z.add_0_r.
    destruct r as [s k]. split; [reflexivity|exact Hp].
  - inversion Hall as [|? ? Hok Hps]; subst. cbn [length] in Hhi.
    cbn [frame_wire] in Hp. rewrite <- !app_assoc in Hp.
    destruct (FrameRoundFacts.read_record_ok buf_size j p _ r Hok
                ltac:(unfold int32; lia) Hp) as (s1 & Hr1 & Hp1 & _).
    destruct (IH (frame_pad_count p)
                (MTProtoFrameStreamReader.mk s1 (MTProtoFrameStreamReader.seq_no r + 1))
                rest Hps)
      as (s' & j' & Hr' & Hp');
      cbn [MTProtoFrameStreamReader.stream MTProtoFrameStreamReader.seq_no];
      try lia; try exact Hp1.
    exists s', j'. split; [|exact Hp'].
    cbn [length frame_read_n]. rewrite (bind_ok _ _ _ _ _ Hr1).
    rewrite (bind_ok _ _ _ _ _ Hr').
    cbn [MTProtoFrameStreamReader.seq_no]. unfold ret. do 3 f_equal. lia.
Qed.

Lemma frame_wire_blocks (ps : list bytes) :
  forall k : Z,
    Forall payload_ok ps -> Z.of_nat (length (frame_wire ps k)) mod 16 = 0.
Proof.
  induction ps as [|p ps IH]; intros k Hall; [reflexivity|].
  inversion Hall as [|? ? [H4 _] Hps]; subst.
  cbn [frame_wire]. rewrite app_assoc, length_app, Nat2Z.inj_add.
  rewrite Z.add_mod, (FrameWriterFacts.padded_to_block p k H4), (IH _ Hps) by lia.
  reflexivity.
Qed.

End SequenceFacts.

(** X5.  Any number of messages through the abridged framing: written one after
    the other and read as often, they come back in the same order, and
    the reader stops exactly where the last one ends. *)
Theorem abridged_messages_in_a_row
  (ps : list bytes) (w : MTProtoCompactFrameStreamWriter.t) (buf_size : nat) :
  Forall abridged_ok ps ->
  exists w',
    compact_write_all ps w = Ok (tt, w')
    /\ sent (MTProtoCompactFrameStreamWriter.stream w')
       = sent (MTProtoCompactFrameStreamWriter.stream w)
           ++ concat (map abridged_encoding ps)
    /\ forall (r : MTProtoCompactFrameStreamReader.t) (rest : bytes),
         pending (MTProtoCompactFrameStreamReader.stream r)
           = concat (map abridged_encoding ps) ++ rest ->
         exists r',
           compact_read_n buf_size (length ps) r = Ok (ps, r')
           /\ pending (MTProtoCompactFrameStreamReader.stream r') = rest.
Proof.
  intros Hall. eexists. split; [apply SequenceFacts.compact_write_all_emits, Hall|].
  split; [reflexivity|].
  intros r rest Hp. apply SequenceFacts.compact_read_n_ok; assumption.
Qed.

Lemma abridged_messages_in_a_row_witness :
  let ps := [[xaa; xbb; xcc; xdd]; []; repeat x55 512] in
  exists w',
    compact_write_all ps (MTProtoCompactFrameStreamWriter.mk (mkStreamWriter []) 0)
      = Ok (tt, w')
    /\ sent (MTProtoCompactFrameStreamWriter.stream w')
       = [] ++ concat (map abridged_encoding ps)
    /\ forall (r : MTProtoCompactFrameStreamReader.t) (rest : bytes),
         pending (MTProtoCompactFrameStreamReader.stream r)
           = concat (map abridged_encoding ps) ++ rest ->
         exists r',
           compact_read_n 4096 (length ps) r = Ok (ps, r')
           /\ pending (MTProtoCompactFrameStreamReader.stream r') = rest.
Proof.
  apply (abridged_messages_in_a_row [[xaa; xbb; xcc; xdd]; []; repeat x55 512]
           (MTProtoCompactFrameStreamWriter.mk (mkStreamWriter []) 0) 4096).
  repeat constructor.
Defined.

(** X6.  Any number of messages through the intermediate framing.  The writer
    starts at sequence number [k] and uses one number per record; each record
    goes out with its fillers, so the stream is a whole number of 16-byte
    blocks.  A reader that starts at [k] too returns the messages in order,
    ends at the sequence number of the writer, and has passed over every
    filler but those of the last record. *)
Theorem intermediate_messages_in_a_row
  (ps : list bytes) (w : MTProtoFrameStreamWriter.t) (buf_size : nat) :
  let k := MTProtoFrameStreamWriter.seq_no w in
  let n := Z.of_nat (length ps) in
  Forall payload_ok ps ->
  - 2 ^ 31 <= k ->
  k + n <= 2 ^ 31 ->
  exists w',
    frame_write_all ps w = Ok (tt, w')
    /\ MTProtoFrameStreamWriter.seq_no w' = k + n
    /\ sent (MTProtoFrameStreamWriter.stream w')
       = sent (MTProtoFrameStreamWriter.stream w) ++ frame_wire ps k
    /\ Z.of_nat (length (frame_wire ps k)) mod 16 = 0
    /\ forall (r : MTProtoFrameStreamReader.t) (j : nat) (rest : bytes),
         MTProtoFrameStreamReader.seq_no r = k ->
         pending (MTProtoFrameStreamReader.stream r) = paddings j ++ frame_wire ps k ++ rest ->
         exists s' j',
           frame_read_n buf_size (length ps) r
             = Ok (ps, MTProtoFrameStreamReader.mk s' (k + n))
           /\ pending s' = paddings j' ++ rest.
Proof.
  intros k n Hall Hlo Hhi.
  eexists. split; [apply SequenceFacts.frame_write_all_emits; assumption|].
  cbn [MTProtoFrameStreamWriter.seq_no MTProtoFrameStreamWriter.stream sent].
  split; [reflexivity|]. split; [reflexivity|].
  split; [apply SequenceFacts.frame_wire_blocks, Hall|].
  intros r j rest Hseq Hp. subst k n. rewrite <- Hseq in *.
  apply (SequenceFacts.frame_read_n_ok buf_size ps j); assumption.
Qed.

Lemma intermediate_messages_in_a_row_witness :
  let ps := [[x01; x02; x03; x04]; []; repeat x55 20] in
  exists w',
    frame_write_all ps (MTProtoFrameStreamWriter.mk (mkStreamWriter []) (-2)) = Ok (tt, w')
    /\ MTProtoFrameStreamWriter.seq_no w' = -2 + Z.of_nat (length ps)
    /\ sent (MTProtoFrameStreamWriter.stream w') = [] ++ frame_wire ps (-2)
    /\ Z.of_nat (length (frame_wire ps (-2))) mod 16 = 0
    /\ forall (r : MTProtoFrameStreamReader.t) (j : nat) (rest : bytes),
         MTProtoFrameStreamReader.seq_no r = -2 ->
         pending (MTProtoFrameStreamReader.stream r)
           = paddings j ++ frame_wire ps (-2) ++ rest ->
         exists s' j',
           frame_read_n 4096 (length ps) r
             = Ok (ps, MTProtoFrameStreamReader.mk s' (-2 + Z.of_nat (length ps)))
           /\ pending s' = paddings j' ++ rest.
Proof.
  apply (intermediate_messages_in_a_row [[x01; x02; x03; x04]; []; repeat x55 20]
           (MTProtoFrameStreamWriter.mk (mkStreamWriter []) (-2)) 4096).
  - repeat constructor; evaluate.
  - evaluate.
  - evaluate.
Defined.

(** ** What the intermediate writer does not check *)

Module FramePaddingFacts.

Lemma pad_count_bound (p : bytes) :
  (4 * frame_pad_count p < 16)%nat.
Proof.
  unfold frame_pad_count.
  pose proof (Z.mod_pos_bound (- (Z.of_nat (length p) + 12)) 16 ltac:(lia)) as Hx.
  set (x := (- (Z.of_nat (length p) + 12)) mod 16) in *.
  pose proof (Z.div_mod x 4 ltac:(lia)) as Hd.
  pose proof (Z.mod_pos_bound x 4 ltac:(lia)) as Hm.
  assert (0 <= x / 4) by (apply Z.div_pos; lia).
  lia.
Qed.

Lemma block_forces_alignment (p : bytes) (k : Z) :
  Z.of_nat (length (frame_record p k ++ paddings (frame_pad_count p))) mod 16 = 0 ->
  Z.of_nat (length p) mod 4 = 0.
Proof.
  rewrite length_app, FrameWriterFacts.frame_record_length, FrameReaderFacts.paddings_length.
  intros H16.
  set (T := Z.of_nat (length p + 12 + 4 * frame_pad_count p)) in *.
  pose proof (Z.div_mod T 16 ltac:(lia)) as Hd. rewrite H16 in Hd.
  replace (Z.of_nat (length p))
    with ((4 * (T / 16) - 3 - Z.of_nat (frame_pad_count p)) * 4) by (unfold T in *; lia).
  apply Z.mod_mul. lia.
Qed.

Lemma record_length_field (p : bytes) (k : Z) (tail : bytes) :
  Z.of_nat (length p) + 12 < 2 ^ 32 ->
  exists len_bytes rest,
    frame_record p k ++ tail = len_bytes ++ rest
    /\ length len_bytes = 4%nat
    /\ Py.from_bytes_little len_bytes = Z.of_nat (length p) + 12.
Proof.
  intros Hlen.
  exists (Py.little_digits 4 (Z.of_nat (length p) + 12)). eexists.
  split; [|split].
  - unfold frame_record. cbv zeta. rewrite <- !app_assoc. reflexivity.
  - apply little_digits_length.
  - rewrite from_bytes_little_digits. apply Z.mod_small.
    change (256 ^ Z.of_nat 4) with (2 ^ 32). lia.
Qed.

End FramePaddingFacts.

(** X7.  The fillers of the intermediate writer.  Whatever the payload, the
    record is followed by fewer than sixteen bytes of fillers; what is
    written is a whole number of 16-byte blocks exactly when the payload is a
    whole number of 4-byte words, and then it is the least such number of
    blocks that holds the record. *)
Theorem intermediate_writer_fills_blocks
  (p : bytes) (w : MTProtoFrameStreamWriter.t) :
  let k := MTProtoFrameStreamWriter.seq_no w in
  Z.of_nat (length p) + 12 < 2 ^ 32 ->
  int32 k ->
  exists wire,
    MTProtoFrameStreamWriter.write p w
      = Ok (PyNone,
            MTProtoFrameStreamWriter.mk
              (mkStreamWriter (sent (MTProtoFrameStreamWriter.stream w) ++ wire)) (k + 1))
    /\ (length p + 12 <= length wire < length p + 12 + 16)%nat
    /\ (Z.of_nat (length wire) mod 16 = 0 <-> Z.of_nat (length p) mod 4 = 0).
Proof.
  intros k Hlen Hk.
  exists (frame_record p k ++ paddings (frame_pad_count p)).
  split; [apply FrameWriterFacts.write_emits; assumption|].
  split.
  - rewrite length_app, FrameWriterFacts.frame_record_length,
      FrameReaderFacts.paddings_length.
    pose proof (FramePaddingFacts.pad_count_bound p). lia.
  - split.
    + apply FramePaddingFacts.block_forces_alignment.
    + apply FrameWriterFacts.padded_to_block.
Qed.

Lemma intermediate_writer_fills_blocks_witness :
  exists wire,
    MTProtoFrameStreamWriter.write [x01; x02; x03; x04; x05]
      (MTProtoFrameStreamWriter.mk (mkStreamWriter []) 7)
      = Ok (PyNone, MTProtoFrameStreamWriter.mk (mkStreamWriter ([] ++ wire)) (7 + 1))
    /\ (5 + 12 <= length wire < 5 + 12 + 16)%nat
    /\ (Z.of_nat (length wire) mod 16 = 0 <-> 5 mod 4 = 0).
Proof.
  apply (intermediate_writer_fills_blocks [x01; x02; x03; x04; x05]
           (MTProtoFrameStreamWriter.mk (mkStreamWriter []) 7)).
  - evaluate.
  - split; evaluate.
Defined.

(** X8.  The intermediate writer takes any payload, the intermediate reader does
    not: a payload that is not a whole number of 4-byte words, or that makes
    a record of more than [2^24] bytes, is written like any other and uses a
    sequence number, and a reader that meets the record gives the empty
    result and feeds end of file to its transport. *)
Theorem intermediate_writer_takes_what_reader_rejects
  (p : bytes) (w : MTProtoFrameStreamWriter.t) (buf_size : nat) :
  let k := MTProtoFrameStreamWriter.seq_no w in
  let wire := frame_record p k ++ paddings (frame_pad_count p) in
  Z.of_nat (length p) + 12 < 2 ^ 32 ->
  int32 k ->
  ~ payload_ok p ->
  MTProtoFrameStreamWriter.write p w
    = Ok (PyNone,
          MTProtoFrameStreamWriter.mk
            (mkStreamWriter (sent (MTProtoFrameStreamWriter.stream w) ++ wire)) (k + 1))
  /\ forall (r : MTProtoFrameStreamReader.t) (j : nat) (rest : bytes),
       pending (MTProtoFrameStreamReader.stream r) = paddings j ++ wire ++ rest ->
       signals_eof (MTProtoFrameStreamReader.read buf_size r).
Proof.
  intros k wire Hlen Hk Hbad.
  split; [apply FrameWriterFacts.write_emits; assumption|].
  intros r j rest Hp.
  destruct (FramePaddingFacts.record_length_field p k
              (paddings (frame_pad_count p) ++ rest) Hlen)
    as (len_bytes & tail & Hsplit & H4 & Hv).
  apply (RejectFacts.reject_length buf_size j len_bytes tail r H4).
  - rewrite Hv. lia.
  - rewrite Hv. unfold payload_ok in Hbad.
    destruct (Z.eq_dec (Z.of_nat (length p) mod 4) 0) as [E|E].
    + right. left. lia.
    + right. right.
      replace (Z.of_nat (length p) + 12) with (Z.of_nat (length p) + 3 * 4) by lia.
      rewrite Z_mod_plus_full. exact E.
  - rewrite Hp. unfold wire. rewrite <- Hsplit, <- !app_assoc. reflexivity.
Qed.

Lemma intermediate_writer_takes_what_reader_rejects_witness :
  signals_eof
    (MTProtoFrameStreamReader.read 4096
       (MTProtoFrameStreamReader.mk
          (mkStreamReader
             [frame_record [x01; x02; x03; x04; x05] 0
                ++ paddings (frame_pad_count [x01; x02; x03; x04; x05])] false) 0)).
Proof.
  destruct (intermediate_writer_takes_what_reader_rejects [x01; x02; x03; x04; x05]
              (MTProtoFrameStreamWriter.mk (mkStreamWriter []) 0) 4096)
    as [_ Hread].
  - evaluate.
  - split; evaluate.
  - intros [H4 _]. vm_compute in H4. discriminate H4.
  - apply (Hread _ 0%nat []). vm_compute. reflexivity.
Defined.

(** ** Counter mode as a stream *)

Module CtrFacts.

Lemma xor_bytes_app (a b ka kb : bytes) :
  length a = length ka ->
  xor_bytes (a ++ b) (ka ++ kb) = xor_bytes a ka ++ xor_bytes b kb.
Proof.
  revert ka. induction a as [|x a IH]; intros [|k ka] H; simpl in H; try discriminate.
  - reflexivity.
  - unfold xor_bytes in *. cbn [app combine map fst snd]. f_equal. apply IH. lia.
Qed.

Lemma keystream_app (c : AesCtr) (n m : nat) :
  keystream c (n + m) = keystream c n ++ keystream (ctr_advance c n) m.
Proof. unfold keystream. rewrite seq_app, map_app. reflexivity. Qed.

(** The keystream goes on where it stopped: a string in two parts. *)
Lemma ctr_stream_app (c : AesCtr) (a b : bytes) :
  ctr_stream c (a ++ b) = ctr_stream c a ++ ctr_stream (ctr_advance c (length a)) b.
Proof.
  unfold ctr_stream. rewrite length_app, keystream_app.
  apply xor_bytes_app. symmetry. apply IndexFacts.keystream_length.
Qed.

Lemma ctr_stream_length (c : AesCtr) (d : bytes) : length (ctr_stream c d) = length d.
Proof.
  unfold ctr_stream.
  rewrite IndexFacts.xor_bytes_length, IndexFacts.keystream_length. apply Nat.min_id.
Qed.

Lemma ctr_stream_twice (c : AesCtr) (d : bytes) : ctr_stream c (ctr_stream c d) = d.
Proof.
  unfold ctr_stream at 1. rewrite ctr_stream_length. unfold ctr_stream.
  apply FastModeFacts.xor_bytes_involutive. rewrite IndexFacts.keystream_length. lia.
Qed.

Lemma ctr_advance_0 (c : AesCtr) : ctr_advance c 0 = c.
Proof. destruct c. unfold ctr_advance. cbn. rewrite Nat.add_0_r. reflexivity. Qed.

Lemma ctr_advance_add (c : AesCtr) (n m : nat) :
  ctr_advance (ctr_advance c n) m = ctr_advance c (n + m).
Proof. unfold ctr_advance. cbn. rewrite Nat.add_assoc. reflexivity. Qed.

Lemma no_wrap_counter (c : AesCtr) (n m : nat) :
  no_wrap c n -> (m <= n)%nat -> counter_wraps c m = false.
Proof.
  intros Hnw Hle. unfold counter_wraps. destruct Hnw as [->|Hlt]; [reflexivity|].
  destruct (ctr_library c); [|reflexivity].
  assert ((ctr_pos c + m - 1) / 16 <= (ctr_pos c + n) / 16)%nat
    by (apply Nat.Div0.div_le_mono; lia).
  destruct (Z.leb_spec (2 ^ 128) (ctr_iv c + Z.of_nat ((ctr_pos c + m - 1) / 16)));
    [lia|]. apply andb_false_r.
Qed.

Lemma no_wrap_advance (c : AesCtr) (n m : nat) :
  no_wrap c n -> (m <= n)%nat -> no_wrap (ctr_advance c m) (n - m).
Proof.
  intros [H|H] Hle; [left; exact H|right].
  unfold ctr_advance. cbn [ctr_iv ctr_pos].
  replace (ctr_pos c + m + (n - m))%nat with (ctr_pos c + n)%nat by lia. exact H.
Qed.

Lemma no_wrap_less (c : AesCtr) (n m : nat) :
  no_wrap c n -> (m <= n)%nat -> no_wrap c m.
Proof.
  intros [H|H] Hle; [left; exact H|right].
  assert ((ctr_pos c + m) / 16 <= (ctr_pos c + n) / 16)%nat
    by (apply Nat.Div0.div_le_mono; lia).
  lia.
Qed.

Lemma no_wrap_crypt (c : AesCtr) (data : bytes) (n : nat) :
  no_wrap c n -> (length data <= n)%nat ->
  ctr_crypt data c = Ok (ctr_stream c data, ctr_advance c (length data)).
Proof.
  intros Hnw Hle.
  rewrite HandshakeFacts.ctr_crypt_ok by (apply (no_wrap_counter c n); assumption).
  reflexivity.
Qed.

End CtrFacts.

(** ** The crypto wrappers over a counter-mode cipher *)

Module CryptoStreamFacts.
Import CryptoWrappedStreamReader.

(** Enough bytes in the buffer: nothing is read. *)
Lemma readexactly_buffered (n : nat) (r : t) :
  (n <= length (buf r))%nat ->
  readexactly n r
  = Ok (firstn n (buf r), mk (stream r) (decryptor r) (block_size r) (skipn n (buf r))).
Proof.
  intros H. unfold readexactly, bind, get_buf, set_buf, ret.
  destruct (Nat.ltb_spec (length (buf r)) n); [lia|]. reflexivity.
Qed.

(** Too few bytes in the buffer: whole blocks are read and decrypted. *)
Lemma readexactly_fills (n : nat) (r : t) (data rest plain : bytes) (d' : cipher) :
  (length (buf r) < n)%nat ->
  pending (stream r) = data ++ rest ->
  (let to_read := Z.of_nat n - Z.of_nat (length (buf r)) in
   Z.of_nat (length data) = to_read + (- to_read) mod block_size r) ->
  decrypt data (decryptor r) = Ok (plain, d') ->
  exists s',
    readexactly n r
    = Ok (firstn n (buf r ++ plain), mk s' d' (block_size r) (skipn n (buf r ++ plain)))
    /\ pending s' = rest.
Proof.
  intros Hlt Hp Hlen Hd. cbv zeta in Hlen.
  destruct (readexactly_prefix data rest (stream r) Hp) as (s' & Hr & Hp' & _).
  exists s'. split; [|exact Hp'].
  unfold readexactly, bind, get_buf, set_buf, ret, get_block_size, on_stream, on_decryptor.
  destruct (Nat.ltb_spec (length (buf r)) n); [|lia].
  rewrite <- Hlen, Nat2Z.id, Hr.
  cbn [stream decryptor block_size buf]. rewrite Hd. reflexivity.
Qed.

(** The least multiple of [B] that covers [t] fits in a multiple of [B]
    that covers [t]. *)
Lemma aligned_fits (B t L : Z) :
  0 < B -> 0 <= t <= L -> L mod B = 0 ->
  t <= t + (- t) mod B <= L /\ (t + (- t) mod B) mod B = 0 /\ (- t) mod B < B.
Proof.
  intros HB Ht HL.
  pose proof (Z.mod_pos_bound (- t) B HB) as Hx.
  assert (Hz : (t + (- t) mod B) mod B = 0).
  { rewrite Z.add_mod_idemp_r by lia. replace (t + - t) with 0 by lia. apply Z.mod_0_l. lia. }
  split; [|split; [exact Hz|lia]].
  split; [lia|].
  pose proof (Z.div_mod L B ltac:(lia)) as H1. rewrite HL in H1.
  pose proof (Z.div_mod (t + (- t) mod B) B ltac:(lia)) as H2. rewrite Hz in H2.
  assert ((t + (- t) mod B) / B <= L / B); [|nia].
  apply Z.lt_succ_r. apply (Z.mul_lt_mono_pos_l B); [exact HB|]. nia.
Qed.

(** One call, with what it leaves for the next. *)
Lemma readexactly_serves
  (n : nat) (s : StreamReader) (c : AesCtr) (B : Z) (b : bytes) :
  let ahead := b ++ ctr_stream c (pending s) in
  0 < B ->
  Z.of_nat (length (pending s)) mod B = 0 ->
  no_wrap c (length (pending s)) ->
  (n <= length ahead)%nat ->
  exists s' taken b',
    CryptoWrappedStreamReader.readexactly n
      (CryptoWrappedStreamReader.mk s (AesCtrCipher c) B b)
    = Ok (firstn n ahead,
          CryptoWrappedStreamReader.mk s'
            (AesCtrCipher (ctr_advance c (length taken))) B b')
    /\ pending s = taken ++ pending s'
    /\ Z.of_nat (length taken) mod B = 0
    /\ ((n <= length b)%nat -> taken = [])
    /\ b' ++ ctr_stream (ctr_advance c (length taken)) (pending s') = skipn n ahead
    /\ no_wrap (ctr_advance c (length taken)) (length (pending s'))
    /\ (Z.of_nat (length b) < B -> Z.of_nat (length b') < B).
Proof.
  intros ahead HB Hblocks Hnw Hn.
  unfold ahead in Hn. rewrite length_app, CtrFacts.ctr_stream_length in Hn.
  destruct (Nat.le_gt_cases n (length b)) as [Hle|Hgt].
  - exists s, [], (skipn n b).
    rewrite readexactly_buffered by exact Hle.
    cbn [CryptoWrappedStreamReader.buf CryptoWrappedStreamReader.stream
         CryptoWrappedStreamReader.decryptor CryptoWrappedStreamReader.block_size length].
    rewrite CtrFacts.ctr_advance_0. unfold ahead.
    replace (n - length b)%nat with 0%nat in * by lia.
    split; [rewrite firstn_app; replace (n - length b)%nat with 0%nat by lia;
            rewrite firstn_O, app_nil_r; reflexivity|].
    split; [reflexivity|]. split; [apply Z.mod_0_l; lia|]. split; [reflexivity|].
    split; [rewrite skipn_app; replace (n - length b)%nat with 0%nat by lia;
            reflexivity|].
    split; [exact Hnw|].
    intros Hb. rewrite length_skipn. lia.
  - set (t := Z.of_nat n - Z.of_nat (length b)).
    destruct (aligned_fits B t (Z.of_nat (length (pending s))) HB
                ltac:(unfold t; lia) Hblocks) as ([Hlo Hhi] & Hz & Hneed).
    set (A := Z.to_nat (t + (- t) mod B)) in *.
    assert (HA : Z.of_nat A = t + (- t) mod B) by (unfold A; lia).
    assert (HAle : (A <= length (pending s))%nat) by lia.
    set (data := firstn A (pending s)).
    set (rest := skipn A (pending s)).
    assert (Hsplit : pending s = data ++ rest) by (symmetry; apply firstn_skipn).
    assert (Hdl : length data = A) by (unfold data; rewrite length_firstn; lia).
    destruct (readexactly_fills n
                (CryptoWrappedStreamReader.mk s (AesCtrCipher c) B b)
                data rest (ctr_stream c data)
                (AesCtrCipher (ctr_advance c (length data))))
      as (s' & Hread & Hp').
    + exact Hgt.
    + exact Hsplit.
    + cbn [CryptoWrappedStreamReader.buf CryptoWrappedStreamReader.block_size].
      fold t. rewrite Hdl. exact HA.
    + cbn [CryptoWrappedStreamReader.decryptor]. unfold decrypt, cipher_apply.
      rewrite (CtrFacts.no_wrap_crypt c data (length (pending s)) Hnw)
        by (rewrite Hdl; exact HAle).
      reflexivity.
    + exists s', data, (skipn n (b ++ ctr_stream c data)).
      cbn [CryptoWrappedStreamReader.buf CryptoWrappedStreamReader.block_size] in Hread.
      assert (Hcover : (n <= length (b ++ ctr_stream c data))%nat)
        by (rewrite length_app, CtrFacts.ctr_stream_length, Hdl; lia).
      assert (Hahead : ahead = (b ++ ctr_stream c data)
                               ++ ctr_stream (ctr_advance c (length data)) rest).
      { unfold ahead. rewrite Hsplit, CtrFacts.ctr_stream_app, app_assoc. reflexivity. }
      split.
      { rewrite Hread, Hahead, (firstn_app n (b ++ ctr_stream c data)).
        replace (n - length (b ++ ctr_stream c data))%nat with 0%nat by lia.
        rewrite firstn_O, app_nil_r. reflexivity. }
      split; [rewrite Hp'; exact Hsplit|].
      split; [rewrite Hdl, HA; exact Hz|].
      split; [intros Hle; lia|].
      split.
      { rewrite Hp', Hahead, (skipn_app n (b ++ ctr_stream c data)).
        replace (n - length (b ++ ctr_stream c data))%nat with 0%nat by lia.
        reflexivity. }
      split.
      { rewrite Hp'.
        replace (length rest) with (length (pending s) - length data)%nat
          by (unfold rest; rewrite length_skipn, Hdl; reflexivity).
        apply CtrFacts.no_wrap_advance; [exact Hnw|rewrite Hdl; exact HAle]. }
      intros _. rewrite length_skipn, length_app, CtrFacts.ctr_stream_length, Hdl.
      unfold t in *. lia.
Qed.

End CryptoStreamFacts.

(** X9.  [readexactly] of a crypto reader over a counter-mode cipher, for any
    block size.  Call "the plaintext ahead" the buffer followed by the
    decryption of what the transport still holds.  When the transport holds
    whole blocks and the plaintext ahead has [n] bytes, [readexactly n]
    returns its first [n] bytes and leaves the rest ahead; it takes whole
    blocks off the transport, none when the buffer has [n] bytes, and a
    buffer shorter than a block stays shorter than a block. *)
Theorem crypto_readexactly_serves_plaintext
  (n : nat) (s : StreamReader) (c : AesCtr) (B : Z) (b : bytes) :
  let ahead := b ++ ctr_stream c (pending s) in
  0 < B ->
  Z.of_nat (length (pending s)) mod B = 0 ->
  no_wrap c (length (pending s)) ->
  (n <= length ahead)%nat ->
  exists s' taken b',
    CryptoWrappedStreamReader.readexactly n
      (CryptoWrappedStreamReader.mk s (AesCtrCipher c) B b)
    = Ok (firstn n ahead,
          CryptoWrappedStreamReader.mk s'
            (AesCtrCipher (ctr_advance c (length taken))) B b')
    /\ pending s = taken ++ pending s'
    /\ Z.of_nat (length taken) mod B = 0
    /\ ((n <= length b)%nat -> taken = [])
    /\ b' ++ ctr_stream (ctr_advance c (length taken)) (pending s') = skipn n ahead
    /\ no_wrap (ctr_advance c (length taken)) (length (pending s'))
    /\ (Z.of_nat (length b) < B -> Z.of_nat (length b') < B).
Proof. exact (CryptoStreamFacts.readexactly_serves n s c B b). Qed.

Lemma crypto_readexactly_serves_plaintext_witness :
  let c := create_aes_ctr PyCrypto (repeat x01 32) 5 in
  let wire := repeat x00 32 in
  exists (s' : StreamReader) (taken b' : bytes),
    CryptoWrappedStreamReader.readexactly 7
      (CryptoWrappedStreamReader.mk (mkStreamReader [wire] false) (AesCtrCipher c) 16
         [xaa; xbb; xcc])
    = Ok (firstn 7 ([xaa; xbb; xcc] ++ ctr_stream c wire),
          CryptoWrappedStreamReader.mk s'
            (AesCtrCipher (ctr_advance c (length taken))) 16 b')
    /\ length taken = 16%nat
    /\ length b' = 12%nat.
Proof.
  intros c wire.
  destruct (crypto_readexactly_serves_plaintext 7 (mkStreamReader [wire] false) c 16
              [xaa; xbb; xcc])
    as (s' & taken & b' & Hread & Hsplit & _ & _ & Hahead & _).
  - reflexivity.
  - reflexivity.
  - right. vm_compute. reflexivity.
  - vm_compute. lia.
  - exists s', taken, b'. split; [exact Hread|].
    assert (Et : CryptoWrappedStreamReader.readexactly 7
                   (CryptoWrappedStreamReader.mk (mkStreamReader [wire] false)
                      (AesCtrCipher c) 16 [xaa; xbb; xcc])
                 = Ok (firstn 7 ([xaa; xbb; xcc] ++ ctr_stream c wire),
                       CryptoWrappedStreamReader.mk
                         (mkStreamReader [repeat x00 16] false)
                         (AesCtrCipher (ctr_advance c 16)) 16
                         (skipn 7 ([xaa; xbb; xcc] ++ ctr_stream c (repeat x00 16)))))
      by (vm_compute; reflexivity).
    rewrite Et in Hread.
    assert (E1 : ctr_advance c 16 = ctr_advance c (length taken)) by congruence.
    assert (E2 : skipn 7 ([xaa; xbb; xcc] ++ ctr_stream c (repeat x00 16)) = b')
      by congruence.
    split.
    + apply (f_equal ctr_pos) in E1. unfold ctr_advance in E1. cbn in E1. lia.
    + rewrite <- E2. vm_compute. reflexivity.
Defined.

Module CryptoPipeFacts.

(** One write of whole blocks through a counter-mode cipher. *)
Lemma write_blocks (w : StreamWriter) (c : AesCtr) (B : Z) (d : bytes) (n : nat) :
  Z.of_nat (length d) mod B = 0 ->
  no_wrap c n -> (length d <= n)%nat ->
  CryptoWrappedStreamWriter.write d (CryptoWrappedStreamWriter.mk w (AesCtrCipher c) B)
  = Ok (PyNone,
        CryptoWrappedStreamWriter.mk (mkStreamWriter (sent w ++ ctr_stream c d))
          (AesCtrCipher (ctr_advance c (length d))) B).
Proof.
  intros Hm Hnw Hle.
  unfold CryptoWrappedStreamWriter.write.
  unfold bind at 1, CryptoWrappedStreamWriter.get_block_size.
  cbn [CryptoWrappedStreamWriter.block_size]. rewrite Hm. cbn [Z.eqb negb].
  unfold bind, CryptoWrappedStreamWriter.on_encryptor, encrypt.
  cbn [CryptoWrappedStreamWriter.encryptor cipher_apply].
  rewrite (CtrFacts.no_wrap_crypt c d n Hnw Hle). reflexivity.
Qed.

Lemma write_all_blocks (ds : list bytes) :
  forall (w : StreamWriter) (c : AesCtr) (B : Z),
    Forall (fun d => Z.of_nat (length d) mod B = 0) ds ->
    no_wrap c (length (concat ds)) ->
    crypto_write_all ds (CryptoWrappedStreamWriter.mk w (AesCtrCipher c) B)
    = Ok (tt,
          CryptoWrappedStreamWriter.mk (mkStreamWriter (sent w ++ ctr_stream c (concat ds)))
            (AesCtrCipher (ctr_advance c (length (concat ds)))) B).
Proof.
  induction ds as [|d ds IH]; intros w c B Hall Hnw.
  - cbn [crypto_write_all concat length]. unfold ctr_stream. cbn [length keystream].
    rewrite CtrFacts.ctr_advance_0. unfold xor_bytes. cbn. rewrite app_nil_r.
    destruct w. reflexivity.
  - inversion Hall as [|? ? Hd Hds]; subst.
    cbn [crypto_write_all concat] in *. rewrite length_app in Hnw.
    rewrite (bind_ok _ _ _ _ _ (write_blocks w c B d _ Hd Hnw ltac:(lia))).
    rewrite IH; [|exact Hds|].
    + cbn [sent]. rewrite CtrFacts.ctr_stream_app, CtrFacts.ctr_advance_add,
        length_app, <- app_assoc. reflexivity.
    + replace (length (concat ds)) with (length d + length (concat ds) - length d)%nat by lia.
      apply CtrFacts.no_wrap_advance; [exact Hnw|lia].
Qed.

Lemma concat_blocks (ds : list bytes) (B : Z) :
  0 < B ->
  Forall (fun d => Z.of_nat (length d) mod B = 0) ds ->
  Z.of_nat (length (concat ds)) mod B = 0.
Proof.
  intros HB. induction 1 as [|d ds Hd _ IH]; [apply Z.mod_0_l; lia|].
  cbn [concat]. rewrite length_app, Nat2Z.inj_add, Z.add_mod, Hd, IH by lia.
  apply Z.mod_0_l. lia.
Qed.

(** Calls of [readexactly] in a row. *)
Lemma readexactly_all_serves (ns : list nat) :
  forall (s : StreamReader) (c : AesCtr) (B : Z) (b : bytes),
    0 < B ->
    Z.of_nat (length (pending s)) mod B = 0 ->
    no_wrap c (length (pending s)) ->
    (list_sum ns <= length (b ++ ctr_stream c (pending s)))%nat ->
    exists r',
      crypto_readexactly_all ns (CryptoWrappedStreamReader.mk s (AesCtrCipher c) B b)
      = Ok (pieces ns (b ++ ctr_stream c (pending s)), r').
Proof.
  induction ns as [|n ns IH]; intros s c B b HB Hblocks Hnw Hsum.
  - eexists. reflexivity.
  - unfold list_sum in Hsum. cbn [fold_right] in Hsum. fold (list_sum ns) in Hsum.
    pose proof (CryptoStreamFacts.readexactly_serves n s c B b) as Hs. cbv zeta in Hs.
    destruct (Hs HB Hblocks Hnw ltac:(lia))
      as (s' & taken & b' & Hread & Hsplit & Htaken & _ & Hahead & Hnw' & _).
    clear Hs.
    assert (Hblocks' : Z.of_nat (length (pending s')) mod B = 0).
    { assert (Z.of_nat (length (pending s))
              = Z.of_nat (length taken) + Z.of_nat (length (pending s')))
        by (rewrite Hsplit at 1; rewrite length_app; lia).
      pose proof (Z.div_mod (Z.of_nat (length (pending s))) B ltac:(lia)) as D1.
      pose proof (Z.div_mod (Z.of_nat (length taken)) B ltac:(lia)) as D2.
      rewrite Hblocks in D1. rewrite Htaken in D2.
      replace (Z.of_nat (length (pending s')))
        with ((Z.of_nat (length (pending s)) / B - Z.of_nat (length taken) / B) * B) by lia.
      apply Z.mod_mul. lia. }
    destruct (IH s' (ctr_advance c (length taken)) B b' HB Hblocks' Hnw') as (r' & Hrest).
    { rewrite Hahead, length_skipn. lia. }
    exists r'. cbn [crypto_readexactly_all pieces].
    rewrite (bind_ok _ _ _ _ _ Hread), (bind_ok _ _ _ _ _ Hrest), Hahead. reflexivity.
Qed.

Lemma read_nonempty (n : nat) (s s' : StreamReader) (readed : bytes) :
  (0 < n)%nat ->
  Forall (fun seg => seg <> []) (segments s) ->
  StreamReader_read n s = Ok (readed, s') ->
  (readed = [] -> pending s = [])
  /\ Forall (fun seg => seg <> []) (segments s').
Proof.
  intros Hn Hall. unfold StreamReader_read, pending.
  destruct (segments s) as [|seg rest] eqn:Es.
  - intros [= <- <-]. rewrite Es. split; [reflexivity|constructor].
  - inversion Hall as [|? ? Hseg Hrest]; subst.
    destruct (Nat.leb_spec (length seg) n) as [Hle|Hgt].
    + intros [= <- <-]. split; [contradiction|exact Hrest].
    + intros [= <- <-]. split.
      * intros E. apply (f_equal (@length byte)) in E.
        rewrite length_firstn in E. cbn [length] in E. lia.
      * constructor; [|exact Hrest].
        intros E. apply (f_equal (@length byte)) in E.
        rewrite length_skipn in E. cbn [length] in E. lia.
Qed.

(** The loop between a decrypting reader and an encrypting writer. *)
Lemma forward_recrypts (fuel n : nat) :
  forall (s : StreamReader) (cd ce : AesCtr) (w : StreamWriter) (octets : Z),
    (stream_measure s < fuel)%nat ->
    no_wrap cd (length (pending s)) ->
    no_wrap ce (length (pending s)) ->
    exists rd' wr' delivered,
      forward fuel n (CryptoWrappedStreamReader.mk s (AesCtrCipher cd) 1 [])
                     (CryptoWrappedStreamWriter.mk w (AesCtrCipher ce) 1) octets
        = Ok (rd', wr', octets + Z.of_nat (length delivered))
      /\ pending s = delivered ++ pending (CryptoWrappedStreamReader.stream rd')
      /\ sent (CryptoWrappedStreamWriter.stream wr')
         = sent w ++ ctr_stream ce (ctr_stream cd delivered)
      /\ CryptoWrappedStreamReader.decryptor rd'
         = AesCtrCipher (ctr_advance cd (length delivered))
      /\ CryptoWrappedStreamWriter.encryptor wr'
         = AesCtrCipher (ctr_advance ce (length delivered))
      /\ ((0 < n)%nat -> Forall (fun seg => seg <> []) (segments s) ->
          delivered = pending s).
Proof.
  induction fuel as [|fuel IH]; intros s cd ce w octets Hm Hd He; [lia|].
  cbn [forward].
  destruct (FastModeFacts.stream_read_total n s) as (readed & s1 & Hr).
  rewrite (FastModeFacts.read_block1 n s s1 _ readed Hr).
  unfold decrypt. cbn [cipher_apply].
  destruct readed as [|x readed].
  - rewrite (CtrFacts.no_wrap_crypt cd [] _ Hd ltac:(cbn [length]; lia)).
    change (ctr_stream cd []) with (@nil byte). cbn [is_empty length].
    eexists _, _, []. split; [cbn [length]; rewrite Z.add_0_r; reflexivity|].
    cbn [CryptoWrappedStreamReader.stream CryptoWrappedStreamReader.decryptor
         CryptoWrappedStreamWriter.stream CryptoWrappedStreamWriter.encryptor app length].
    rewrite !CtrFacts.ctr_advance_0.
    assert (Hsame : pending s1 = pending s).
    { unfold StreamReader_read in Hr. unfold pending.
      destruct (segments s) as [|seg rest] eqn:Es.
      - assert (s1 = s) by congruence. subst s1. rewrite Es. reflexivity.
      - destruct (Nat.leb_spec (length seg) n).
        + assert (seg = []) by congruence. assert (s1 = mkStreamReader rest (eof_fed s))
            by congruence. subst. reflexivity.
        + assert (E : firstn n seg = []) by congruence.
          assert (s1 = mkStreamReader (skipn n seg :: rest) (eof_fed s)) by congruence.
          subst s1. cbn [segments concat].
          rewrite <- (firstn_skipn n seg) at 2. rewrite E. reflexivity. }
    split; [symmetry; exact Hsame|].
    split; [unfold ctr_stream; cbn; rewrite app_nil_r; reflexivity|].
    split; [reflexivity|]. split; [reflexivity|].
    intros Hn Hall.
    destruct (read_nonempty n s s1 [] Hn Hall Hr) as [Hnil _].
    symmetry. apply Hnil. reflexivity.
  - destruct (FastModeFacts.read_measure n s s1 _ Hr ltac:(discriminate)) as [Hlt Hp].
    set (chunk := x :: readed) in *.
    assert (Hcl : (length chunk <= length (pending s))%nat)
      by (rewrite Hp, length_app; lia).
    rewrite (CtrFacts.no_wrap_crypt cd chunk _ Hd Hcl).
    rewrite (FastModeFacts.is_empty_length (ctr_stream cd chunk) chunk)
      by apply CtrFacts.ctr_stream_length.
    cbn [is_empty chunk]. fold chunk.
    rewrite FastModeFacts.write_block1. unfold encrypt. cbn [cipher_apply].
    rewrite (CtrFacts.no_wrap_crypt ce (ctr_stream cd chunk) _ He)
      by (rewrite CtrFacts.ctr_stream_length; exact Hcl).
    rewrite !CtrFacts.ctr_stream_length.
    assert (Hrem : length (pending s1) = (length (pending s) - length chunk)%nat)
      by (rewrite Hp, length_app; lia).
    destruct (IH s1 (ctr_advance cd (length chunk)) (ctr_advance ce (length chunk))
                (mkStreamWriter (sent w ++ ctr_stream ce (ctr_stream cd chunk)))
                (octets + Z.of_nat (length chunk)) ltac:(lia))
      as (rd' & wr' & delivered & Hf & Hsplit & Hsent & Hdec & Henc & Hall).
    { rewrite Hrem. apply CtrFacts.no_wrap_advance; assumption. }
    { rewrite Hrem. apply CtrFacts.no_wrap_advance; assumption. }
    exists rd', wr', (chunk ++ delivered).
    split; [rewrite Hf, length_app; f_equal; f_equal; lia|].
    split; [rewrite Hp, Hsplit at 1; rewrite app_assoc; reflexivity|].
    split.
    { rewrite Hsent. cbn [sent].
      rewrite (CtrFacts.ctr_stream_app cd), (CtrFacts.ctr_stream_app ce),
        CtrFacts.ctr_stream_length, <- app_assoc. reflexivity. }
    split; [rewrite Hdec, CtrFacts.ctr_advance_add, length_app; reflexivity|].
    split; [rewrite Henc, CtrFacts.ctr_advance_add, length_app; reflexivity|].
    intros Hn Hsegs.
    destruct (read_nonempty n s s1 chunk Hn Hsegs Hr) as [_ Hsegs1].
    rewrite (Hall Hn Hsegs1). symmetry. exact Hp.
Qed.

End CryptoPipeFacts.

(** X10.  A crypto writer and a crypto reader that hold the same counter-mode
    cipher, in the same state and with the same block size.  Chunks of whole
    blocks written one after the other come out as one stream of as many
    bytes, and [readexactly] on that stream gives the bytes written back, in
    pieces of whatever lengths are asked for, however the chunks were cut. *)
Theorem crypto_write_then_readexactly
  (c : AesCtr) (B : Z) (ds : list bytes) (w0 : StreamWriter) :
  let data := concat ds in
  0 < B ->
  Forall (fun d => Z.of_nat (length d) mod B = 0) ds ->
  no_wrap c (length data) ->
  exists wire,
    crypto_write_all ds (CryptoWrappedStreamWriter.mk w0 (AesCtrCipher c) B)
    = Ok (tt,
          CryptoWrappedStreamWriter.mk (mkStreamWriter (sent w0 ++ wire))
            (AesCtrCipher (ctr_advance c (length data))) B)
    /\ length wire = length data
    /\ forall (s : StreamReader) (ns : list nat),
         pending s = wire ->
         (list_sum ns <= length data)%nat ->
         exists r',
           crypto_readexactly_all ns (CryptoWrappedStreamReader.mk s (AesCtrCipher c) B [])
           = Ok (pieces ns data, r').
Proof.
  intros data HB Hall Hnw. exists (ctr_stream c data).
  split; [apply CryptoPipeFacts.write_all_blocks; assumption|].
  split; [apply CtrFacts.ctr_stream_length|].
  intros s ns Hp Hsum.
  destruct (CryptoPipeFacts.readexactly_all_serves ns s c B [] HB) as (r' & Hr).
  - rewrite Hp, CtrFacts.ctr_stream_length.
    apply CryptoPipeFacts.concat_blocks; assumption.
  - rewrite Hp, CtrFacts.ctr_stream_length. exact Hnw.
  - rewrite Hp, CtrFacts.ctr_stream_twice. exact Hsum.
  - exists r'. rewrite Hr, Hp, CtrFacts.ctr_stream_twice. reflexivity.
Qed.

Lemma crypto_write_then_readexactly_witness :
  let c := create_aes_ctr PyCrypto (repeat x01 32) (2 ^ 128 - 3) in
  let ds := [repeat xaa 16; []; repeat xbb 16] in
  exists wire w',
    crypto_write_all ds (CryptoWrappedStreamWriter.mk (mkStreamWriter []) (AesCtrCipher c) 16)
      = Ok (tt, w')
    /\ sent (CryptoWrappedStreamWriter.stream w') = wire
    /\ exists r',
         crypto_readexactly_all [3; 20; 9]%nat
           (CryptoWrappedStreamReader.mk (mkStreamReader [wire] false) (AesCtrCipher c) 16 [])
         = Ok (pieces [3; 20; 9]%nat (concat ds), r').
Proof.
  intros c ds.
  destruct (crypto_write_then_readexactly c 16 ds (mkStreamWriter []))
    as (wire & Hw & _ & Hread).
  - reflexivity.
  - repeat constructor.
  - right. vm_compute. reflexivity.
  - exists wire. eexists. split; [exact Hw|]. split; [reflexivity|].
    apply Hread.
    + unfold pending. cbn [segments concat]. apply app_nil_r.
    + vm_compute. lia.
Defined.

(** X11.  The forwarding loop between a reader that decrypts with one counter-mode
    cipher and a writer that encrypts with another, as in a connection
    without fast mode.  Unless a counter wraps, the loop ends; what it has
    written is what it took off the transport, decrypted with the first
    cipher and encrypted with the second as one stream, whatever the sizes of
    the chunks it came in; both ciphers have advanced by that many bytes,
    and so many octets are counted.  With a positive buffer size and no empty
    chunk on the way, it has taken everything. *)
Theorem relay_recrypts_stream
  (READ_BUF_SIZE : nat) (s : StreamReader) (cd ce : AesCtr) (w : StreamWriter) :
  no_wrap cd (length (pending s)) ->
  no_wrap ce (length (pending s)) ->
  exists rd' wr' delivered,
    connect_reader_to_writer READ_BUF_SIZE
      (CryptoWrappedStreamReader.mk s (AesCtrCipher cd) 1 [])
      (CryptoWrappedStreamWriter.mk w (AesCtrCipher ce) 1)
    = Ok (rd', wr', Z.of_nat (length delivered))
    /\ pending s = delivered ++ pending (CryptoWrappedStreamReader.stream rd')
    /\ sent (CryptoWrappedStreamWriter.stream wr')
       = sent w ++ ctr_stream ce (ctr_stream cd delivered)
    /\ CryptoWrappedStreamReader.decryptor rd'
       = AesCtrCipher (ctr_advance cd (length delivered))
    /\ CryptoWrappedStreamWriter.encryptor wr'
       = AesCtrCipher (ctr_advance ce (length delivered))
    /\ ((0 < READ_BUF_SIZE)%nat -> Forall (fun seg => seg <> []) (segments s) ->
        delivered = pending s).
Proof.
  intros Hd He. unfold connect_reader_to_writer.
  cbn [CryptoWrappedStreamReader.stream].
  destruct (CryptoPipeFacts.forward_recrypts (S (stream_measure s)) READ_BUF_SIZE
              s cd ce w 0 ltac:(lia) Hd He)
    as (rd' & wr' & delivered & Hf & Hrest).
  exists rd', wr', delivered. split; [exact Hf|exact Hrest].
Qed.

Lemma relay_recrypts_stream_witness :
  let cd := create_aes_ctr PyAES (repeat x01 32) 7 in
  let ce := create_aes_ctr PyCrypto (repeat x02 32) (2 ^ 128 - 1) in
  let s := mkStreamReader [[x10; x11; x12]; [x13]; [x14; x15; x16; x17; x18]] false in
  exists rd' wr',
    connect_reader_to_writer 4
      (CryptoWrappedStreamReader.mk s (AesCtrCipher cd) 1 [])
      (CryptoWrappedStreamWriter.mk (mkStreamWriter []) (AesCtrCipher ce) 1)
    = Ok (rd', wr', 9)
    /\ sent (CryptoWrappedStreamWriter.stream wr')
       = ctr_stream ce (ctr_stream cd (pending s)).
Proof.
  intros cd ce s.
  destruct (relay_recrypts_stream 4 s cd ce (mkStreamWriter []))
    as (rd' & wr' & delivered & Hf & _ & Hsent & _ & _ & Hall).
  - left. reflexivity.
  - right. vm_compute. reflexivity.
  - assert (Hd : delivered = pending s).
    { apply Hall; [lia|]. repeat constructor; discriminate. }
    exists rd', wr'. rewrite Hd in Hf, Hsent. split; [exact Hf|exact Hsent].
Defined.

(** ** [read] after [readexactly] *)

Module BufferFacts.
Import CryptoWrappedStreamReader.

(** [read] with bytes in the buffer: the buffer is emptied and returned
    empty. *)
Lemma read_buffered (n : nat) (r : t) :
  buf r <> [] ->
  read n r = Ok ([], mk (stream r) (decryptor r) (block_size r) []).
Proof.
  intros Hb. unfold read, bind, get_buf, set_buf, ret.
  destruct (buf r); [contradiction|reflexivity].
Qed.

End BufferFacts.

(** X12.  [read] after [readexactly], with a block size above one.  A
    [readexactly] of a number of bytes that is not a whole number of blocks
    leaves decrypted bytes in the buffer.  A [read] that follows returns the
    empty string and empties the buffer, so the forwarding loop started on
    such a reader takes it for the end of the stream: it forwards nothing,
    and the buffered bytes, the plaintext that came next, are gone. *)
Theorem buffered_plaintext_is_lost
  (n m : nat) (s : StreamReader) (c : AesCtr) (B : Z) (wr : CryptoWrappedStreamWriter.t) :
  let plain := ctr_stream c (pending s) in
  0 < B ->
  Z.of_nat (length (pending s)) mod B = 0 ->
  no_wrap c (length (pending s)) ->
  (n <= length (pending s))%nat ->
  Z.of_nat n mod B <> 0 ->
  exists r1 lost rest,
    CryptoWrappedStreamReader.readexactly n
      (CryptoWrappedStreamReader.mk s (AesCtrCipher c) B [])
    = Ok (firstn n plain, r1)
    /\ CryptoWrappedStreamReader.buf r1 = lost
    /\ lost <> []
    /\ skipn n plain = lost ++ rest
    /\ CryptoWrappedStreamReader.read m r1
       = Ok ([], CryptoWrappedStreamReader.mk (CryptoWrappedStreamReader.stream r1)
                   (CryptoWrappedStreamReader.decryptor r1) B [])
    /\ connect_reader_to_writer m r1 wr
       = Ok (CryptoWrappedStreamReader.mk (CryptoWrappedStreamReader.stream r1)
               (CryptoWrappedStreamReader.decryptor r1) B [], wr, 0).
Proof.
  intros plain HB Hblocks Hnw Hn Hpart.
  pose proof (CryptoStreamFacts.readexactly_serves n s c B []) as Hs. cbv zeta in Hs.
  cbn [app] in Hs.
  destruct (Hs HB Hblocks Hnw ltac:(rewrite CtrFacts.ctr_stream_length; exact Hn))
    as (s' & taken & b' & Hread & Hsplit & Htaken & _ & Hahead & _).
  clear Hs. fold plain in Hread, Hahead.
  assert (Hb : b' <> []).
  { intros ->. cbn [app] in Hahead.
    apply (f_equal (@length byte)) in Hahead.
    rewrite length_skipn, CtrFacts.ctr_stream_length in Hahead.
    unfold plain in Hahead. rewrite CtrFacts.ctr_stream_length in Hahead.
    rewrite Hsplit, length_app in Hahead, Hn.
    assert (length taken = n) by lia. subst n. contradiction. }
  set (r1 := CryptoWrappedStreamReader.mk s'
               (AesCtrCipher (ctr_advance c (length taken))) B b') in *.
  assert (Hrd : CryptoWrappedStreamReader.read m r1
                = Ok ([], CryptoWrappedStreamReader.mk s'
                            (AesCtrCipher (ctr_advance c (length taken))) B []))
    by (apply BufferFacts.read_buffered; exact Hb).
  exists r1, b', (ctr_stream (ctr_advance c (length taken)) (pending s')).
  split; [exact Hread|]. split; [reflexivity|]. split; [exact Hb|].
  split; [symmetry; exact Hahead|]. split; [exact Hrd|].
  unfold connect_reader_to_writer. cbn [forward]. rewrite Hrd. reflexivity.
Qed.

Lemma buffered_plaintext_is_lost_witness :
  let c := create_aes_ctr PyAES (repeat x01 32) 0 in
  let s := mkStreamReader [repeat x00 32] false in
  exists r1 lost,
    CryptoWrappedStreamReader.readexactly 20
      (CryptoWrappedStreamReader.mk s (AesCtrCipher c) 16 [])
    = Ok (firstn 20 (ctr_stream c (pending s)), r1)
    /\ lost <> []
    /\ CryptoWrappedStreamReader.buf r1 = lost
    /\ connect_reader_to_writer 4096 r1
         (CryptoWrappedStreamWriter.mk (mkStreamWriter []) FakeCipher 1)
       = Ok (CryptoWrappedStreamReader.mk (CryptoWrappedStreamReader.stream r1)
               (CryptoWrappedStreamReader.decryptor r1) 16 [],
             CryptoWrappedStreamWriter.mk (mkStreamWriter []) FakeCipher 1, 0).
Proof.
  intros c s.
  destruct (buffered_plaintext_is_lost 20 4096 s c 16
              (CryptoWrappedStreamWriter.mk (mkStreamWriter []) FakeCipher 1))
    as (r1 & lost & rest & Hread & Hbuf & Hne & _ & _ & Hrelay).
  - reflexivity.
  - reflexivity.
  - left. reflexivity.
  - vm_compute. lia.
  - vm_compute. discriminate.
  - exists r1, lost. auto.
Defined.

(** ** The client handshake, read backwards *)

Module HandshakeSoundFacts.

Lemma not_passes_magic (lib : aes_library) (H s decrypted : bytes) (dec' : AesCtr) :
  ctr_crypt H (client_decryptor lib H s) = Ok (decrypted, dec') ->
  bytes_eqb (Py.slice 56 60 decrypted) MAGIC_VAL_TO_CHECK = false ->
  ~ passes lib H s.
Proof.
  intros Hd Em (dd & dc & Hd' & Hm & _).
  assert (dd = decrypted) by congruence. subst dd.
  apply HandshakeFacts.bytes_eqb_eq in Hm. congruence.
Qed.

Lemma not_passes_index (lib : aes_library) (H s decrypted : bytes) (dec' : AesCtr) :
  ctr_crypt H (client_decryptor lib H s) = Ok (decrypted, dec') ->
  dc_index_of decrypted = 0 ->
  ~ passes lib H s.
Proof.
  intros Hd E0 (dd & dc & Hd' & _ & Hne).
  assert (dd = decrypted) by congruence. subst dd. contradiction.
Qed.

(** The user a handshake is accepted for is the first of the list who
    passes. *)
Lemma users_first_split (lib : aes_library) (USERS : users) (H : bytes)
    (reader : StreamReader) (writer : StreamWriter)
    (rd : CryptoWrappedStreamReader.t) (wr : CryptoWrappedStreamWriter.t)
    (u : string) (d : Z) (k : bytes) :
  length H = 64%nat ->
  handshake_users lib USERS H reader writer = Ok (Some (rd, wr, u, d, k)) ->
  exists pre s post,
    USERS = pre ++ (u, s) :: post
    /\ Forall (fun e => ~ passes lib H (snd e)) pre
    /\ passes lib H s
    /\ d = dc_index_of (ctr_stream (client_decryptor lib H s) H)
    /\ k = client_enc_key H s ++ client_enc_iv H
    /\ rd = CryptoWrappedStreamReader.mk reader
              (AesCtrCipher (ctr_advance (client_decryptor lib H s) 64)) 1 []
    /\ wr = CryptoWrappedStreamWriter.mk writer
              (AesCtrCipher (create_aes_ctr lib (client_enc_key H s)
                               (Py.from_bytes_big (client_enc_iv H)))) 1.
Proof.
  intros HL. induction USERS as [|[u' s'] rest IH]; [discriminate|].
  rewrite (HandshakeFacts.users_turn lib u' s' rest H reader writer HL).
  destruct (ctr_crypt H (client_decryptor lib H s')) as [[decrypted dec']|e] eqn:Ed;
    [|discriminate].
  assert (Hskip : ~ passes lib H s' ->
                  handshake_users lib rest H reader writer = Ok (Some (rd, wr, u, d, k)) ->
                  exists pre s post,
                    (u', s') :: rest = pre ++ (u, s) :: post
                    /\ Forall (fun e => ~ passes lib H (snd e)) pre
                    /\ passes lib H s
                    /\ d = dc_index_of (ctr_stream (client_decryptor lib H s) H)
                    /\ k = client_enc_key H s ++ client_enc_iv H
                    /\ rd = CryptoWrappedStreamReader.mk reader
                              (AesCtrCipher (ctr_advance (client_decryptor lib H s) 64)) 1 []
                    /\ wr = CryptoWrappedStreamWriter.mk writer
                              (AesCtrCipher (create_aes_ctr lib (client_enc_key H s)
                                               (Py.from_bytes_big (client_enc_iv H)))) 1).
  { intros Hnp Hres. destruct (IH Hres) as (pre & s & post & Hsplit & Hpre & Hrest).
    exists ((u', s') :: pre), s, post. split; [rewrite Hsplit; reflexivity|].
    split; [constructor; assumption|exact Hrest]. }
  destruct (bytes_eqb (Py.slice 56 60 decrypted) MAGIC_VAL_TO_CHECK) eqn:Em; cbn [negb].
  - destruct (Z.eqb_spec (dc_index_of decrypted) 0) as [E0|Hne].
    + apply Hskip. exact (not_passes_index lib H s' decrypted dec' Ed E0).
    + clear IH Hskip. intros Hres.
      destruct (HandshakeFacts.ctr_crypt_inv _ _ _ _ Ed) as (_ & Hout & Hdec).
      rewrite HL in Hdec, Hout.
      assert (E1 : rd = CryptoWrappedStreamReader.mk reader (AesCtrCipher dec') 1 [])
        by congruence.
      assert (E2 : wr = CryptoWrappedStreamWriter.mk writer
                          (AesCtrCipher (create_aes_ctr lib (client_enc_key H s')
                                           (Py.from_bytes_big (client_enc_iv H)))) 1)
        by congruence.
      assert (E3 : u = u') by congruence.
      assert (E4 : d = dc_index_of decrypted) by congruence.
      assert (E5 : k = client_enc_key H s' ++ client_enc_iv H) by congruence.
      subst u. exists [], s', rest.
      split; [reflexivity|]. split; [constructor|].
      split.
      { exists decrypted, dec'. split; [exact Ed|].
        split; [apply HandshakeFacts.bytes_eqb_eq, Em|exact Hne]. }
      split; [rewrite E4, Hout; unfold ctr_stream; rewrite HL; reflexivity|].
      split; [exact E5|]. split; [rewrite E1, Hdec; reflexivity|exact E2].
  - apply Hskip. exact (not_passes_magic lib H s' decrypted dec' Ed Em).
Qed.

Lemma users_none (lib : aes_library) (USERS : users) (H : bytes)
    (reader : StreamReader) (writer : StreamWriter) :
  length H = 64%nat ->
  handshake_users lib USERS H reader writer = Ok None ->
  Forall (fun e => ~ passes lib H (snd e)) USERS.
Proof.
  intros HL. induction USERS as [|[u' s'] rest IH]; [constructor|].
  rewrite (HandshakeFacts.users_turn lib u' s' rest H reader writer HL).
  destruct (ctr_crypt H (client_decryptor lib H s')) as [[decrypted dec']|e] eqn:Ed;
    [|discriminate].
  destruct (bytes_eqb (Py.slice 56 60 decrypted) MAGIC_VAL_TO_CHECK) eqn:Em; cbn [negb].
  - destruct (Z.eqb_spec (dc_index_of decrypted) 0) as [E0|Hne]; [|discriminate].
    intros Hres. constructor; [|exact (IH Hres)].
    exact (not_passes_index lib H s' decrypted dec' Ed E0).
  - intros Hres. constructor; [|exact (IH Hres)].
    exact (not_passes_magic lib H s' decrypted dec' Ed Em).
Qed.

Lemma handshake_counter (lib : aes_library) (H s : bytes) :
  lib = PyAES \/ client_dec_iv H + 3 < 2 ^ 128 ->
  counter_wraps (client_decryptor lib H s) 64 = false.
Proof.
  intros [->|Hlt]; [reflexivity|].
  unfold counter_wraps, client_decryptor, create_aes_ctr. cbn [ctr_library ctr_iv ctr_pos].
  destruct lib; [|reflexivity].
  change (Z.of_nat ((0 + 64 - 1) / 16)) with 3.
  destruct (Z.leb_spec (2 ^ 128) (client_dec_iv H + 3)); [lia|reflexivity].
Qed.

Lemma users_all_fail (lib : aes_library) (USERS : users) (H : bytes)
    (reader : StreamReader) (writer : StreamWriter) :
  length H = 64%nat ->
  lib = PyAES \/ client_dec_iv H + 3 < 2 ^ 128 ->
  Forall (fun e => ~ passes lib H (snd e)) USERS ->
  handshake_users lib USERS H reader writer = Ok None.
Proof.
  intros HL Hc Hall. induction Hall as [|[u' s'] rest Hnp _ IH]; [reflexivity|].
  rewrite HandshakeFacts.users_skip; [exact IH|exact HL| |exact Hnp].
  rewrite HL. apply handshake_counter, Hc.
Qed.

End HandshakeSoundFacts.

(** X13.  An accepted handshake, read backwards.  Its 64 bytes [H] have been taken
    off the client's stream and nothing has been written to the client.  The
    user named in the result is configured, passes, and is the first of the
    configuration who does; the key material of the result is that user's, 48
    bytes; the reader's cipher is the one [H] was decrypted with, 64 bytes
    on, the writer's is at the start of its keystream, and both wrappers work
    byte by byte with an empty buffer. *)
Theorem handle_handshake_sound
  (lib : aes_library) (USERS : users) (reader : StreamReader) (writer : StreamWriter)
  (rd : CryptoWrappedStreamReader.t) (wr : CryptoWrappedStreamWriter.t)
  (u : string) (d : Z) (k : bytes) :
  handle_handshake lib USERS reader writer = Ok (Some (rd, wr, u, d, k)) ->
  exists H pre s post,
    length H = 64%nat
    /\ pending reader = H ++ pending (CryptoWrappedStreamReader.stream rd)
    /\ USERS = pre ++ (u, s) :: post
    /\ Forall (fun e => ~ passes lib H (snd e)) pre
    /\ passes lib H s
    /\ d = dc_index_of (ctr_stream (client_decryptor lib H s) H)
    /\ k = client_enc_key H s ++ client_enc_iv H
    /\ length k = 48%nat
    /\ CryptoWrappedStreamReader.decryptor rd
       = AesCtrCipher (ctr_advance (client_decryptor lib H s) 64)
    /\ CryptoWrappedStreamReader.block_size rd = 1
    /\ CryptoWrappedStreamReader.buf rd = []
    /\ wr = CryptoWrappedStreamWriter.mk writer
              (AesCtrCipher (create_aes_ctr lib (client_enc_key H s)
                               (Py.from_bytes_big (client_enc_iv H)))) 1.
Proof.
  unfold handle_handshake.
  destruct (StreamReader_readexactly HANDSHAKE_LEN reader) as [[H reader']|e] eqn:Er;
    [|discriminate].
  intros Hres. pose proof (IndexFacts.handshake_read _ _ _ Er) as HL.
  destruct (HandshakeSoundFacts.users_first_split lib USERS H reader' writer rd wr u d k
              HL Hres)
    as (pre & s & post & Hsplit & Hpre & Hpass & Hd & Hk & Hrd & Hwr).
  exists H, pre, s, post.
  split; [exact HL|]. split.
  { rewrite Hrd. cbn [CryptoWrappedStreamReader.stream].
    unfold StreamReader_readexactly in Er.
    destruct (Nat.leb_spec HANDSHAKE_LEN (length (pending reader))); [|discriminate].
    assert (E1 : H = firstn HANDSHAKE_LEN (pending reader)) by congruence.
    assert (E2 : reader' = mkStreamReader (drop_segments HANDSHAKE_LEN (segments reader))
                             (eof_fed reader)) by congruence.
    rewrite E1, E2. unfold pending at 3. cbn [segments].
    rewrite concat_drop_segments. symmetry. apply firstn_skipn. }
  split; [exact Hsplit|]. split; [exact Hpre|]. split; [exact Hpass|].
  split; [exact Hd|]. split; [exact Hk|]. split.
  { assert (Hk32 : length (client_enc_key H s) = 32%nat) by apply sha256_digest_length.
    rewrite Hk, length_app, Hk32, (DirectFacts.enc_iv_length H HL). reflexivity. }
  rewrite Hrd. cbn [CryptoWrappedStreamReader.decryptor CryptoWrappedStreamReader.block_size
                    CryptoWrappedStreamReader.buf].
  auto.
Qed.

Lemma handle_handshake_sound_witness :
  exists H pre s post,
    length H = 64%nat
    /\ alice = pre ++ ("alice"%string, s) :: post
    /\ passes PyCrypto H s
    /\ 1 = dc_index_of (ctr_stream (client_decryptor PyCrypto H s) H).
Proof.
  destruct (handle_handshake_sound PyCrypto alice
              (mkStreamReader [handshake_head ++ [x05; x87; x95; x4f; x4c; xe6; xb4; xf7]] false)
              (mkStreamWriter [])
              (CryptoWrappedStreamReader.mk (mkStreamReader [] false)
                 (AesCtrCipher
                    (ctr_advance
                       (client_decryptor PyCrypto
                          (handshake_head ++ [x05; x87; x95; x4f; x4c; xe6; xb4; xf7])
                          (repeat x00 16)) 64)) 1 [])
              (CryptoWrappedStreamWriter.mk (mkStreamWriter [])
                 (AesCtrCipher
                    (create_aes_ctr PyCrypto
                       (client_enc_key
                          (handshake_head ++ [x05; x87; x95; x4f; x4c; xe6; xb4; xf7])
                          (repeat x00 16))
                       (Py.from_bytes_big
                          (client_enc_iv
                             (handshake_head ++ [x05; x87; x95; x4f; x4c; xe6; xb4; xf7])))))
                 1)
              "alice"%string 1
              (client_enc_key (handshake_head ++ [x05; x87; x95; x4f; x4c; xe6; xb4; xf7])
                 (repeat x00 16)
               ++ client_enc_iv (handshake_head ++ [x05; x87; x95; x4f; x4c; xe6; xb4; xf7])))
    as (H & pre & s & post & HL & _ & Hsplit & _ & Hpass & Hd & _).
  - vm_compute. reflexivity.
  - exists H, pre, s, post. auto.
Defined.

(** X14.  A handshake that is turned down.  With fewer than 64 bytes to come
    the read fails with [IncompleteReadError].  With 64 bytes [H], and unless
    the counter taken from [H] would wrap within them under [Crypto], the
    answer is [False] exactly when no configured user passes, whatever the
    number of users and their order. *)
Theorem handle_handshake_rejects
  (lib : aes_library) (USERS : users) (reader : StreamReader) (writer : StreamWriter) :
  ((length (pending reader) < 64)%nat ->
   handle_handshake lib USERS reader writer = Raise IncompleteReadError)
  /\ forall H rest,
       length H = 64%nat ->
       pending reader = H ++ rest ->
       lib = PyAES \/ client_dec_iv H + 3 < 2 ^ 128 ->
       (handle_handshake lib USERS reader writer = Ok None
        <-> Forall (fun e => ~ passes lib H (snd e)) USERS).
Proof.
  split.
  - intros Hshort. unfold handle_handshake.
    rewrite readexactly_short by exact Hshort. reflexivity.
  - intros H rest HL Hp Hc.
    destruct (HandshakeFacts.read_handshake H rest reader HL Hp) as (reader' & Hr & _).
    unfold handle_handshake. rewrite Hr. split.
    + apply HandshakeSoundFacts.users_none, HL.
    + apply HandshakeSoundFacts.users_all_fail; assumption.
Qed.

Lemma handle_handshake_rejects_witness :
  Forall (fun e => ~ passes PyCrypto (repeat x00 64) (snd e)) alice.
Proof.
  destruct (handle_handshake_rejects PyCrypto alice
              (mkStreamReader [repeat x00 64; [x01; x02]] false) (mkStreamWriter []))
    as [_ Hfull].
  apply (Hfull (repeat x00 64) [x01; x02]).
  - reflexivity.
  - reflexivity.
  - right. vm_compute. reflexivity.
  - vm_compute. reflexivity.
Defined.

(** ** The handshake with the datacenter *)

Module NonceFacts.

Lemma bytes_in_false (b : bytes) (l : list bytes) : bytes_in b l = false -> ~ In b l.
Proof.
  unfold bytes_in. intros Hf Hin.
  assert (Ht : existsb (bytes_eqb b) l = true).
  { apply existsb_exists. exists b. split; [exact Hin|].
    apply HandshakeFacts.bytes_eqb_eq. reflexivity. }
  congruence.
Qed.

(** A drawn array that ends the loop starts with no reserved bytes. *)
Lemma draw_nonce_free (draws : list bytes) (rnd : bytes) :
  draw_nonce draws = Ok rnd ->
  In rnd draws
  /\ ~ In (firstn 1 rnd) RESERVED_NONCE_FIRST_CHARS
  /\ ~ In (firstn 4 rnd) RESERVED_NONCE_BEGININGS
  /\ ~ In (Py.slice 4 8 rnd) RESERVED_NONCE_CONTINUES.
Proof.
  induction draws as [|r later IH]; [discriminate|].
  cbn [draw_nonce].
  destruct (bytes_in (firstn 1 r) RESERVED_NONCE_FIRST_CHARS) eqn:E1;
    [intros Hd; destruct (IH Hd) as [Hin Hrest]; split; [right; exact Hin|exact Hrest]|].
  destruct (bytes_in (firstn 4 r) RESERVED_NONCE_BEGININGS) eqn:E2;
    [intros Hd; destruct (IH Hd) as [Hin Hrest]; split; [right; exact Hin|exact Hrest]|].
  destruct (bytes_in (Py.slice 4 8 r) RESERVED_NONCE_CONTINUES) eqn:E3;
    [intros Hd; destruct (IH Hd) as [Hin Hrest]; split; [right; exact Hin|exact Hrest]|].
  intros Hd. assert (r = rnd) by congruence. subst r.
  split; [left; reflexivity|].
  split; [apply bytes_in_false, E1|].
  split; [apply bytes_in_false, E2|apply bytes_in_false, E3].
Qed.

(** The first eight bytes decide the three checks. *)
Lemma head_decides {A : Type} (a b : list A) :
  firstn 8 a = firstn 8 b ->
  firstn 1 a = firstn 1 b /\ firstn 4 a = firstn 4 b /\ Py.slice 4 8 a = Py.slice 4 8 b.
Proof.
  intros H8.
  assert (H1 : forall l : list A, firstn 1 l = firstn 1 (firstn 8 l))
    by (intros l; rewrite firstn_firstn; reflexivity).
  assert (H4 : forall l : list A, firstn 4 l = firstn 4 (firstn 8 l))
    by (intros l; rewrite firstn_firstn; reflexivity).
  assert (Hs : forall l : list A, Py.slice 4 8 l = skipn 4 (firstn 8 l))
    by (intros l; unfold Py.slice; rewrite skipn_firstn_comm; reflexivity).
  rewrite (H1 a), (H1 b), (H4 a), (H4 b), (Hs a), (Hs b), H8. auto.
Qed.

Lemma head_of_set_magic {A : Type} (v s : list A) :
  length s = 64%nat ->
  firstn 8 (set_slice 56 60 v s) = firstn 8 s.
Proof.
  intros HL. unfold set_slice.
  rewrite firstn_app, firstn_firstn, length_firstn, HL.
  change (8 - Nat.min 56 64)%nat with 0%nat. change (Nat.min 8 56) with 8%nat.
  rewrite firstn_O, app_nil_r. reflexivity.
Qed.

Lemma tail_of_set_magic {A : Type} (v s : list A) :
  length s = 64%nat ->
  skipn 56 (set_slice 56 60 v s) = v ++ skipn 60 s.
Proof.
  intros HL. unfold set_slice.
  rewrite skipn_app, length_firstn, HL.
  change (56 - Nat.min 56 64)%nat with 0%nat. rewrite skipn_O.
  rewrite skipn_all2 by (rewrite length_firstn; lia). reflexivity.
Qed.

Lemma head_of_set_keys {A : Type} (v s : list A) :
  length s = 64%nat ->
  firstn 8 (set_slice 8 56 v s) = firstn 8 s.
Proof.
  intros HL. unfold set_slice.
  rewrite firstn_app, firstn_firstn, length_firstn, HL.
  change (8 - Nat.min 8 64)%nat with 0%nat. change (Nat.min 8 8) with 8%nat.
  rewrite firstn_O, app_nil_r. reflexivity.
Qed.

Lemma tail_of_set_keys {A : Type} (v s : list A) :
  length s = 64%nat -> length v = 48%nat ->
  skipn 56 (set_slice 8 56 v s) = skipn 56 s.
Proof.
  intros HL Hv. unfold set_slice.
  rewrite skipn_app, length_firstn, HL.
  change (56 - Nat.min 8 64)%nat with 48%nat.
  rewrite skipn_all2 by (rewrite length_firstn; lia).
  rewrite skipn_app, Hv, Nat.sub_diag, skipn_O.
  rewrite skipn_all2 by lia. reflexivity.
Qed.

(** The array the nonce is made of, and what is made of it. *)
Lemma direct_shape (lib : aes_library) (PREFER_IPV6 : bool)
    (open_connection : connector) (draws : list bytes) (d : Z) (key : option bytes)
    (rd : CryptoWrappedStreamReader.t) (wr : CryptoWrappedStreamWriter.t) :
  Forall (fun rnd => length rnd = HANDSHAKE_LEN) draws ->
  (forall k, key = Some k -> k = [] \/ length k = 48%nat) ->
  do_direct_handshake lib PREFER_IPV6 open_connection draws d key = Ok (Some (rd, wr)) ->
  exists (r0 : StreamReader) (w0 : StreamWriter) (rnd0 rnd : bytes),
    open_connection
      (nth (Z.to_nat d) (if PREFER_IPV6 then TG_DATACENTERS_V6 else TG_DATACENTERS_V4)
           ""%string) TG_DATACENTER_PORT = Some (r0, w0)
    /\ draw_nonce draws = Ok rnd0
    /\ length rnd = 64%nat
    /\ firstn 8 rnd = firstn 8 rnd0
    /\ skipn 56 rnd = MAGIC_VAL_TO_CHECK ++ skipn 60 rnd0
    /\ let c0 := create_aes_ctr lib (Py.slice 8 40 rnd)
                   (Py.from_bytes_big (Py.slice 40 56 rnd)) in
       counter_wraps c0 64 = false
       /\ rd = CryptoWrappedStreamReader.mk r0
                 (AesCtrCipher
                    (create_aes_ctr lib (firstn 32 (rev (Py.slice 8 56 rnd)))
                       (Py.from_bytes_big (skipn 32 (rev (Py.slice 8 56 rnd)))))) 1 []
       /\ wr = CryptoWrappedStreamWriter.mk
                 (mkStreamWriter (sent w0 ++ firstn 56 rnd ++ skipn 56 (ctr_stream c0 rnd)))
                 (AesCtrCipher (ctr_advance c0 64)) 1.
Proof.
  intros Hdraws Hkey. unfold do_direct_handshake.
  destruct (negb _); [discriminate|].
  set (dc := nth (Z.to_nat d) _ ""%string).
  destruct (open_connection dc TG_DATACENTER_PORT) as [[r0 w0]|] eqn:Ec; [|discriminate].
  destruct (draw_nonce draws) as [rnd0|e] eqn:Ed; [|discriminate].
  assert (H0 : length rnd0 = 64%nat).
  { apply DirectFacts.draw_nonce_in in Ed. rewrite Forall_forall in Hdraws.
    exact (Hdraws _ Ed). }
  change (MAGIC_VAL_POS + 4)%nat with 60%nat. change MAGIC_VAL_POS with 56%nat.
  change (SKIP_LEN + KEY_LEN + IV_LEN)%nat with 56%nat.
  change SKIP_LEN with 8%nat. change KEY_LEN with 32%nat.
  set (rnd1 := set_slice 56 60 MAGIC_VAL_TO_CHECK rnd0).
  assert (H1 : length rnd1 = 64%nat).
  { unfold rnd1. rewrite DirectFacts.set_slice_length by lia. rewrite H0. reflexivity. }
  set (rnd := if truthy key
              then set_slice 8 56 (rev match key with Some k => k | None => [] end) rnd1
              else rnd1).
  assert (Hrnd : length rnd = 64%nat /\ firstn 8 rnd = firstn 8 rnd1
                 /\ skipn 56 rnd = skipn 56 rnd1).
  { unfold rnd. destruct key as [k|]; [|cbn [truthy]; auto].
    destruct (Hkey k eq_refl) as [->|Hk]; [cbn [truthy]; auto|].
    assert (Ht : truthy (Some k) = true) by (destruct k; [discriminate|reflexivity]).
    rewrite Ht. split; [|split].
    - rewrite DirectFacts.set_slice_length by lia. rewrite length_rev, Hk, H1. reflexivity.
    - apply head_of_set_keys, H1.
    - apply tail_of_set_keys; [exact H1|rewrite length_rev; exact Hk]. }
  destruct Hrnd as (HL & Hhead & Htail).
  replace (firstn 32 (Py.slice 8 56 rnd)) with (Py.slice 8 40 rnd)
    by (symmetry; apply (HandshakeFacts.prekey_slice rnd)).
  replace (skipn 32 (Py.slice 8 56 rnd)) with (Py.slice 40 56 rnd)
    by (symmetry; apply (HandshakeFacts.iv_slice rnd)).
  set (c0 := create_aes_ctr lib (Py.slice 8 40 rnd) (Py.from_bytes_big (Py.slice 40 56 rnd))).
  destruct (ctr_crypt rnd c0) as [[encrypted c_enc]|e] eqn:Ee; [|discriminate].
  destruct (HandshakeFacts.ctr_crypt_inv _ _ _ _ Ee) as (Hw & Hout & Hc).
  rewrite HL in Hw, Hout, Hc.
  unfold StreamWriter_write. intros Hres.
  exists r0, w0, rnd0, rnd.
  split; [reflexivity|]. split; [reflexivity|]. split; [exact HL|].
  split; [rewrite Hhead; apply head_of_set_magic, H0|].
  split; [rewrite Htail; apply tail_of_set_magic, H0|].
  cbv zeta. fold c0. split; [exact Hw|].
  assert (Hstream : encrypted = ctr_stream c0 rnd)
    by (unfold ctr_stream; rewrite HL; exact Hout).
  rewrite <- Hstream. unfold ctr_advance. rewrite <- Hc.
  split; congruence.
Qed.

(** What the datacenter makes of the nonce. *)
Lemma nonce_opens (c0 : AesCtr) (rnd tail : bytes) :
  length rnd = 64%nat ->
  skipn 56 rnd = MAGIC_VAL_TO_CHECK ++ tail ->
  Py.slice 56 60 (ctr_stream c0 (firstn 56 rnd ++ skipn 56 (ctr_stream c0 rnd)))
  = MAGIC_VAL_TO_CHECK.
Proof.
  intros HL Htail.
  set (A := firstn 56 rnd). set (R := skipn 56 rnd).
  assert (HA : length A = 56%nat) by (unfold A; rewrite length_firstn, HL; reflexivity).
  assert (Hsplit : rnd = A ++ R) by (symmetry; apply firstn_skipn).
  assert (Hcut : skipn 56 (ctr_stream c0 rnd) = ctr_stream (ctr_advance c0 56) R).
  { rewrite Hsplit at 1. rewrite CtrFacts.ctr_stream_app, HA, skipn_app.
    rewrite CtrFacts.ctr_stream_length, HA, Nat.sub_diag, skipn_O.
    rewrite skipn_all2 by (rewrite CtrFacts.ctr_stream_length; lia). reflexivity. }
  rewrite Hcut, CtrFacts.ctr_stream_app, HA, CtrFacts.ctr_stream_twice.
  unfold Py.slice. change (60 - 56)%nat with 4%nat.
  rewrite skipn_app, CtrFacts.ctr_stream_length, HA, Nat.sub_diag, skipn_O.
  rewrite skipn_all2 by (rewrite CtrFacts.ctr_stream_length; lia).
  unfold R. rewrite Htail. reflexivity.
Qed.

Lemma nonce_length (c0 : AesCtr) (rnd : bytes) :
  length rnd = 64%nat ->
  length (firstn 56 rnd ++ skipn 56 (ctr_stream c0 rnd)) = 64%nat.
Proof.
  intros HL.
  rewrite length_app, length_firstn, length_skipn, CtrFacts.ctr_stream_length, HL.
  reflexivity.
Qed.

Lemma nonce_head (rnd tail : bytes) :
  length rnd = 64%nat -> firstn 8 (firstn 56 rnd ++ tail) = firstn 8 rnd.
Proof.
  intros HL. rewrite firstn_app, firstn_firstn, length_firstn, HL.
  change (8 - Nat.min 56 64)%nat with 0%nat. change (Nat.min 8 56) with 8%nat.
  rewrite firstn_O, app_nil_r. reflexivity.
Qed.

End NonceFacts.

(** X15.  The nonce sent to the datacenter.  When [do_direct_handshake] succeeds,
    the index is one of the table, the connection is the one opened to that
    entry on port 443, and exactly 64 bytes have been written to it.  Their
    first eight bytes are those of one of the arrays drawn, untouched; so the
    nonce does not start with [EF], nor with [HEAD], [POST], [GET ] or
    [EE EE EE EE], and its bytes 4 to 8 are not all zero: the datacenter will
    not take it for another protocol. *)
Theorem direct_handshake_nonce_not_reserved
  (lib : aes_library) (PREFER_IPV6 : bool) (open_connection : connector)
  (draws : list bytes) (d : Z) (key : option bytes)
  (rd : CryptoWrappedStreamReader.t) (wr : CryptoWrappedStreamWriter.t) :
  let table := if PREFER_IPV6 then TG_DATACENTERS_V6 else TG_DATACENTERS_V4 in
  Forall (fun rnd => length rnd = HANDSHAKE_LEN) draws ->
  (forall k, key = Some k -> k = [] \/ length k = 48%nat) ->
  do_direct_handshake lib PREFER_IPV6 open_connection draws d key = Ok (Some (rd, wr)) ->
  exists dc r0 w0 nonce rnd0,
    0 <= d
    /\ nth_error table (Z.to_nat d) = Some dc
    /\ open_connection dc 443 = Some (r0, w0)
    /\ CryptoWrappedStreamReader.stream rd = r0
    /\ sent (CryptoWrappedStreamWriter.stream wr) = sent w0 ++ nonce
    /\ length nonce = 64%nat
    /\ In rnd0 draws
    /\ firstn 8 nonce = firstn 8 rnd0
    /\ ~ In (firstn 1 nonce) RESERVED_NONCE_FIRST_CHARS
    /\ ~ In (firstn 4 nonce) RESERVED_NONCE_BEGININGS
    /\ ~ In (Py.slice 4 8 nonce) RESERVED_NONCE_CONTINUES.
Proof.
  intros table Hdraws Hkey Hres.
  pose proof (IndexFacts.direct_index_checked _ _ _ _ _ _ _ Hres) as Hd.
  destruct (NonceFacts.direct_shape lib PREFER_IPV6 open_connection draws d key rd wr
              Hdraws Hkey Hres)
    as (r0 & w0 & rnd0 & rnd & Hconn & Hdraw & HL & Hhead & _ & _ & Hrd & Hwr).
  destruct (NonceFacts.draw_nonce_free draws rnd0 Hdraw) as (Hin & F1 & F4 & F8).
  set (c0 := create_aes_ctr lib (Py.slice 8 40 rnd)
               (Py.from_bytes_big (Py.slice 40 56 rnd))) in *.
  set (nonce := firstn 56 rnd ++ skipn 56 (ctr_stream c0 rnd)) in *.
  assert (H8 : firstn 8 nonce = firstn 8 rnd0)
    by (unfold nonce; rewrite NonceFacts.nonce_head by exact HL; exact Hhead).
  destruct (NonceFacts.head_decides nonce rnd0 H8) as (E1 & E4 & E48).
  exists (nth (Z.to_nat d) table ""%string), r0, w0, nonce, rnd0.
  split; [lia|]. split.
  { apply nth_error_nth'.
    assert (length table = 5%nat) by (unfold table; destruct PREFER_IPV6; reflexivity).
    lia. }
  split; [exact Hconn|]. split; [rewrite Hrd; reflexivity|].
  split; [rewrite Hwr; reflexivity|].
  split; [apply NonceFacts.nonce_length, HL|].
  split; [exact Hin|]. split; [exact H8|].
  rewrite E1, E4, E48. auto.
Qed.

Lemma direct_handshake_nonce_not_reserved_witness :
  exists rd wr nonce,
    do_direct_handshake PyCrypto false example_connection example_draws 1 None
      = Ok (Some (rd, wr))
    /\ length nonce = 64%nat
    /\ ~ In (firstn 1 nonce) RESERVED_NONCE_FIRST_CHARS
    /\ ~ In (firstn 4 nonce) RESERVED_NONCE_BEGININGS
    /\ ~ In (Py.slice 4 8 nonce) RESERVED_NONCE_CONTINUES.
Proof.
  destruct (do_direct_handshake PyCrypto false example_connection example_draws 1 None)
    as [[[rd wr]|]|e] eqn:E; try (vm_compute in E; discriminate E).
  destruct (direct_handshake_nonce_not_reserved PyCrypto false example_connection
              example_draws 1 None rd wr)
    as (dc & r0 & w0 & nonce & rnd0 & _ & _ & _ & _ & _ & HL & _ & _ & F1 & F4 & F8).
  - repeat constructor.
  - intros k Hk. discriminate Hk.
  - exact E.
  - exists rd, wr, nonce. auto.
Defined.

(** X16.  The nonce as the datacenter reads it, and the ciphers that go with
    it.  A peer that takes key and counter from bytes 8 to 56 of the 64 bytes
    sent, as they are, and decrypts the 64 bytes in counter mode finds
    [EF EF EF EF] at offset 56; its cipher is then in the very state of the
    encryptor the proxy goes on with, so what the proxy writes next is what
    the peer decrypts next.  The decryptor of the proxy is made of the same 48
    bytes reversed, at the start of its keystream. *)
Theorem direct_handshake_nonce_decrypts
  (lib : aes_library) (PREFER_IPV6 : bool) (open_connection : connector)
  (draws : list bytes) (d : Z) (key : option bytes)
  (rd : CryptoWrappedStreamReader.t) (wr : CryptoWrappedStreamWriter.t) :
  Forall (fun rnd => length rnd = HANDSHAKE_LEN) draws ->
  (forall k, key = Some k -> k = [] \/ length k = 48%nat) ->
  do_direct_handshake lib PREFER_IPV6 open_connection draws d key = Ok (Some (rd, wr)) ->
  exists w0 nonce plain c',
    sent (CryptoWrappedStreamWriter.stream wr) = sent w0 ++ nonce
    /\ ctr_crypt nonce
         (create_aes_ctr lib (Py.slice 8 40 nonce) (Py.from_bytes_big (Py.slice 40 56 nonce)))
       = Ok (plain, c')
    /\ Py.slice 56 60 plain = MAGIC_VAL_TO_CHECK
    /\ CryptoWrappedStreamWriter.encryptor wr = AesCtrCipher c'
    /\ CryptoWrappedStreamWriter.block_size wr = 1
    /\ rd = CryptoWrappedStreamReader.mk (CryptoWrappedStreamReader.stream rd)
              (AesCtrCipher
                 (create_aes_ctr lib (Py.slice 0 32 (rev (Py.slice 8 56 nonce)))
                    (Py.from_bytes_big (skipn 32 (rev (Py.slice 8 56 nonce)))))) 1 [].
Proof.
  intros Hdraws Hkey Hres.
  destruct (NonceFacts.direct_shape lib PREFER_IPV6 open_connection draws d key rd wr
              Hdraws Hkey Hres)
    as (r0 & w0 & rnd0 & rnd & _ & _ & HL & _ & Htail & Hw & Hrd & Hwr).
  set (c0 := create_aes_ctr lib (Py.slice 8 40 rnd)
               (Py.from_bytes_big (Py.slice 40 56 rnd))) in *.
  set (nonce := firstn 56 rnd ++ skipn 56 (ctr_stream c0 rnd)) in *.
  assert (Hnl : length nonce = 64%nat) by apply NonceFacts.nonce_length, HL.
  assert (Hs : Py.slice 8 56 nonce = Py.slice 8 56 rnd)
    by (apply DirectFacts.slice_of_sent, HL).
  assert (Hk : Py.slice 8 40 nonce = Py.slice 8 40 rnd).
  { rewrite <- (HandshakeFacts.prekey_slice nonce), <- (HandshakeFacts.prekey_slice rnd).
    change (SKIP_LEN + PREKEY_LEN + IV_LEN)%nat with 56%nat. change SKIP_LEN with 8%nat.
    rewrite Hs. reflexivity. }
  assert (Hi : Py.slice 40 56 nonce = Py.slice 40 56 rnd).
  { rewrite <- (HandshakeFacts.iv_slice nonce), <- (HandshakeFacts.iv_slice rnd).
    change (SKIP_LEN + PREKEY_LEN + IV_LEN)%nat with 56%nat. change SKIP_LEN with 8%nat.
    rewrite Hs. reflexivity. }
  exists w0, nonce, (ctr_stream c0 nonce), (ctr_advance c0 64).
  split; [rewrite Hwr; reflexivity|].
  split.
  { rewrite Hk, Hi. fold c0.
    rewrite HandshakeFacts.ctr_crypt_ok by (rewrite Hnl; exact Hw).
    unfold ctr_stream, ctr_advance. rewrite Hnl. reflexivity. }
  split; [apply (NonceFacts.nonce_opens c0 rnd (skipn 60 rnd0) HL Htail)|].
  split; [rewrite Hwr; reflexivity|]. split; [rewrite Hwr; reflexivity|].
  rewrite Hs. rewrite Hrd at 1. cbn [CryptoWrappedStreamReader.stream].
  rewrite Hrd. reflexivity.
Qed.

Lemma direct_handshake_nonce_decrypts_witness :
  exists rd wr (nonce plain : bytes) c',
    do_direct_handshake PyCrypto false example_connection example_draws 1 None
      = Ok (Some (rd, wr))
    /\ ctr_crypt nonce
         (create_aes_ctr PyCrypto (Py.slice 8 40 nonce)
            (Py.from_bytes_big (Py.slice 40 56 nonce)))
       = Ok (plain, c')
    /\ Py.slice 56 60 plain = MAGIC_VAL_TO_CHECK
    /\ CryptoWrappedStreamWriter.encryptor wr = AesCtrCipher c'.
Proof.
  destruct (do_direct_handshake PyCrypto false example_connection example_draws 1 None)
    as [[[rd wr]|]|e] eqn:E; try (vm_compute in E; discriminate E).
  destruct (direct_handshake_nonce_decrypts PyCrypto false example_connection
              example_draws 1 None rd wr)
    as (w0 & nonce & plain & c' & _ & Hc & Hm & He & _).
  - repeat constructor.
  - intros k Hk. discriminate Hk.
  - exact E.
  - exists rd, wr, nonce, plain, c'. auto.
Defined.

(** ** Statistics *)

Module StatsFacts.

Lemma dict_get_set_same {V : Type} (k : string) (v : V) (d : list (string * V)) :
  dict_get k (dict_set k v d) = Some v.
Proof.
  induction d as [|[k' v'] d IH]; cbn [dict_set dict_get].
  - rewrite String.eqb_refl. reflexivity.
  - destruct (String.eqb k' k) eqn:E; cbn [dict_get]; rewrite E; [reflexivity|exact IH].
Qed.

Lemma dict_get_set_other {V : Type} (k k0 : string) (v : V) (d : list (string * V)) :
  k0 <> k -> dict_get k0 (dict_set k v d) = dict_get k0 d.
Proof.
  intros Hne. induction d as [|[k' v'] d IH]; cbn [dict_set dict_get].
  - destruct (String.eqb_spec k k0); [congruence|reflexivity].
  - destruct (String.eqb_spec k' k) as [->|Hk]; cbn [dict_get].
    + destruct (String.eqb_spec k k0); [congruence|reflexivity].
    + destruct (String.eqb k' k0); [reflexivity|exact IH].
Qed.

Lemma dict_keys_set {V : Type} (k : string) (v : V) (d : list (string * V)) :
  map fst (dict_set k v d)
  = match dict_get k d with
    | Some _ => map fst d
    | None => map fst d ++ [k]
    end.
Proof.
  induction d as [|[k' v'] d IH]; cbn [dict_set dict_get map fst app]; [reflexivity|].
  destruct (String.eqb k' k); cbn [map fst]; [reflexivity|].
  rewrite IH. destruct (dict_get k d); reflexivity.
Qed.

Lemma update_same (stats : stats_t) (user : string) (a b o : Z) :
  dict_get user (update_stats stats user a b o)
  = Some (counter_update (counter_of user stats) a b o).
Proof.
  unfold update_stats, counter_of.
  destruct (dict_get user stats) as [c|] eqn:E.
  - rewrite E. apply dict_get_set_same.
  - rewrite dict_get_set_same. apply dict_get_set_same.
Qed.

Lemma update_other (stats : stats_t) (user u : string) (a b o : Z) :
  u <> user ->
  dict_get u (update_stats stats user a b o) = dict_get u stats.
Proof.
  intros Hne. unfold update_stats.
  destruct (dict_get user stats) as [c|] eqn:E.
  - rewrite E. apply dict_get_set_other, Hne.
  - rewrite dict_get_set_same. rewrite !dict_get_set_other by exact Hne. reflexivity.
Qed.

Lemma update_keys (stats : stats_t) (user : string) (a b o : Z) :
  map fst (update_stats stats user a b o)
  = match dict_get user stats with
    | Some _ => map fst stats
    | None => map fst stats ++ [user]
    end.
Proof.
  unfold update_stats.
  destruct (dict_get user stats) as [c|] eqn:E.
  - rewrite E, dict_keys_set, E. reflexivity.
  - rewrite dict_get_set_same, dict_keys_set, dict_get_set_same, dict_keys_set, E.
    reflexivity.
Qed.

Lemma init_fold (USERS : users) :
  forall (d : stats_t) (u : string),
    dict_get u (fold_left (fun d us => dict_set (fst us) empty_counter d) USERS d)
    = if named u (map fst USERS) then Some empty_counter else dict_get u d.
Proof.
  induction USERS as [|[k s] USERS IH]; intros d u; [reflexivity|].
  cbn [fold_left map fst named existsb]. rewrite IH. fold (named u (map fst USERS)).
  destruct (named u (map fst USERS)); [rewrite orb_true_r; reflexivity|].
  rewrite orb_false_r.
  destruct (String.eqb_spec k u) as [->|Hne].
  - apply dict_get_set_same.
  - apply dict_get_set_other. congruence.
Qed.

Lemma updates_fold (ups : list (string * (Z * Z * Z))) :
  forall (stats : stats_t) (u : string),
    dict_get u (apply_updates stats ups)
    = match dict_get u stats with
      | Some c => Some (sum_for u ups c)
      | None =>
          if named u (map fst ups) then Some (sum_for u ups empty_counter) else None
      end.
Proof.
  induction ups as [|[user [[a b] o]] ups IH]; intros stats u.
  - cbn. destruct (dict_get u stats); reflexivity.
  - unfold apply_updates, sum_for. cbn [fold_left map fst named existsb].
    fold (apply_updates (update_stats stats user a b o) ups).
    fold (named u (map fst ups)).
    rewrite IH.
    destruct (String.eqb_spec user u) as [->|Hne].
    + rewrite update_same. unfold counter_of.
      destruct (dict_get u stats); reflexivity.
    + rewrite update_other by congruence.
      destruct (dict_get u stats); reflexivity.
Qed.

(** The writer raises nothing the loop would take. *)
Lemma write_raises (data : bytes) (wr : CryptoWrappedStreamWriter.t) (e : exn) :
  CryptoWrappedStreamWriter.write data wr = Raise e -> caught e = false.
Proof.
  unfold CryptoWrappedStreamWriter.write.
  unfold bind at 1, CryptoWrappedStreamWriter.get_block_size.
  destruct (negb _); [discriminate|].
  unfold bind, CryptoWrappedStreamWriter.on_encryptor, CryptoWrappedStreamWriter.on_stream,
    encrypt, cipher_apply, StreamWriter_write.
  destruct (CryptoWrappedStreamWriter.encryptor wr) as [c|]; [|discriminate].
  unfold ctr_crypt. destruct (counter_wraps c (length data)); [|discriminate].
  intros E. assert (e = OverflowError) by congruence. subst e. reflexivity.
Qed.

(** The loop with the statistics against the loop without. *)
Lemma forward_stats_agrees (fuel n : nat) (user : string) :
  forall (rd : CryptoWrappedStreamReader.t) (wr : CryptoWrappedStreamWriter.t)
         (octets0 : Z) (stats : stats_t) (c : Counter),
    dict_get user stats = Some c ->
    exists m,
      0 <= m
      /\ dict_get user (snd (forward_stats fuel n user rd wr stats))
         = Some (counter_update c 0 0 m)
      /\ (forall u, u <> user ->
            dict_get u (snd (forward_stats fuel n user rd wr stats)) = dict_get u stats)
      /\ match forward fuel n rd wr octets0 with
         | Ok (rd', wr', total) =>
             fst (forward_stats fuel n user rd wr stats) = Ok (rd', wr')
             /\ total = octets0 + m
         | Raise e => fst (forward_stats fuel n user rd wr stats) = Raise e
         end.
Proof.
  assert (Hzero : forall c : Counter, c = counter_update c 0 0 0)
    by (intros [x y z]; unfold counter_update; cbn; f_equal; lia).
  induction fuel as [|fuel IH]; intros rd wr octets0 stats c Hc.
  - exists 0. cbn [forward_stats forward fst snd]. rewrite <- Hzero. auto with zarith.
  - cbn [forward_stats forward].
    destruct (CryptoWrappedStreamReader.read n rd) as [[data rd1]|e].
    + destruct (is_empty data) eqn:Ee.
      * exists 0. cbn [fst snd]. rewrite <- Hzero, Z.add_0_r. auto with zarith.
      * set (stats1 := update_stats stats user 0 0 (Z.of_nat (length data))).
        assert (Hc1 : dict_get user stats1
                      = Some (counter_update c 0 0 (Z.of_nat (length data)))).
        { unfold stats1. rewrite update_same. unfold counter_of. rewrite Hc. reflexivity. }
        destruct (CryptoWrappedStreamWriter.write data wr) as [[r wr1]|e] eqn:Ew.
        -- destruct (IH rd1 wr1 (octets0 + Z.of_nat (length data)) stats1 _ Hc1)
             as (m & Hm & Hget & Hother & Hres).
           exists (Z.of_nat (length data) + m).
           split; [lia|]. split.
           { rewrite Hget. unfold counter_update. cbn. f_equal. f_equal; lia. }
           split.
           { intros u Hu. rewrite (Hother u Hu). unfold stats1.
             apply update_other, Hu. }
           destruct (forward fuel n rd1 wr1 (octets0 + Z.of_nat (length data)))
             as [[[rd' wr'] total]|e]; [|exact Hres].
           destruct Hres as [Hr Ht]. split; [exact Hr|lia].
        -- exists (Z.of_nat (length data)). cbn [fst snd].
           rewrite (write_raises data wr e Ew).
           split; [lia|]. split; [exact Hc1|].
           split; [|reflexivity].
           intros u Hu. unfold stats1. apply update_other, Hu.
    + exists 0. cbn [fst snd]. rewrite <- Hzero, Z.add_0_r.
      split; [lia|]. split; [exact Hc|]. split; [reflexivity|].
      destruct (caught e); auto.
Qed.

End StatsFacts.

(** X17.  [update_stats] as a dictionary sees it: the three values are added to
    the counter of the user, which starts from zero for a user the dictionary
    did not hold; no other counter changes; the keys keep their order, a new
    user coming last. *)
Theorem update_stats_adds
  (stats : stats_t) (user : string) (a b o : Z) :
  let stats' := update_stats stats user a b o in
  dict_get user stats' = Some (counter_update (counter_of user stats) a b o)
  /\ (forall u, u <> user -> dict_get u stats' = dict_get u stats)
  /\ map fst stats'
     = match dict_get user stats with
       | Some _ => map fst stats
       | None => map fst stats ++ [user]
       end.
Proof.
  cbv zeta. split; [apply StatsFacts.update_same|].
  split; [intros u Hu; apply StatsFacts.update_other, Hu|apply StatsFacts.update_keys].
Qed.

(** X18.  The statistics are sums.  After [init_stats] and any calls of
    [update_stats], the dictionary holds a counter for the configured users
    and for the users named in a call, and for nobody else; each counter holds
    what the calls for its user add up to. *)
Theorem stats_are_sums
  (USERS : users) (ups : list (string * (Z * Z * Z))) (u : string) :
  dict_get u (apply_updates (init_stats USERS) ups)
  = if named u (map fst USERS) || named u (map fst ups)
    then Some (sum_for u ups empty_counter)
    else None.
Proof.
  rewrite StatsFacts.updates_fold. unfold init_stats. rewrite StatsFacts.init_fold.
  cbn [dict_get].
  destruct (named u (map fst USERS)); reflexivity.
Qed.

(** X19.  [connect_reader_to_writer] and the statistics.  Whatever way the loop
    ends, by end of stream, by an exception it takes or by one it lets
    through, the user's count of half connections is back to what it was on
    entry and the count of connections is untouched; the octets have grown by
    the length of the chunks read, which is what the loop reports when it ends
    well; no other user's counter has changed, and the loop itself goes as it
    does without the statistics. *)
Theorem relay_statistics
  (READ_BUF_SIZE : nat) (user : string)
  (rd : CryptoWrappedStreamReader.t) (wr : CryptoWrappedStreamWriter.t)
  (stats : stats_t) :
  exists res stats' c' m,
    connect_reader_to_writer_stats READ_BUF_SIZE user rd wr stats = (res, stats')
    /\ dict_get user stats' = Some c'
    /\ connects c' = connects (counter_of user stats)
    /\ curr_connects_x2 c' = curr_connects_x2 (counter_of user stats)
    /\ octets c' = octets (counter_of user stats) + m
    /\ 0 <= m
    /\ (forall u, u <> user -> dict_get u stats' = dict_get u stats)
    /\ match connect_reader_to_writer READ_BUF_SIZE rd wr with
       | Ok (rd', wr', total) => res = Ok (rd', wr') /\ total = m
       | Raise e => res = Raise e
       end.
Proof.
  unfold connect_reader_to_writer_stats, connect_reader_to_writer.
  set (fuel := S (stream_measure (CryptoWrappedStreamReader.stream rd))).
  set (stats1 := update_stats stats user 0 1 0).
  destruct (StatsFacts.forward_stats_agrees fuel READ_BUF_SIZE user rd wr 0 stats1
              (counter_update (counter_of user stats) 0 1 0))
    as (m & Hm & Hget & Hother & Hres);
    [apply StatsFacts.update_same|].
  destruct (forward_stats fuel READ_BUF_SIZE user rd wr stats1) as [res stats2].
  cbn [fst snd] in *.
  exists res, (update_stats stats2 user 0 (-1) 0),
    (counter_update (counter_of user stats2) 0 (-1) 0), m.
  split; [reflexivity|]. split; [apply StatsFacts.update_same|].
  assert (Hc2 : counter_of user stats2
                = counter_update (counter_update (counter_of user stats) 0 1 0) 0 0 m)
    by (unfold counter_of at 1; rewrite Hget; reflexivity).
  rewrite Hc2. unfold counter_update. cbn [connects curr_connects_x2 octets].
  split; [lia|]. split; [lia|]. split; [lia|]. split; [exact Hm|].
  split.
  - intros u Hu. rewrite StatsFacts.update_other by exact Hu.
    rewrite (Hother u Hu). apply StatsFacts.update_other, Hu.
  - destruct (forward fuel READ_BUF_SIZE rd wr 0) as [[[rd' wr'] total]|e];
      [|exact Hres].
    destruct Hres as [Hr Ht]. split; [exact Hr|lia].
Qed.
